(** * Checkpoint orchestration of Megatron-LM: a shallow embedding

    The development follows [megatron/training/checkpointing.py]: the
    checkpoint directory protocol (tracker file, iteration directories), the
    module-level checkpoint version, the choice between persistent and
    non-persistent checkpoints, the planning of a [torch_dist] load and the
    entry of [save_checkpoint].  The distributed-checkpointing package
    itself ([megatron.core.dist_checkpointing]) is observed through its unit
    tests in [tests/unit_tests/dist_checkpointing/test_serialization.py].

    Python strings are modelled as [string] whose characters are read as
    code points below 256, integers as [Z], dictionaries with string keys as
    [gmap string _], sets of keys as [gset string]. *)

From Stdlib Require Import ZArith String Ascii List Lia Bool.
From Stdlib Require Import DecimalString DecimalPos DecimalZ DecimalFacts.
From stdpp Require Import gmap strings list.

Local Open Scope string_scope.
Local Open Scope Z_scope.

#[local] Arguments String.append !s1 s2 : simpl nomatch.
#[local] Set Warnings "-clear-no-such-hyp".

(** ** Python strings *)

Module PyStr.

(** [str.isspace] on the code points below 256: TAB..CR, FS..US, SPACE,
    NEL (0x85) and NBSP (0xa0). *)
Definition isspace (c : ascii) : bool :=
  let n := nat_of_ascii c in
  ((9 <=? n)%nat && (n <=? 13)%nat) || ((28 <=? n)%nat && (n <=? 32)%nat)
  || (n =? 133)%nat || (n =? 160)%nat.

Fixpoint lstrip (s : string) : string :=
  match s with
  | String c r => if isspace c then lstrip r else s
  | EmptyString => EmptyString
  end.

Fixpoint rstrip (s : string) : string :=
  match s with
  | EmptyString => EmptyString
  | String c r =>
      match rstrip r with
      | EmptyString => if isspace c then EmptyString else String c EmptyString
      | r' => String c r'
      end
  end.

(** [s.strip()] *)
Definition strip (s : string) : string := rstrip (lstrip s).

(** The digits of an integer literal handed to [int()]: decimal digits,
    single underscores allowed between two digits only.  [after_digit]
    records that the previous character was a digit. *)
Fixpoint parse_digits (after_digit : bool) (s : string) : option Decimal.uint :=
  match s with
  | EmptyString => if after_digit then Some Decimal.Nil else None
  | String c r =>
      if Ascii.eqb c "_"
      then if after_digit then parse_digits false r else None
      else uint_of_char c (parse_digits true r)
  end.

(** [int(s)] for a [str] argument in base 10: [None] stands for
    [ValueError].  The interpreter's optional limit on the number of digits
    ([sys.set_int_max_str_digits]) is taken to be off. *)
Definition int (s : string) : option Z :=
  match strip s with
  | String "+" r => Z.of_uint <$> parse_digits false r
  | String "-" r => (fun u => - Z.of_uint u) <$> parse_digits false r
  | t => Z.of_uint <$> parse_digits false t
  end.

(** [str(n)] for an [int]. *)
Definition str (n : Z) : string := NilZero.string_of_int (Z.to_int n).

Fixpoint zeros (k : nat) : string :=
  match k with
  | O => EmptyString
  | S k' => String "0" (zeros k')
  end.

(** [format(n, '0{width}d')]: the sign, then zeros, then the digits, at
    least [width] characters in all. *)
Definition format_0d (width : nat) (n : Z) : string :=
  let sign := if n <? 0 then "-" else "" in
  let digits := str (Z.abs n) in
  sign +:+ zeros (width - String.length sign - String.length digits) +:+ digits.

(** [format(n, '{width}d')]: right-aligned, padded with spaces. *)
Fixpoint spaces (k : nat) : string :=
  match k with
  | O => EmptyString
  | S k' => String " " (spaces k')
  end.

Definition format_d (width : nat) (n : Z) : string :=
  let s := str n in spaces (width - String.length s) +:+ s.

Definition startswith (p s : string) : bool := String.prefix p s.

Fixpoint endswith_sep (s : string) : bool :=
  match s with
  | EmptyString => false
  | String c EmptyString => Ascii.eqb c "/"
  | String _ r => endswith_sep r
  end.

(** [c in '0123456789'], and a string made of such characters only. *)
Definition is_digit (c : ascii) : bool :=
  let n := nat_of_ascii c in ((48 <=? n)%nat && (n <=? 57)%nat).

Fixpoint all_digits (s : string) : bool :=
  match s with
  | EmptyString => true
  | String c r => is_digit c && all_digits r
  end.

(** [needle in hay] *)
Fixpoint contains (needle hay : string) : bool :=
  String.prefix needle hay ||
  match hay with
  | EmptyString => false
  | String _ r => contains needle r
  end.

(** [posixpath.join]: an absolute component restarts the path, a separator
    is inserted unless the path so far is empty or ends with one. *)
Definition join2 (path b : string) : string :=
  if startswith "/" b then b
  else if String.eqb path "" || endswith_sep path then path +:+ b
  else path +:+ "/" +:+ b.

Definition os_path_join (a : string) (p : list string) : string :=
  fold_left join2 p a.

End PyStr.


(** ** Effects: printed lines, files, [sys.exit()] and exceptions *)

Module Eff.

Inductive exn : Type :=
| AssertionError (msg : string)
| RuntimeError (msg : string)
| NotImplementedError (msg : string)
| FileNotFoundError (msg : string)
| TypeError (msg : string)
| KeyError (key : string)
| AttributeError (msg : string)
| IndexError (msg : string)
| CheckpointingException (msg : string).

(** How a call ends: it returns, it calls [sys.exit()], or it raises. *)
Inductive outcome (A : Type) : Type :=
| Returns (a : A)
| SysExit
| Raises (e : exn).
Arguments Returns {A} a.
Arguments SysExit {A}.
Arguments Raises {A} e.

Definition returned {A} (o : outcome A) : bool :=
  match o with Returns _ => true | _ => false end.

(** A computation over a mutable state [S]. *)
Definition M (S A : Type) : Type := S -> outcome A * S.

Definition ret {S A} (a : A) : M S A := fun s => (Returns a, s).

Definition bind {S A B} (m : M S A) (k : A -> M S B) : M S B :=
  fun s =>
    match m s with
    | (Returns a, s') => k a s'
    | (SysExit, s') => (SysExit, s')
    | (Raises e, s') => (Raises e, s')
    end.

Definition raise {S A} (e : exn) : M S A := fun s => (Raises e, s).
Definition sys_exit {S A} : M S A := fun s => (SysExit, s).
Definition get {S} : M S S := fun s => (Returns s, s).
Definition put {S} (s : S) : M S unit := fun _ => (Returns tt, s).

Definition when {S} (b : bool) (m : M S unit) : M S unit :=
  if b then m else ret tt.

(** [assert cond, msg] *)
Definition assert {S} (cond : bool) (msg : string) : M S unit :=
  if cond then ret tt else raise (AssertionError msg).

End Eff.

Import Eff.

Notation "'let*' x ':=' m 'in' k" := (Eff.bind m (fun x => k))
  (at level 10, x pattern, m at level 100, k at level 200).
Notation "m ';;' k" := (Eff.bind m (fun _ => k))
  (at level 100, k at level 200, right associativity).

(** ** The process and what it can observe *)

(** The process group: this process' rank, whether it is the last rank,
    and what the other ranks contribute to the [MAX] all-reduce of
    [read_metadata] when they read the tracker file of the given name. *)
Record Dist : Type := {
  rank : Z;
  last_rank : bool;
  peer_iterations : string -> list Z
}.

(** One asynchronous save request with its finalize callbacks, in
    registration order. *)
Inductive FinalizeFn : Type :=
| IterFinalize (tracker_filename : string) (iteration : Z)
| LocalIterFinalize (iteration : Z)
| OneLoggerFinalize
| WandbFinalize.

Record AsyncRequest : Type := {
  req_checkpoint_name : string;
  req_iteration : Z;
  req_state_dict : gset string;
  req_finalize_fns : list FinalizeFn
}.

(** The mutable world of one process: the lines it printed (oldest first),
    the text files it sees, the queue of outstanding asynchronous saves. *)
Record World : Type := {
  stdout : list string;
  files : gmap string string;
  async_queue : list AsyncRequest
}.

Definition print (msg : string) : M World unit :=
  fun w => (Returns tt, {| stdout := stdout w ++ [msg]; files := files w;
                           async_queue := async_queue w |}).

Definition write_file (path text : string) : M World unit :=
  fun w => (Returns tt, {| stdout := stdout w; files := <[path := text]> (files w);
                           async_queue := async_queue w |}).

Definition enqueue (r : AsyncRequest) : M World unit :=
  fun w => (Returns tt, {| stdout := stdout w; files := files w;
                           async_queue := async_queue w ++ [r] |}).

(** What the text of a tracker file stands for: a positive iteration number
    as [int()] reads it, the word [release], an integer that is not
    positive, or none of these. *)
Inductive TrackerContent : Type :=
| Iteration (n : Z)
| Release
| NotPositive (n : Z)
| NotAnInteger.

Definition tracker_content (text : string) : TrackerContent :=
  let metastring := PyStr.strip text in
  match PyStr.int metastring with
  | Some n => if 0 <? n then Iteration n else NotPositive n
  | None => if String.eqb metastring "release" then Release else NotAnInteger
  end.

Section Process.

(** [torch.distributed]: [None] when it is not initialized. *)
Variable dist : option Dist.

(** Modelled from the spec: [print_rank_0] of [megatron/training/utils.py]
    is not among the sources; as its name and the spec's "on rank 0" say,
    it prints on rank 0 of the process group, and always when there is no
    process group. *)
Definition print_rank_0 (msg : string) : M World unit :=
  match dist with
  | Some d => if rank d =? 0 then print msg else ret tt
  | None => print msg
  end.

Definition isfile (filename : string) : M World bool :=
  fun w => (Returns (bool_decide (is_Some (files w !! filename))), w).

(** [open_file(filename, 'r').read()] *)
Definition read_file (filename : string) : M World string :=
  fun w =>
    match files w !! filename with
    | Some text => (Returns text, w)
    | None => (Raises (FileNotFoundError filename), w)
    end.

(** *** Tracker file *)

Definition get_checkpoint_tracker_filename (checkpoints_path : string) : string :=
  PyStr.os_path_join checkpoints_path ["latest_checkpointed_iteration.txt"].

(** [torch.distributed.all_reduce(..., op=MAX)] on one number. *)
Definition all_reduce_max (own : Z) (peers : list Z) : Z :=
  fold_left Z.max peers own.

Definition read_metadata (tracker_filename : string) : M World (Z * bool) :=
  let* text := read_file tracker_filename in
  let metastring := PyStr.strip text in
  let* (iteration, release) :=
    match PyStr.int metastring with
    | Some n => ret (n, false)
    | None =>
        let release := String.eqb metastring "release" in
        if release then ret (0, true)
        else
          print_rank_0 ("ERROR: Invalid metadata file " +:+ tracker_filename +:+ ". Exiting") ;;
          sys_exit
    end in
  assert ((0 <? iteration) || release) ("error parsing metadata file " +:+ tracker_filename) ;;
  match dist with
  | Some d =>
      let max_iter := all_reduce_max iteration (peer_iterations d tracker_filename) in
      when (negb (iteration =? max_iter))
        (print ("WARNING: on rank " +:+ PyStr.str (rank d) +:+ " found iteration "
                +:+ PyStr.str iteration +:+ " in the metadata while max iteration across the ranks is "
                +:+ PyStr.str max_iter +:+ ", replacing it with max iteration.")) ;;
      ret (max_iter, release)
  | None => ret (iteration, release)
  end.

(** [checkpoint_exists]; [None] is Python's [None]. *)
Definition checkpoint_exists (checkpoints_path : option string) : M World bool :=
  match checkpoints_path with
  | None => ret false
  | Some p => isfile (get_checkpoint_tracker_filename p)
  end.

(** *** Checkpoint names *)

(** What [megatron.core.mpu] answers in this process. *)
Record Mpu : Type := {
  tensor_model_parallel_rank : Z;
  pipeline_model_parallel_rank : Z;
  pipeline_model_parallel_world_size : Z;
  expert_model_parallel_rank : Z;
  expert_model_parallel_world_size : Z
}.

Variable mpu : Mpu.

Definition default_basename : string := "model_optim_rng.pt".

Definition get_checkpoint_name (checkpoints_path : string) (iteration : Z)
    (release : bool) (pipeline_parallel : option bool)
    (tensor_rank pipeline_rank : option Z)
    (expert_parallel : option bool) (expert_rank : option Z)
    (return_base_dir : bool) (basename : string) : string :=
  let directory :=
    if release then "release" else "iter_" +:+ PyStr.format_0d 7 iteration in
  if return_base_dir then PyStr.os_path_join checkpoints_path [directory]
  else
    let pipeline_parallel :=
      default (1 <? pipeline_model_parallel_world_size mpu) pipeline_parallel in
    let tensor_rank := default (tensor_model_parallel_rank mpu) tensor_rank in
    let pipeline_rank := default (pipeline_model_parallel_rank mpu) pipeline_rank in
    let expert_parallel :=
      default (1 <? expert_model_parallel_world_size mpu) expert_parallel in
    let expert_rank := default (expert_model_parallel_rank mpu) expert_rank in
    let common_path :=
      if negb pipeline_parallel
      then PyStr.os_path_join checkpoints_path
             [directory; "mp_rank_" +:+ PyStr.format_0d 2 tensor_rank]
      else PyStr.os_path_join checkpoints_path
             [directory; "mp_rank_" +:+ PyStr.format_0d 2 tensor_rank
                         +:+ "_" +:+ PyStr.format_0d 3 pipeline_rank] in
    let common_path :=
      if expert_parallel
      then common_path +:+ "_" +:+ PyStr.format_0d 3 expert_rank
      else common_path in
    PyStr.os_path_join common_path [basename].

End Process.


(** ** Arguments and checkpoint types *)

(** The attributes of the [args] namespace that the modelled functions
    read.  An attribute read with [getattr(args, name, default)] or tested
    for [None] is an [option]. *)
Record Args : Type := {
  load : option string;
  save : string;
  pretrained_checkpoint : option string;
  load_model_opt_format : bool;
  ckpt_format : string;
  auto_detect_ckpt_format : bool;
  use_dist_ckpt : bool;
  ckpt_step : option Z;
  exit_on_missing_checkpoint : bool;
  non_persistent_ckpt_type : option string;
  non_persistent_global_ckpt_dir : option string;
  async_save : bool;
  finetune : bool;
  no_load_rng : bool;
  no_load_optim : bool;
  no_save_rng : option bool;
  no_save_optim : option bool;
  use_distributed_optimizer : bool;
  ckpt_fully_parallel_save : option bool;
  tensor_model_parallel_size : Z;
  pipeline_model_parallel_size : Z;
  world_size : option Z;
  data_parallel_size : option Z
}.

Inductive CheckpointType : Type := LEGACY | LOCAL | GLOBAL | TORCH_DCP.

(** [checkpointing_context['local_checkpoint_manager']]: what
    [find_latest()] answers and the directory of local checkpoints. *)
Record LocalCheckpointManager : Type := {
  find_latest : Z;
  local_ckpt_dir : string
}.

Record CheckpointingContext : Type := {
  local_checkpoint_manager : option LocalCheckpointManager
}.

(** Truth value of an optional string: [None] and [''] are false. *)
Definition truthy_str (s : option string) : bool :=
  match s with
  | Some t => negb (String.eqb t "")
  | None => false
  end.

(** Truth value of an optional integer: [None] and [0] are false. *)
Definition truthy_int (n : option Z) : bool :=
  match n with
  | Some k => negb (k =? 0)
  | None => false
  end.

(** ** Choosing the checkpoint to load *)

(** How [_load_base_checkpoint] ends when it returns: with what
    [_load_non_persistent_base_checkpoint] returns for the non-persistent
    directory and iteration, with the tuple [(None, "", False, None)], or
    with what its own persistent part (format detection and the matching
    reader, which are not modelled further) returns for the load directory,
    iteration and release flag. *)
Inductive BaseCheckpoint : Type :=
| NonPersistent (non_persistent_global_dir : option string) (non_persistent_iteration : Z)
| NotLoaded
| Persistent (load_dir : option string) (iteration : Z) (release : bool).

Definition _NON_PERSISTENT_CKPT_SUBDIR : string := "non_persistent".

Section BaseLoad.

Variable dist : option Dist.

(** [os.path.join] and the tracker name applied to a directory that may be
    [None]. *)
Definition tracker_of (dir : option string) : M World string :=
  match dir with
  | Some d => ret (get_checkpoint_tracker_filename d)
  | None => raise (TypeError "expected str, bytes or os.PathLike object, not NoneType")
  end.

Definition the_local_manager (checkpointing_context : option CheckpointingContext)
  : M World LocalCheckpointManager :=
  match checkpointing_context with
  | None => raise (TypeError "'NoneType' object is not subscriptable")
  | Some ctx =>
      match local_checkpoint_manager ctx with
      | Some m => ret m
      | None => raise (KeyError "local_checkpoint_manager")
      end
  end.

Definition _get_non_persistent_iteration (non_persistent_global_dir : option string)
    (args : Args) (checkpointing_context : option CheckpointingContext) : M World Z :=
  match non_persistent_ckpt_type args with
  | None => ret (-1)
  | Some ty =>
      if String.eqb ty "global" then
        let* tracker_filename := tracker_of non_persistent_global_dir in
        let* found := isfile tracker_filename in
        if found then
          let* (iteration, release) := read_metadata dist tracker_filename in
          if release
          then raise (RuntimeError "Non-persistent checkpoint can't be a release checkpoint")
          else ret iteration
        else
          print_rank_0 dist ("WARNING: could not find the metadata file " +:+ tracker_filename) ;;
          print_rank_0 dist "    will not load any non-persistent checkpoint" ;;
          ret (-1)
      else if String.eqb ty "local" then
        let* manager := the_local_manager checkpointing_context in
        ret (find_latest manager)
      else
        raise (AssertionError
                 ("Please use local or global non-persistent checkpoints(got: " +:+ ty +:+ ")"))
  end.

(** The non-persistent directory that [_load_base_checkpoint] looks into. *)
Definition non_persistent_dir_of (load_dir : option string) (args : Args) : option string :=
  if truthy_str (non_persistent_global_ckpt_dir args) || bool_decide (load_dir = None)
  then non_persistent_global_ckpt_dir args
  else match load_dir with
       | Some d => Some (PyStr.os_path_join d [_NON_PERSISTENT_CKPT_SUBDIR])
       | None => None
       end.

(** The tracker of the load directory: its name for the messages, and the
    iteration and release flag read from it, [(-1, False)] without one. *)
Definition read_persistent_tracker (load_dir : option string)
  : M World (string * (Z * bool)) :=
  match load_dir with
  | Some d =>
      let tracker_filename := get_checkpoint_tracker_filename d in
      let* found := isfile tracker_filename in
      if found
      then let* r := read_metadata dist tracker_filename in ret (tracker_filename, r)
      else ret (tracker_filename, (-1, false))
  | None => ret ("because load directory is not defined", (-1, false))
  end.

(** [args.ckpt_step], when it is set and not zero, replaces the iteration of
    the tracker. *)
Definition iteration_to_load (args : Args) (tracker_iteration : Z) : Z :=
  if truthy_int (ckpt_step args)
  then default tracker_iteration (ckpt_step args)
  else tracker_iteration.

Definition _load_base_checkpoint (load_dir : option string) (args : Args) (rank0 : bool)
    (checkpointing_context : option CheckpointingContext) : M World BaseCheckpoint :=
  (* Try to load non-persistent checkpoint first *)
  let non_persistent_global_dir := non_persistent_dir_of load_dir args in
  let* non_persistent_iteration :=
    _get_non_persistent_iteration non_persistent_global_dir args checkpointing_context in
  let* (tracker_filename, (iteration, release)) := read_persistent_tracker load_dir in
  (* Allow user to specify the loaded iteration. *)
  let iteration := iteration_to_load args iteration in
  let persistent : M World BaseCheckpoint :=
    (* If no tracker file, return nothing *)
    if iteration =? -1 then
      when (negb rank0)
        (print_rank_0 dist ("WARNING: could not find the metadata file " +:+ tracker_filename) ;;
         print_rank_0 dist "    will not load any checkpoints and will start from random") ;;
      if exit_on_missing_checkpoint args then
        print_rank_0 dist ">> '--exit-on-missing-checkpoint' set ... exiting. <<" ;;
        sys_exit
      else ret NotLoaded
    else ret (Persistent load_dir iteration release) in
  if negb (non_persistent_iteration =? -1) then
    (* there is a non-persistent checkpoint *)
    if iteration <=? non_persistent_iteration
    then ret (NonPersistent non_persistent_global_dir non_persistent_iteration)
    else
      print_rank_0 dist "WARNING: non-persistent checkpoints are older than persistent checkpoint" ;;
      persistent
  else persistent.

End BaseLoad.

(** [str(x)] for a string that may be [None]. *)
Definition str_or_none (s : option string) : string := default "None" s.

(** ** Loading a checkpoint *)

(** What [load_checkpoint] reads of a loaded state dict before it hands the
    state to the model and the optimizer: the saved [args], the content
    metadata ([None], or a dict in which the sharding type of the
    distributed optimizer may be absent) with its [str()], and whether the
    key [rerun_state_machine] is present. *)
Record StateDict : Type := {
  sd_args : option Args;
  sd_content_metadata : option (option string);
  sd_content_metadata_str : string;
  sd_has_rerun_state_machine : bool
}.

(** What the reader of a checkpoint returns:
    [(state_dict, checkpoint_name, release, ckpt_type)]. *)
Record Loaded : Type := {
  ld_state_dict : StateDict;
  ld_checkpoint_name : string;
  ld_release : bool;
  ld_ckpt_type : CheckpointType
}.

Record Optimizer : Type := { is_stub_optimizer : bool }.

(** The decisions of the [torch_dist] branch of [load_checkpoint]: for each
    sub-state, whether its template is generated ([gen_sd_*] is not [None]),
    and the two flags read after the load. *)
Record LoadPlan : Type := {
  gen_sd_rng_state : bool;
  ignore_rng_state : bool;
  gen_sd_optim : bool;
  gen_sd_opt_param_scheduler : bool;
  sharded_sd_metadata : option (option string);
  gen_sd_rerun_state : bool;
  ignore_rerun_state : bool
}.

Definition format_pair (a b : Z) : string :=
  "(" +:+ PyStr.str a +:+ ", " +:+ PyStr.str b +:+ ")".

Definition mismatch_msg (run_tp run_pp ckpt_tp ckpt_pp : Z) : string :=
  "(TP, PP) mismatch after resume (" +:+ format_pair run_tp run_pp +:+ " vs "
  +:+ format_pair ckpt_tp ckpt_pp +:+ " from checkpoint)".

Definition FULLY_SHARDED : string := "fully_sharded_model_space".
Definition DP_ZERO : string := "dp_zero_gather_scatter".

(** The top-level keys of [generate_state_dict]'s result. *)
Definition generate_state_dict (args : Args) (n_models : nat)
    (optimizer : option Optimizer) (opt_param_scheduler : bool)
    (rng_state : bool) (iteration : bool) (rerun_state : bool) : gset string :=
  {[ "args"; "checkpoint_version" ]}
  ∪ (if iteration then {[ "iteration" ]} else ∅)
  ∪ (if (n_models <=? 1)%nat
     then (if (n_models =? 0)%nat then ∅ else {[ "model" ]})
     else list_to_set ((fun i => "model" +:+ PyStr.str (Z.of_nat i)) <$> seq 0 n_models))
  ∪ (if negb (default false (no_save_optim args))
     then (match optimizer with
           | Some o => if negb (is_stub_optimizer o) then {[ "optimizer" ]} else ∅
           | None => ∅
           end)
          ∪ (if opt_param_scheduler then {[ "opt_param_scheduler" ]} else ∅)
     else ∅)
  ∪ (if rerun_state then {[ "rerun_state_machine" ]} else ∅)
  ∪ (if negb (default false (no_save_rng args)) && rng_state then {[ "rng_state" ]} else ∅).

Section Load.

Variable dist : option Dist.

(** Whether [modelopt] could be imported when the module was loaded. *)
Variable has_nvidia_modelopt : bool.

(** The collaborators of [load_checkpoint]: the model chunks, the optimizer
    and the scheduler ([None] allowed), the readers behind
    [_load_base_checkpoint], the rerun state machine's
    [validate_state_dict], and the part of [load_checkpoint] that follows
    the check [state_dict is None]. *)
Variable n_models : nat.
Variable optimizer : option Optimizer.
Variable opt_param_scheduler : bool.
Variable read_checkpoint : BaseCheckpoint -> bool -> option (gset string) -> M World Loaded.
Variable validate_rerun_state : StateDict -> bool.
Variable load_state : Args -> Loaded -> option LoadPlan -> M World (Z * Z).

(** Lines 1309-1410: the [torch_dist] branch. *)
Definition plan_torch_dist_load (args : Args) (state_dict : StateDict) (release : bool)
    (ckpt_type : CheckpointType) : M World LoadPlan :=
  let* ckpt_args :=
    match sd_args state_dict with
    | Some a => ret a
    | None => raise (KeyError "args")
    end in
  let ckpt_tp := tensor_model_parallel_size ckpt_args in
  let ckpt_pp := pipeline_model_parallel_size ckpt_args in
  let run_tp := tensor_model_parallel_size args in
  let run_pp := pipeline_model_parallel_size args in
  let same_tp_pp := (ckpt_tp =? run_tp) && (ckpt_pp =? run_pp) in
  let ckpt_world_size := default 0 (world_size ckpt_args) in
  let run_world_size := default 0 (world_size args) in
  let ckpt_dp := default 0 (data_parallel_size ckpt_args) in
  let run_dp := default 0 (data_parallel_size args) in
  let msg := mismatch_msg run_tp run_pp ckpt_tp ckpt_pp in
  (* Determine if RNG state will be loaded *)
  let load_rng :=
    same_tp_pp && negb release && negb (finetune args) && negb (no_load_rng args)
    && negb (default false (no_save_rng ckpt_args)) in
  when (negb load_rng && negb same_tp_pp)
    (print_rank_0 dist (msg +:+ ": RNG state will be ignored")) ;;
  let metadata := sd_content_metadata state_dict in
  print_rank_0 dist ("sharded_state_dict metadata loaded from the checkpoint: "
                     +:+ sd_content_metadata_str state_dict) ;;
  (* Determine if optimizer state will be loaded *)
  let load_optim :=
    negb release && negb (finetune args) && negb (no_load_optim args)
    && negb (default false (no_save_optim ckpt_args)) in
  let* metadata :=
    if load_optim && use_distributed_optimizer args then
      let metadata :=
        match metadata with
        | None =>
            Some (Some (if default false (ckpt_fully_parallel_save ckpt_args)
                        then FULLY_SHARDED else DP_ZERO))
        | Some m => Some m
        end in
      if negb same_tp_pp then
        match metadata with
        | Some (Some sharding_type) =>
            if negb (String.eqb sharding_type FULLY_SHARDED)
            then raise (RuntimeError
                          (msg +:+ ": not supported for DistributedOptimizer with sharding type "
                           +:+ sharding_type
                           +:+ ". Please use `--ckpt-fully-parallel-save` flag during checkpoint saving."))
            else ret metadata
        | _ => raise (KeyError "distrib_optim_sharding_type")
        end
      else ret metadata
    else ret metadata in
  (* Determine if rerun state will be loaded *)
  let same_sharding :=
    (ckpt_world_size =? run_world_size) && same_tp_pp && (ckpt_dp =? run_dp) in
  let load_rerun :=
    same_sharding && negb release && negb (finetune args)
    && sd_has_rerun_state_machine state_dict && validate_rerun_state state_dict in
  when (negb same_sharding)
    (print_rank_0 dist "Job sharding has changed: Rerun state will be ignored") ;;
  (* [ModelOpt] *)
  when (has_nvidia_modelopt && match ckpt_type with LOCAL => true | _ => false end)
    (print_rank_0 dist "WARNING: Local checkpointing does not support nvidia_modelopt.") ;;
  ret {| gen_sd_rng_state := load_rng;
         ignore_rng_state := negb load_rng;
         gen_sd_optim := load_optim;
         gen_sd_opt_param_scheduler := load_optim;
         sharded_sd_metadata := metadata;
         gen_sd_rerun_state := load_rerun;
         ignore_rerun_state := negb load_rerun |}.

(** The sharded state dict requested under a plan. *)
Definition sharded_state_dict_of (args : Args) (plan : LoadPlan) : gset string :=
  generate_state_dict args n_models
    (if gen_sd_optim plan then optimizer else None)
    (gen_sd_opt_param_scheduler plan && opt_param_scheduler)
    (gen_sd_rng_state plan) false (gen_sd_rerun_state plan).

Definition torch_dcp_state_dict : gset string :=
  {[ "model"; "optimizer"; "args"; "iteration"; "rng_state"; "checkpoint_version";
     "opt_param_scheduler"; "num_floating_point_operations_so_far" ]}.

(** [_load_base_checkpoint] followed by the reader it ends with; [None] is
    the state dict [None]. *)
Definition load_base (load_dir : option string) (args : Args) (rank0 : bool)
    (sharded_state_dict : option (gset string))
    (checkpointing_context : option CheckpointingContext) : M World (option Loaded) :=
  let* base := _load_base_checkpoint dist load_dir args rank0 checkpointing_context in
  match base with
  | NotLoaded => ret None
  | _ => let* l := read_checkpoint base rank0 sharded_state_dict in ret (Some l)
  end.

Definition with_finetune (args : Args) : Args :=
  {| load := load args; save := save args;
     pretrained_checkpoint := pretrained_checkpoint args;
     load_model_opt_format := load_model_opt_format args;
     ckpt_format := ckpt_format args;
     auto_detect_ckpt_format := auto_detect_ckpt_format args;
     use_dist_ckpt := use_dist_ckpt args; ckpt_step := ckpt_step args;
     exit_on_missing_checkpoint := exit_on_missing_checkpoint args;
     non_persistent_ckpt_type := non_persistent_ckpt_type args;
     non_persistent_global_ckpt_dir := non_persistent_global_ckpt_dir args;
     async_save := async_save args; finetune := true;
     no_load_rng := no_load_rng args; no_load_optim := no_load_optim args;
     no_save_rng := no_save_rng args; no_save_optim := no_save_optim args;
     use_distributed_optimizer := use_distributed_optimizer args;
     ckpt_fully_parallel_save := ckpt_fully_parallel_save args;
     tensor_model_parallel_size := tensor_model_parallel_size args;
     pipeline_model_parallel_size := pipeline_model_parallel_size args;
     world_size := world_size args; data_parallel_size := data_parallel_size args |}.

(** [load_checkpoint] with [load_arg='load']; it returns
    [(iteration, num_floating_point_operations_so_far)]. *)
Definition load_checkpoint (args : Args)
    (checkpointing_context : option CheckpointingContext) : M World (Z * Z) :=
  let load_dir := load args in
  if load_model_opt_format args then
    print_rank_0 dist ("Loading checkpoint using ModelOpt format from "
                       +:+ str_or_none load_dir) ;;
    match dist with
    | Some _ =>
        let* tracker_filename := tracker_of load_dir in
        let* found := isfile tracker_filename in
        if found then
          let* (iteration, release) := read_metadata dist tracker_filename in
          ret (if release then 0 else iteration, 0)
        else ret (0, 0)
    | None => ret (0, 0)
    end
  else
    (* Finetuning directories *)
    let* (load_dir, args) :=
      match pretrained_checkpoint args with
      | Some pretrained_dir =>
          let* found := checkpoint_exists load_dir in
          if negb found then
            print_rank_0 dist ("Checkpoint file not found in load directory "
                               +:+ str_or_none load_dir
                               +:+ " attempting to finetune with checkpoint in "
                               +:+ pretrained_dir) ;;
            let* found := checkpoint_exists (Some pretrained_dir) in
            if negb found
            then raise (FileNotFoundError
                          "No checkpoint found in load directory or pretrained directory")
            else ret (Some pretrained_dir, with_finetune args)
          else ret (load_dir, args)
      | None => ret (load_dir, args)
      end in
    let* (detected_format, first) :=
      if auto_detect_ckpt_format args || String.eqb (ckpt_format args) "torch_dist" then
        let* first := load_base load_dir args true None checkpointing_context in
        ret (match first with
             | Some l =>
                 match ld_ckpt_type l with
                 | TORCH_DCP => Some "torch_dcp"
                 | LEGACY => Some "torch"
                 | LOCAL | GLOBAL => Some "torch_dist"
                 end
             | None => None
             end, first)
      else ret (Some (ckpt_format args), None) in
    let* (plan, sharded_state_dict) :=
      if bool_decide (detected_format = Some "torch_dist") then
        match first with
        | Some l =>
            let* plan :=
              plan_torch_dist_load args (ld_state_dict l) (ld_release l) (ld_ckpt_type l) in
            ret (Some plan, Some (sharded_state_dict_of args plan))
        | None => raise (TypeError "'NoneType' object is not subscriptable")
        end
      else if String.eqb (ckpt_format args) "torch_dcp" then
        if (n_models =? 0)%nat then raise (IndexError "list index out of range")
        else
          match optimizer with
          | None => raise (AttributeError "'NoneType' object has no attribute 'state_dict'")
          | Some _ =>
              if opt_param_scheduler
              then ret (None, Some torch_dcp_state_dict)
              else raise (AttributeError "'NoneType' object has no attribute 'state_dict'")
          end
      else ret (None, None) in
    let* loaded := load_base load_dir args false sharded_state_dict checkpointing_context in
    match loaded with
    | None =>
        (* Checkpoint not loaded: iteration and
           num_floating_point_operations_so_far default to 0. *)
        ret (0, 0)
    | Some l => load_state args l plan
    end.

End Load.

(** ** The module-level checkpoint version *)

Module Version.
Section Version.

(** The values a checkpoint version takes; Python's [==] on them is
    decidable equality. *)
Context {V : Type} `{EqDecision V}.

(** The state is the module global [_CHECKPOINT_VERSION]. *)
Definition set_checkpoint_version (value : V) : M (option V) unit :=
  fun st =>
    match st with
    | Some cur =>
        if decide (cur = value) then (Returns tt, Some value)
        else (Raises (AssertionError "checkpoint versions do not match"), st)
    | None => (Returns tt, Some value)
    end.

Definition get_checkpoint_version : M (option V) (option V) :=
  fun st => (Returns st, st).

(** A sequence of [set_checkpoint_version] calls; it stops at the first
    call that raises. *)
Fixpoint set_all (values : list V) : M (option V) unit :=
  match values with
  | [] => ret tt
  | v :: vs => set_checkpoint_version v ;; set_all vs
  end.

End Version.
End Version.

(** ** The distributed-checkpointing package, as the spec and its tests have it *)

Module DistCkpt.

(** *** Strict handling of key mismatches *)

(** The policies that the unit tests pass as [strict]. *)
Inductive StrictHandling : Type :=
| ASSUME_OK_UNEXPECTED
| LOG_UNEXPECTED
| LOG_ALL
| RAISE_UNEXPECTED
| RAISE_ALL
| RETURN_UNEXPECTED
| RETURN_ALL
| IGNORE_ALL.

(** The [*_ALL] policies look at missing keys too. *)
Definition reports_missing (strict : StrictHandling) : bool :=
  match strict with
  | LOG_ALL | RAISE_ALL | RETURN_ALL => true
  | _ => false
  end.

(** ['{a, b}'], the keys in the order of [elements]. *)
Fixpoint join_keys (keys : list string) : string :=
  match keys with
  | [] => ""
  | [k] => k
  | k :: ks => k +:+ ", " +:+ join_keys ks
  end.

Definition render_keys (keys : gset string) : string :=
  "{" +:+ join_keys (elements keys) +:+ "}".

Definition missing_section (missing : gset string) : string :=
  if decide (missing = ∅) then ""
  else "Missing keys (for all ranks): " +:+ render_keys missing +:+ ". ".

Definition unexpected_section (unexpected : gset string) : string :=
  if decide (unexpected = ∅) then ""
  else "Unexpected keys (for this rank): " +:+ render_keys unexpected +:+ ". ".

Definition mismatch_message (missing unexpected : gset string) : string :=
  missing_section missing +:+ unexpected_section unexpected.

(** What [load] returns: the loaded state dict (its keys), alone or, under
    a [RETURN_*] policy, with the two key sets. *)
Inductive LoadResult : Type :=
| StateDictOnly (loaded : gset string)
| WithMismatch (loaded missing_keys unexpected_keys : gset string).

(** Modelled from the spec: [megatron.core.dist_checkpointing.load] and its
    validation module are not among the sources.  The spec's strict-mode key
    reconciliation compares the set of keys requested with the set recorded
    on disk and applies one policy per call: raise, log and proceed, return
    the mismatch sets, or ignore; [ASSUME_OK_UNEXPECTED] leaves a requested
    key that is not on disk to the storage strategy, which raises its own
    exception.  Which of the two sets is which is taken from the assertions
    of [TestNonStrictLoad], the code of the sources that observes them: a
    key requested but absent on disk is unexpected, a key on disk that is
    not requested is missing, and missing keys are only determined under an
    [*_ALL] policy.  The state is the log of warnings. *)
Definition load (sharded_state_dict checkpoint : gset string) (strict : StrictHandling)
  : M (list string) LoadResult :=
  let unexpected_keys := sharded_state_dict ∖ checkpoint in
  let missing_keys :=
    if reports_missing strict then checkpoint ∖ sharded_state_dict else ∅ in
  let loaded := sharded_state_dict ∩ checkpoint in
  let clean := bool_decide (missing_keys = ∅) && bool_decide (unexpected_keys = ∅) in
  match strict with
  | ASSUME_OK_UNEXPECTED =>
      if bool_decide (unexpected_keys = ∅) then ret (StateDictOnly loaded)
      else raise (CheckpointingException
                    ("storage strategy: key not found: " +:+ render_keys unexpected_keys))
  | IGNORE_ALL => ret (StateDictOnly loaded)
  | RAISE_UNEXPECTED | RAISE_ALL =>
      if clean then ret (StateDictOnly loaded)
      else raise (CheckpointingException (mismatch_message missing_keys unexpected_keys))
  | LOG_UNEXPECTED | LOG_ALL =>
      (if clean then ret tt
       else fun log => (Returns tt,
                        (log ++ [mismatch_message missing_keys unexpected_keys])%list)) ;;
      ret (StateDictOnly loaded)
  | RETURN_UNEXPECTED | RETURN_ALL =>
      ret (WithMismatch loaded missing_keys unexpected_keys)
  end.

(** *** Sharded tensors along one axis *)

Section Tensors.

(** The slices of a tensor along its sharded axis, and the slice of
    zeros. *)
Context {A : Type} (zero : A).

(** A shard: its key, its local slices, the global extent and this shard's
    offset along the sharded axis, and the tolerance flag. *)
Record ShardedTensor : Type := {
  key : string;
  data : list A;
  global_shape : nat;
  global_offset : nat;
  allow_shape_mismatch : bool
}.

(** Modelled from the spec: [ShardedTensor.from_rank_offsets] is not among
    the sources.  As in section 4.1, the offset and the fragmentation follow
    from [(axis, this-rank-index, num-shards-on-axis)]; an index beyond the
    fragmentation is a validation error.  [None] stands for no
    fragmentation: the shard is the whole tensor. *)
Definition from_rank_offsets (k : string) (local : list A)
    (rank_offset : option (nat * nat)) (flag : bool) : outcome ShardedTensor :=
  match rank_offset with
  | None =>
      Returns {| key := k; data := local; global_shape := length local;
                 global_offset := 0; allow_shape_mismatch := flag |}
  | Some (index, fragments) =>
      if (index <? fragments)%nat
      then Returns {| key := k; data := local;
                      global_shape := fragments * length local;
                      global_offset := index * length local;
                      allow_shape_mismatch := flag |}
      else Raises (CheckpointingException ("invalid rank offsets for " +:+ k))
  end.

(** What is on disk for one key: the global extent and the shards written,
    each with its offset. *)
Record OnDisk : Type := {
  disk_shape : nat;
  disk_shards : list (nat * list A)
}.

(** A checkpoint: the tensors on disk by key. *)
Definition save_shard (ckpt : gmap string OnDisk) (sh : ShardedTensor)
  : gmap string OnDisk :=
  let written := default {| disk_shape := global_shape sh; disk_shards := [] |}
                   (ckpt !! key sh) in
  <[ key sh := {| disk_shape := disk_shape written;
                  disk_shards := (disk_shards written
                                  ++ [(global_offset sh, data sh)])%list |} ]> ckpt.

(** Modelled from the spec: [dist_checkpointing.save] is not among the
    sources; it writes every shard of the state dicts of all ranks under
    its key. *)
Definition save (shards : list ShardedTensor) : gmap string OnDisk :=
  fold_left save_shard shards ∅.

(** Copy into the requested buffer, which starts at [offset], the part of
    an on-disk shard that intersects it. *)
Definition copy_shard (offset : nat) (buffer : list A) (shard : nat * list A) : list A :=
  let '(start, written) := shard in
  let lo := Nat.max start offset in
  let hi := Nat.min (start + length written) (offset + length buffer) in
  if (lo <? hi)%nat
  then (take (lo - offset) buffer
        ++ take (hi - lo) (drop (lo - start) written)
        ++ drop (hi - offset) buffer)%list
  else buffer.

(** Modelled from the spec: the resharding engine is not among the
    sources.  As in section 4.3, the requested shard's region is computed in
    global coordinates, every on-disk shard that intersects it is copied
    into it, and what no on-disk shard covers is filled with zeros, which is
    only legal when the requested shard allows a shape mismatch: a global
    shape other than the one on disk is otherwise a checkpointing
    exception. *)
Definition load_tensor (ckpt : gmap string OnDisk) (request : ShardedTensor)
  : outcome (list A) :=
  match ckpt !! key request with
  | None => Raises (CheckpointingException ("key not found: " +:+ key request))
  | Some disk =>
      if (global_shape request =? disk_shape disk)%nat || allow_shape_mismatch request
      then Returns (fold_left (copy_shard (global_offset request)) (disk_shards disk)
                      (replicate (length (data request)) zero))
      else Raises (CheckpointingException
                     ("global shape mismatch for key " +:+ key request))
  end.

(** The shards of one key that tile a global tensor: consecutive chunks,
    the first at [start]. *)
Fixpoint tiling (start : nat) (chunks : list (list A)) : list (nat * list A) :=
  match chunks with
  | [] => []
  | c :: cs => (start, c) :: tiling (start + length c) cs
  end.

End Tensors.

Arguments ShardedTensor A : clear implicits.
Arguments OnDisk A : clear implicits.

(** *** Factories *)

(** A sharded-tensor factory: a key, a representative tensor, the build
    function that expands them into several sharded tensors, and the merge
    function that recombines the loaded tensors. *)
Record ShardedTensorFactory : Type := {
  f_key : string;
  f_data : list Z;
  build_fn : string -> list Z -> list (ShardedTensor Z);
  merge_fn : list (list Z) -> list Z
}.

(** An entry of a state dict. *)
Inductive Entry : Type :=
| Tensor (sh : ShardedTensor Z)
| Factory (f : ShardedTensorFactory).

(** Python's [sum] over tensors of one shape: [0 + t1 + t2 + ...],
    element by element (of no tensor at all it is the number 0, rendered
    here as the empty tensor). *)
Definition sum_tensors (parts : list (list Z)) : list Z :=
  match parts with
  | [] => []
  | t :: ts => fold_left (zip_with Z.add) ts t
  end.

(** The build function of [test_can_mix_sharded_tensors_and_factories]. *)
Definition three_parts (k : string) (tensor : list Z) : list (ShardedTensor Z) :=
  (fun suffix => {| key := k +:+ suffix; data := tensor; global_shape := length tensor;
                    global_offset := 0; allow_shape_mismatch := false |})
  <$> ["part1"; "part2"; "part3"].

Definition apply_factory (f : ShardedTensorFactory) : list (ShardedTensor Z) :=
  build_fn f (f_key f) (f_data f).

(** Modelled from the spec: saving expands every factory with its build
    function and writes the resulting tensors, each under its own key. *)
Definition save_state_dict (state_dict : list Entry) : gmap string (OnDisk Z) :=
  save (concat ((fun e => match e with
                          | Tensor sh => [sh]
                          | Factory f => apply_factory f
                          end) <$> state_dict)).

(** Loading a list of tensors, stopping at the first exception. *)
Fixpoint load_all (ckpt : gmap string (OnDisk Z)) (requests : list (ShardedTensor Z))
  : outcome (list (list Z)) :=
  match requests with
  | [] => Returns []
  | r :: rs =>
      match load_tensor 0 ckpt r with
      | Returns t =>
          match load_all ckpt rs with
          | Returns ts => Returns (t :: ts)
          | SysExit => SysExit
          | Raises e => Raises e
          end
      | SysExit => SysExit
      | Raises e => Raises e
      end
  end.

(** Modelled from the spec: loading expands every factory of the request
    the same way, loads the resulting tensors, and recombines them with the
    factory's merge function into one value. *)
Definition load_entry (ckpt : gmap string (OnDisk Z)) (e : Entry) : outcome (list Z) :=
  match e with
  | Tensor sh => load_tensor 0 ckpt sh
  | Factory f =>
      match load_all ckpt (apply_factory f) with
      | Returns parts => Returns (merge_fn f parts)
      | SysExit => SysExit
      | Raises e => Raises e
      end
  end.

End DistCkpt.

(** ** Vocabulary of the statements *)

(** The iteration that [read_metadata] returns for a tracker holding [n]:
    the maximum over the ranks when there is a process group. *)
Definition agreed_iteration (dist : option Dist) (tracker_filename : string) (n : Z) : Z :=
  match dist with
  | Some d => all_reduce_max n (peer_iterations d tracker_filename)
  | None => n
  end.

(** A world with one text file and nothing printed. *)
Definition tracker_world (path text : string) : World :=
  {| stdout := []; files := {[ path := text ]}; async_queue := [] |}.

Definition OLDER_WARNING : string :=
  "WARNING: non-persistent checkpoints are older than persistent checkpoint".

(** Arguments of a run that loads from and saves to [/ckpt] in the
    [torch_dist] format, with the given non-persistent type, iteration
    override, exit flag, asynchronous saving and parallel sizes. *)
Definition run_args (np_type : option string) (step : option Z) (exit_flag async : bool)
    (distributed_optimizer : bool) (tp pp dp : Z) : Args :=
  {| load := Some "/ckpt"; save := "/ckpt"; pretrained_checkpoint := None;
     load_model_opt_format := false; ckpt_format := "torch_dist";
     auto_detect_ckpt_format := false; use_dist_ckpt := true; ckpt_step := step;
     exit_on_missing_checkpoint := exit_flag; non_persistent_ckpt_type := np_type;
     non_persistent_global_ckpt_dir := None; async_save := async; finetune := false;
     no_load_rng := false; no_load_optim := false; no_save_rng := Some false;
     no_save_optim := Some false; use_distributed_optimizer := distributed_optimizer;
     ckpt_fully_parallel_save := Some false;
     tensor_model_parallel_size := tp; pipeline_model_parallel_size := pp;
     world_size := Some (tp * pp * dp); data_parallel_size := Some dp |}.

(** A world with a persistent and a non-persistent tracker under [/ckpt]. *)
Definition two_trackers (persistent non_persistent : string) : World :=
  {| stdout := [];
     files := {[ "/ckpt/latest_checkpointed_iteration.txt" := persistent;
                 "/ckpt/non_persistent/latest_checkpointed_iteration.txt" := non_persistent ]};
     async_queue := [] |}.

(** The name that the messages of [_load_base_checkpoint] give to the
    tracker of the load directory. *)
Definition tracker_name (load_dir : option string) : string :=
  match load_dir with
  | Some d => get_checkpoint_tracker_filename d
  | None => "because load directory is not defined"
  end.

Definition EXIT_MESSAGE : string :=
  ">> '--exit-on-missing-checkpoint' set ... exiting. <<".

(** A world without files, output or outstanding saves. *)
Definition empty_world : World := {| stdout := []; files := ∅; async_queue := [] |}.

(** A reader that finds the checkpoint of a [torch_dist] run at iteration
    [it], and a continuation of [load_checkpoint] that returns the iteration
    of the tracker it was given with [flops] operations. *)
Definition reader_of (saved : Args) (base : BaseCheckpoint) (rank0 : bool)
    (request : option (gset string)) : M World Loaded :=
  ret {| ld_state_dict := {| sd_args := Some saved; sd_content_metadata := None;
                             sd_content_metadata_str := "None";
                             sd_has_rerun_state_machine := true |};
         ld_checkpoint_name := "/ckpt/iter";
         ld_release := false; ld_ckpt_type := GLOBAL |}.

Definition finish_with (it flops : Z) (args : Args) (l : Loaded) (plan : option LoadPlan)
  : M World (Z * Z) := ret (it, flops).

(** The comparisons of the run's parallel layout with the checkpoint's. *)
Definition same_tp_pp (args ckpt_args : Args) : bool :=
  (tensor_model_parallel_size ckpt_args =? tensor_model_parallel_size args)
  && (pipeline_model_parallel_size ckpt_args =? pipeline_model_parallel_size args).

Definition same_sharding (args ckpt_args : Args) : bool :=
  (default 0 (world_size ckpt_args) =? default 0 (world_size args))
  && same_tp_pp args ckpt_args
  && (default 0 (data_parallel_size ckpt_args) =? default 0 (data_parallel_size args)).

(** The conditions, apart from the parallel layout, under which each
    sub-state is asked for. *)
Definition rng_wanted (args ckpt_args : Args) (release : bool) : bool :=
  negb release && negb (finetune args) && negb (no_load_rng args)
  && negb (default false (no_save_rng ckpt_args)).

Definition optimizer_wanted (args ckpt_args : Args) (release : bool) : bool :=
  negb release && negb (finetune args) && negb (no_load_optim args)
  && negb (default false (no_save_optim ckpt_args)).

Definition rerun_wanted (validate : StateDict -> bool) (args : Args)
    (state_dict : StateDict) (release : bool) : bool :=
  negb release && negb (finetune args) && sd_has_rerun_state_machine state_dict
  && validate state_dict.

(** The sharding type of the distributed optimizer that the load goes by:
    the one of the content metadata, or the one derived from the saved
    [args] when the checkpoint has no content metadata; [None] when the
    metadata lacks the key. *)
Definition optimizer_sharding_type (state_dict : StateDict) (ckpt_args : Args)
  : option string :=
  match sd_content_metadata state_dict with
  | None => Some (if default false (ckpt_fully_parallel_save ckpt_args)
                  then FULLY_SHARDED else DP_ZERO)
  | Some m => m
  end.

(** The layout change that the distributed optimizer does not support. *)
Definition unsupported_resharding (args ckpt_args : Args) (state_dict : StateDict)
    (release : bool) : bool :=
  optimizer_wanted args ckpt_args release && use_distributed_optimizer args
  && negb (same_tp_pp args ckpt_args)
  && negb (bool_decide (optimizer_sharding_type state_dict ckpt_args = Some FULLY_SHARDED)).

Definition RNG_IGNORED (args ckpt_args : Args) : string :=
  mismatch_msg (tensor_model_parallel_size args) (pipeline_model_parallel_size args)
    (tensor_model_parallel_size ckpt_args) (pipeline_model_parallel_size ckpt_args)
  +:+ ": RNG state will be ignored".

Definition RESHARDING_UNSUPPORTED (args ckpt_args : Args) (sharding_type : string) : string :=
  mismatch_msg (tensor_model_parallel_size args) (pipeline_model_parallel_size args)
    (tensor_model_parallel_size ckpt_args) (pipeline_model_parallel_size ckpt_args)
  +:+ ": not supported for DistributedOptimizer with sharding type " +:+ sharding_type
  +:+ ". Please use `--ckpt-fully-parallel-save` flag during checkpoint saving.".

Definition MODELOPT_WARNING : string :=
  "WARNING: Local checkpointing does not support nvidia_modelopt.".

Definition METADATA_LINE (state_dict : StateDict) : string :=
  "sharded_state_dict metadata loaded from the checkpoint: "
  +:+ sd_content_metadata_str state_dict.

Definition RERUN_IGNORED : string :=
  "Job sharding has changed: Rerun state will be ignored".

(** A state dict saved by a run with the given arguments, with content
    metadata that hold nothing but the sharding type, if any. *)
Definition saved_by (ckpt_args : Args) (metadata : option (option string)) : StateDict :=
  {| sd_args := Some ckpt_args; sd_content_metadata := metadata;
     sd_content_metadata_str :=
       match metadata with
       | None => "None"
       | Some None => "{}"
       | Some (Some sharding_type) =>
           "{'distrib_optim_sharding_type': '" +:+ sharding_type +:+ "'}"
       end;
     sd_has_rerun_state_machine := true |}.

(** Two worlds that differ by outstanding saves and by lines printed
    because of them: [busy] has the requests [q] ahead of the queue of
    [idle], and the lines [warn] after the first [base] lines of output. *)
Definition queue_frame (q : list AsyncRequest) (warn base : list string)
    (idle busy : World) : Prop :=
  files busy = files idle
  /\ async_queue busy = (q ++ async_queue idle)%list
  /\ exists out, stdout idle = (base ++ out)%list
                 /\ stdout busy = (base ++ warn ++ out)%list.

(** A computation that does not look at the outstanding saves: from framed
    worlds it ends the same way, in framed worlds. *)
Definition queue_blind {A : Type} (m : M World A) : Prop :=
  forall q warn base idle busy,
    queue_frame q warn base idle busy ->
    fst (m idle) = fst (m busy)
    /\ queue_frame q warn base (snd (m idle)) (snd (m busy)).

(** The same world with no outstanding save. *)
Definition with_empty_queue (w : World) : World :=
  {| stdout := stdout w; files := files w; async_queue := [] |}.

(** What [print_rank_0] adds to the output of this process. *)
Definition rank_0_lines (dist : option Dist) (msg : string) : list string :=
  match dist with
  | Some d => if rank d =? 0 then [msg] else []
  | None => [msg]
  end.

(** The world after the lines [lines] have been printed. *)
Definition printed (lines : list string) (w : World) : World :=
  {| stdout := stdout w ++ lines; files := files w; async_queue := async_queue w |}.

(** The lines that [_get_non_persistent_iteration] prints when it looks for
    a global non-persistent checkpoint and finds no tracker file. *)
Definition non_persistent_lines (dist : option Dist)
    (non_persistent_global_dir : option string) (args : Args) : list string :=
  match non_persistent_ckpt_type args, non_persistent_global_dir with
  | Some ty, Some d =>
      if String.eqb ty "global"
      then rank_0_lines dist ("WARNING: could not find the metadata file "
                              +:+ get_checkpoint_tracker_filename d)
           ++ rank_0_lines dist "    will not load any non-persistent checkpoint"
      else []
  | _, _ => []
  end.

(** The two lines printed when there is nothing to load. *)
Definition start_from_random_lines (dist : option Dist) (load_dir : option string)
  : list string :=
  rank_0_lines dist ("WARNING: could not find the metadata file " +:+ tracker_name load_dir)
  ++ rank_0_lines dist "    will not load any checkpoints and will start from random".

(** A single-rank layout, and a world in which the save of iteration 5 is
    still outstanding. *)
Definition single_rank : Mpu :=
  {| tensor_model_parallel_rank := 0; pipeline_model_parallel_rank := 0;
     pipeline_model_parallel_world_size := 1;
     expert_model_parallel_rank := 0; expert_model_parallel_world_size := 1 |}.

Definition outstanding_save : AsyncRequest :=
  {| req_checkpoint_name := "/ckpt/iter_0000005"; req_iteration := 5;
     req_state_dict := {[ "args"; "checkpoint_version"; "iteration"; "model" ]};
     req_finalize_fns := [IterFinalize "/ckpt/latest_checkpointed_iteration.txt" 5] |}.

Definition saving_world : World :=
  {| stdout := []; files := ∅; async_queue := [outstanding_save] |}.

(** [torch.arange(start, start + n)] *)
Definition arange (start n : nat) : list Z := Z.of_nat <$> seq start n.

(** The shards of [test_tensor_shape_mismatch]: [ranks] ranks, each with
    [width] consecutive numbers of the tensor (one row of it; the test's two
    rows are equal). *)
Definition rank_shard (k : string) (flag : bool) (width ranks r : nat)
  : DistCkpt.ShardedTensor Z :=
  match DistCkpt.from_rank_offsets k (arange (r * width) width) (Some (r, ranks)) flag with
  | Returns sh => sh
  | _ => {| DistCkpt.key := k; DistCkpt.data := []; DistCkpt.global_shape := 0;
            DistCkpt.global_offset := 0; DistCkpt.allow_shape_mismatch := flag |}
  end.

Definition rank_shards (k : string) (flag : bool) (width ranks : nat)
  : list (DistCkpt.ShardedTensor Z) :=
  rank_shard k flag width ranks <$> seq 0 ranks.

(** What the eight ranks of the test save: a rigid and a flexible tensor
    of extent 32. *)
Definition mismatch_checkpoint : gmap string (DistCkpt.OnDisk Z) :=
  DistCkpt.save (rank_shards "keyA" false 4 8 ++ rank_shards "keyB" true 4 8)%list.

(** The factory of [test_can_mix_sharded_tensors_and_factories]: three
    parts, merged by [sum]. *)
Definition sum_factory (k : string) (tensor : list Z) : DistCkpt.ShardedTensorFactory :=
  {| DistCkpt.f_key := k; DistCkpt.f_data := tensor;
     DistCkpt.build_fn := DistCkpt.three_parts; DistCkpt.merge_fn := DistCkpt.sum_tensors |}.

Definition part_keys (k : string) : list string :=
  [k +:+ "part1"; k +:+ "part2"; k +:+ "part3"].

(** An unsharded tensor, as [ShardedTensor.from_rank_offsets(key, tensor)]
    makes it. *)
Definition whole_tensor (k : string) (tensor : list Z) : DistCkpt.ShardedTensor Z :=
  {| DistCkpt.key := k; DistCkpt.data := tensor; DistCkpt.global_shape := length tensor;
     DistCkpt.global_offset := 0; DistCkpt.allow_shape_mismatch := false |}.

(** The state dict of the test, with [base] added to every tensor. *)
Definition mixed_state_dict (base : nat) : list DistCkpt.Entry :=
  [DistCkpt.Tensor (whole_tensor "A" (arange base 2));
   DistCkpt.Tensor (whole_tensor "B" (arange base 3));
   DistCkpt.Tensor (whole_tensor "C" (arange base 4));
   DistCkpt.Factory (sum_factory "D" (arange base 5))].

(** ** More of the checkpoint directory protocol *)

(** [posixpath.dirname] and the last component of a path. *)
Module PyPath.

Fixpoint has_sep (s : string) : bool :=
  match s with
  | EmptyString => false
  | String c r => Ascii.eqb c "/" || has_sep r
  end.

(** [p[:p.rfind('/') + 1]] *)
Fixpoint head_of (p : string) : string :=
  match p with
  | EmptyString => EmptyString
  | String c r => if Ascii.eqb c "/" || has_sep r then String c (head_of r) else EmptyString
  end.

(** [p[p.rfind('/') + 1:]] *)
Fixpoint tail_of (p : string) : string :=
  match p with
  | EmptyString => EmptyString
  | String c r => if Ascii.eqb c "/" || has_sep r then tail_of r else p
  end.

(** [head == '/' * len(head)] *)
Fixpoint all_sep (s : string) : bool :=
  match s with
  | EmptyString => true
  | String c r => Ascii.eqb c "/" && all_sep r
  end.

(** [head.rstrip('/')] *)
Fixpoint rstrip_sep (s : string) : string :=
  match s with
  | EmptyString => EmptyString
  | String c r =>
      match rstrip_sep r with
      | EmptyString => if Ascii.eqb c "/" then EmptyString else String c EmptyString
      | r' => String c r'
      end
  end.

Definition dirname (p : string) : string :=
  let head := head_of p in
  if negb (String.eqb head "") && negb (all_sep head) then rstrip_sep head else head.

End PyPath.

Definition get_distributed_optimizer_checkpoint_name (model_checkpoint_name : string)
  : string :=
  PyStr.os_path_join (PyPath.dirname model_checkpoint_name) ["distrib_optim.pt"].

Section FindRank0.

Variable mpu : Mpu.

(** [dist_checkpointing.check_is_distributed_checkpoint], which is not among
    the sources: any computation that answers for a directory. *)
Variable check_is_distributed_checkpoint : string -> M World bool.

Definition find_checkpoint_rank_0 (checkpoints_path : string) (iteration : Z)
    (release : bool) : M World (option string) :=
  (* Look for checkpoint with no pipelining and no expert parallelism *)
  let filename :=
    get_checkpoint_name mpu checkpoints_path iteration release (Some false)
      (Some 0) (Some 0) (Some false) (Some 0) false default_basename in
  let* found := isfile filename in
  if found then ret (Some filename) else
  (* Look for checkpoint with no pipelining and expert parallelism *)
  let filename :=
    get_checkpoint_name mpu checkpoints_path iteration release (Some false)
      (Some 0) (Some 0) (Some true) (Some 0) false default_basename in
  let* found := isfile filename in
  if found then ret (Some filename) else
  (* Look for checkpoint with pipelining and no expert parallelism *)
  let filename :=
    get_checkpoint_name mpu checkpoints_path iteration release (Some true)
      (Some 0) (Some 0) (Some false) (Some 0) false default_basename in
  let* found := isfile filename in
  if found then ret (Some filename) else
  (* Look for checkpoint with pipelining and expert parallelism *)
  let filename :=
    get_checkpoint_name mpu checkpoints_path iteration release (Some true)
      (Some 0) (Some 0) (Some true) (Some 0) false default_basename in
  let* found := isfile filename in
  if found then ret (Some filename) else
  (* Look for a distributed checkpoint *)
  let filename :=
    get_checkpoint_name mpu checkpoints_path iteration release (Some true)
      None None None None true default_basename in
  let* distributed := check_is_distributed_checkpoint filename in
  if distributed then ret (Some filename) else ret None.

End FindRank0.

(** The legacy files that [find_checkpoint_rank_0] can return for a base
    directory, in the order in which they are tried. *)
Definition rank_0_candidates (base : string) : list string :=
  [ base +:+ "/mp_rank_00/model_optim_rng.pt";
    base +:+ "/mp_rank_00_000/model_optim_rng.pt";
    base +:+ "/mp_rank_00_000_000/model_optim_rng.pt" ].

Definition is_file (w : World) (f : string) : bool :=
  bool_decide (is_Some (files w !! f)).

(** ** Exceptions beyond those of [Eff] *)

(** Some of the functions below also end in a [ValueError] (of [int()], with
    the literal it was given) or in a [ZeroDivisionError]. *)
Module Py.

Inductive error : Type :=
| Exn (e : exn)
| ValueError (literal : string)
| ZeroDivisionError.

Inductive result (A : Type) : Type :=
| Ok (a : A)
| Exit
| Error (e : error).
Arguments Ok {A} a.
Arguments Exit {A}.
Arguments Error {A} e.

Definition E (S A : Type) : Type := S -> result A * S.

Definition ret {S A} (a : A) : E S A := fun s => (Ok a, s).

Definition bind {S A B} (m : E S A) (k : A -> E S B) : E S B :=
  fun s =>
    match m s with
    | (Ok a, s') => k a s'
    | (Exit, s') => (Exit, s')
    | (Error e, s') => (Error e, s')
    end.

Definition raise {S A} (e : error) : E S A := fun s => (Error e, s).

Definition when {S} (b : bool) (m : E S unit) : E S unit :=
  if b then m else ret tt.

(** A computation of [Eff], run on a part of the state. *)
Definition lift {S T A} (proj : T -> S) (upd : S -> T -> T) (m : M S A) : E T A :=
  fun t =>
    match m (proj t) with
    | (Returns a, s') => (Ok a, upd s' t)
    | (SysExit, s') => (Exit, upd s' t)
    | (Raises e, s') => (Error (Exn e), upd s' t)
    end.

(** [int(text.strip())] *)
Definition int_of {S} (text : string) : E S Z :=
  match PyStr.int (PyStr.strip text) with
  | Some n => ret n
  | None => raise (ValueError (PyStr.strip text))
  end.

(** A computation run on a part of the state. *)
Definition zoom {S T A} (proj : T -> S) (upd : S -> T -> T) (m : E S A) : E T A :=
  fun t => let (r, s') := m (proj t) in (r, upd s' t).

End Py.

Notation "'let+' x ':=' m 'in' k" := (Py.bind m (fun x => k))
  (at level 10, x pattern, m at level 100, k at level 200).
Notation "m ';+' k" := (Py.bind m (fun _ => k))
  (at level 100, k at level 200, right associativity).

(** ** The finalize callback of a persistent save *)

(** The process while it saves: its world, and the directories for which a
    thread running [delete_checkpoint] has been started, oldest first. *)
Record Saver : Type := {
  sv_world : World;
  sv_deleting : list string
}.

Definition in_world {A} (m : M World A) : Py.E Saver A :=
  Py.lift sv_world (fun w s => {| sv_world := w; sv_deleting := sv_deleting s |}) m.

(** [threading.Thread(target=delete_checkpoint, ...).start()], for the
    directory that [delete_checkpoint] removes. *)
Definition start_delete_checkpoint (checkpoint_name : string) : Py.E Saver unit :=
  fun s => (Py.Ok tt, {| sv_world := sv_world s;
                         sv_deleting := sv_deleting s ++ [checkpoint_name] |}).

Section Finalize.

Variable dist : option Dist.
Variable mpu : Mpu.

(** [mpu.get_tensor_model_parallel_world_size()], [os.path.islink] and
    [append_to_progress_log] of [megatron/training/utils.py]. *)
Variable tensor_model_parallel_world_size : Z.
Variable islink : string -> bool.
Variable append_to_progress_log : string -> M World unit.

(** [args.log_progress], and [getattr(args, 'save_retain_interval', None)]. *)
Variable log_progress : bool.
Variable save_retain_interval : option Z.

(** Lines 570-616: [iter_finalize_fn] of a checkpoint that is not local, for
    the tracker file of the save directory. *)
Definition iter_finalize_fn (args : Args) (tracker_filename : string) (iteration : Z)
    (tensor_rank pipeline_rank : option Z) : Py.E Saver unit :=
  let+ prev_iteration :=
    match save_retain_interval with
    | Some _ =>
        let+ found := in_world (isfile tracker_filename) in
        if found
        then let+ text := in_world (read_file tracker_filename) in Py.int_of text
        else Py.ret 0
    | None => Py.ret 0
    end in
  in_world (write_file tracker_filename (PyStr.str iteration)) ;+
  let tensor_rank_to_print := default (tensor_model_parallel_rank mpu) tensor_rank + 1 in
  let pipeline_rank_to_print :=
    default (pipeline_model_parallel_rank mpu) pipeline_rank + 1 in
  in_world (print_rank_0 dist
    ("  successfully saved checkpoint from iteration " +:+ PyStr.format_d 7 iteration
     +:+ " to " +:+ save args
     +:+ " [ t " +:+ PyStr.str tensor_rank_to_print +:+ "/"
     +:+ PyStr.str tensor_model_parallel_world_size
     +:+ ", p " +:+ PyStr.str pipeline_rank_to_print +:+ "/"
     +:+ PyStr.str (pipeline_model_parallel_world_size mpu) +:+ " ]")) ;+
  Py.when (log_progress && async_save args)
    (in_world (append_to_progress_log
       ("Saved async checkpoint" +:+ String "009" "Iteration: " +:+ PyStr.str iteration))) ;+
  match save_retain_interval with
  | Some interval =>
      if (0 <? prev_iteration) && negb (prev_iteration =? iteration) then
        if interval =? 0 then Py.raise Py.ZeroDivisionError
        else if negb (prev_iteration mod interval =? 0) then
          let checkpoint_name :=
            get_checkpoint_name mpu (save args) prev_iteration false None None None None
              None true default_basename in
          (* Don't delete if `checkpoint_name` is a symbolic link. *)
          if islink checkpoint_name then
            in_world (print_rank_0 dist
              ("  skipping deleting checkpoint from iteration "
               +:+ PyStr.format_d 7 prev_iteration +:+ " at " +:+ save args
               +:+ " since it is a symbolic link"))
          else start_delete_checkpoint checkpoint_name
        else Py.ret tt
      else Py.ret tt
  | None => Py.ret tt
  end.

End Finalize.

(** A saver whose world holds one file. *)
Definition saver_with (path text : string) : Saver :=
  {| sv_world := tracker_world path text; sv_deleting := [] |}.

Definition no_progress_log (msg : string) : M World unit := ret tt.

(** What [iter_finalize_fn] takes for the previous iteration: [0] without a
    retention interval or without a tracker file, else what [int()] reads in
    the tracker file, [None] when that raises. *)
Definition previous_iteration (save_retain_interval : option Z) (tracker_filename : string)
    (w : World) : option Z :=
  match save_retain_interval, files w !! tracker_filename with
  | Some _, Some text => PyStr.int (PyStr.strip text)
  | _, _ => Some 0
  end.

(** ** Argument namespaces *)

From Stdlib Require Import Floats.

(** What the code below asks of the values held by a namespace: the object
    [None] and the booleans are among them, and a value can be tested for
    being [None] ([v is None]), for truth ([bool(v)]), printed ([str(v)]) and
    compared ([v == w]). *)
Class PyObject (V : Type) : Type := {
  py_none : V;
  py_bool : bool -> V;
  py_is_none : V -> bool;
  py_truthy : V -> bool;
  py_str : V -> string;
  py_eq : V -> V -> bool;
  py_none_is_none : py_is_none py_none = true;
  py_bool_is_not_none : forall b, py_is_none (py_bool b) = false;
  py_bool_truthy : forall b, py_truthy (py_bool b) = b
}.

(** The values [None], booleans, integers and strings. *)
Inductive PyVal : Type :=
| VNone
| VBool (b : bool)
| VInt (n : Z)
| VStr (s : string).

Module PyVal.

(** [a == b]; a boolean is the integer [0] or [1]. *)
Definition eq (a b : PyVal) : bool :=
  match a, b with
  | VNone, VNone => true
  | VBool x, VBool y => Bool.eqb x y
  | VBool x, VInt n | VInt n, VBool x => n =? (if x then 1 else 0)
  | VInt n, VInt m => n =? m
  | VStr s, VStr t => String.eqb s t
  | _, _ => false
  end.

(** [bool(a)] *)
Definition truthy (a : PyVal) : bool :=
  match a with
  | VNone => false
  | VBool b => b
  | VInt n => negb (n =? 0)
  | VStr s => negb (String.eqb s "")
  end.

(** [str(a)] *)
Definition str (a : PyVal) : string :=
  match a with
  | VNone => "None"
  | VBool b => if b then "True" else "False"
  | VInt n => PyStr.str n
  | VStr s => s
  end.

Definition is_none (a : PyVal) : bool :=
  match a with VNone => true | _ => false end.

End PyVal.

#[export] Instance PyVal_object : PyObject PyVal := {|
  py_none := VNone;
  py_bool := VBool;
  py_is_none := PyVal.is_none;
  py_truthy := PyVal.truthy;
  py_str := PyVal.str;
  py_eq := PyVal.eq;
  py_none_is_none := eq_refl;
  py_bool_is_not_none := fun _ => eq_refl;
  py_bool_truthy := fun _ => eq_refl
|}.

Definition no_attribute (name : string) : exn :=
  AttributeError ("'Namespace' object has no attribute '" +:+ name +:+ "'").

(** An [argparse.Namespace] is the map of its attributes, [gmap string V].
    [getattr(ns, name)] and [getattr(ns, name, default)]: *)
Definition getattr {S V} (ns : gmap string V) (name : string) : M S V :=
  match ns !! name with
  | Some v => ret v
  | None => raise (no_attribute name)
  end.

Definition getattr_default {V} (ns : gmap string V) (name : string) (d : V) : V :=
  default d (ns !! name).

Definition setattr {V} (ns : gmap string V) (name : string) (v : V) : gmap string V :=
  <[name := v]> ns.

(** ** Checking the arguments of a checkpoint *)

(** The state is the module global [_CHECKPOINT_VERSION], a float when it is
    set. *)
Section CheckArgs.

Context {V : Type} `{PyObject V}.

Variable args : gmap string V.
Variable checkpoint_args : gmap string V.

Definition _compare (arg_name : string) (old_arg_name : option string)
    (default_value : option V) : M (option float) unit :=
  let ckpt_arg_name := default arg_name old_arg_name in
  let* checkpoint_value :=
    match default_value with
    | Some d => ret (getattr_default checkpoint_args ckpt_arg_name d)
    | None => getattr checkpoint_args ckpt_arg_name
    end in
  let* args_value := getattr args arg_name in
  let error_message :=
    arg_name +:+ " value from checkpoint (" +:+ py_str checkpoint_value
    +:+ ") is not equal to the input argument value (" +:+ py_str args_value +:+ ")." in
  assert (py_eq checkpoint_value args_value) error_message.

(** [get_checkpoint_version() < 3.0] and [get_checkpoint_version() >= 3.0] *)
Definition version_lt_3 : M (option float) bool :=
  let* version := Version.get_checkpoint_version in
  match version with
  | Some v => ret (PrimFloat.ltb v 3)
  | None => raise (TypeError "'<' not supported between instances of 'NoneType' and 'float'")
  end.

Definition version_ge_3 : M (option float) bool :=
  let* version := Version.get_checkpoint_version in
  match version with
  | Some v => ret (PrimFloat.leb 3 v)
  | None => raise (TypeError "'>=' not supported between instances of 'NoneType' and 'float'")
  end.

Definition check_checkpoint_args : M (option float) unit :=
  _compare "num_layers" None None ;;
  _compare "hidden_size" None None ;;
  _compare "num_attention_heads" None None ;;
  _compare "add_position_embedding" None (Some (py_bool true)) ;;
  let* vocab_file := getattr args "vocab_file" in
  when (py_truthy vocab_file)
    (_compare "max_position_embeddings" None None ;;
     _compare "make_vocab_size_divisible_by" None None ;;
     let* use_dist_ckpt := getattr args "use_dist_ckpt" in
     when (negb (py_truthy use_dist_ckpt)) (_compare "padded_vocab_size" None None) ;;
     _compare "tokenizer_type" None None) ;;
  let* data_parallel_random_init := getattr args "data_parallel_random_init" in
  when (py_truthy data_parallel_random_init)
    (_compare "data_parallel_random_init" None None) ;;
  let* old := version_lt_3 in
  when old (_compare "tensor_model_parallel_size" (Some "model_parallel_size") None) ;;
  let* recent := version_ge_3 in
  let* compare_sizes :=
    if recent
    then let* use_dist_ckpt := getattr args "use_dist_ckpt" in
         ret (negb (py_truthy use_dist_ckpt))
    else ret false in
  when compare_sizes
    (_compare "tensor_model_parallel_size" None None ;;
     _compare "pipeline_model_parallel_size" None None).

End CheckArgs.

(** What a comparison of [check_checkpoint_args] that passes has
    established: both values are there (the checkpoint's may be the default)
    and they are equal. *)
Definition agree {V} {PO : PyObject V} (args checkpoint_args : gmap string V)
    (arg_name ckpt_arg_name : string) (default_value : option V) : Prop :=
  exists checkpoint_value args_value,
    (checkpoint_args !! ckpt_arg_name = Some checkpoint_value
     \/ checkpoint_args !! ckpt_arg_name = None /\ default_value = Some checkpoint_value)
    /\ args !! arg_name = Some args_value
    /\ py_eq checkpoint_value args_value = true.

(** The arguments of a small run, and of a checkpoint. *)
Definition small_args (layers tp : Z) (use_dist_ckpt : bool) : gmap string PyVal :=
  list_to_map
    [ ("num_layers", VInt layers); ("hidden_size", VInt 64);
      ("num_attention_heads", VInt 4); ("add_position_embedding", VBool true);
      ("vocab_file", VNone); ("use_dist_ckpt", VBool use_dist_ckpt);
      ("data_parallel_random_init", VBool false);
      ("tensor_model_parallel_size", VInt tp); ("pipeline_model_parallel_size", VInt 1) ].

(** ** Taking arguments from a checkpoint *)

(** One call [_set_arg(arg_name, old_arg_name, force)]. *)
Record SetArg : Type := {
  sa_name : string;
  sa_old_name : option string;
  sa_force : bool
}.

Definition plain (name : string) : SetArg :=
  {| sa_name := name; sa_old_name := None; sa_force := false |}.
Definition forced (name : string) : SetArg :=
  {| sa_name := name; sa_old_name := None; sa_force := true |}.

Section LoadArgs.

Context {V : Type} {PO : PyObject V}.

(** What [load_args_from_checkpoint] reads in the state dict that
    [_load_base_checkpoint] returns with [rank0=True]: the keys [args],
    [checkpoint_version] and [iteration] when they are present, and whether
    there are other keys. *)
Record CommonStateDict : Type := {
  csd_args : option (gmap string V);
  csd_checkpoint_version : option float;
  csd_iteration : option V;
  csd_other_keys : bool
}.

(** [not state_dict] for a dict. *)
Definition csd_empty (sd : CommonStateDict) : bool :=
  bool_decide (csd_args sd = None) && bool_decide (csd_checkpoint_version sd = None)
  && bool_decide (csd_iteration sd = None) && negb (csd_other_keys sd).

(** The process while it loads arguments: its world and the [args]
    namespace, which is updated in place. *)
Record ArgsLoader : Type := {
  al_world : World;
  al_args : (gmap string V)
}.

Definition on_world {A} (m : M World A) : M ArgsLoader A :=
  fun s =>
    let (o, w) := m (al_world s) in
    (o, {| al_world := w; al_args := al_args s |}).

Definition get_args : M ArgsLoader (gmap string V) :=
  fun s => (Returns (al_args s), s).

(** [setattr(args, name, value)] *)
Definition set_arg_value (name : string) (value : V) : M ArgsLoader unit :=
  fun s => (Returns tt, {| al_world := al_world s;
                           al_args := setattr (al_args s) name value |}).

(** What [load_args_from_checkpoint] returns: [args] alone, or the pair
    [(args, checkpoint_args)]; [args] is the namespace of the state. *)
Inductive LoadedArgs : Type :=
| ArgsAlone
| ArgsAndCheckpointArgs (checkpoint_args : (gmap string V)).

Variable dist : option Dist.

(** The readers behind [_load_base_checkpoint] for [rank0=True], which are
    not among the sources. *)
Variable read_common_state_dict : BaseCheckpoint -> M World CommonStateDict.

Section SetArgs.

Variable checkpoint_args : (gmap string V).

Definition _set_arg (arg_name : string) (old_arg_name : option string) (force : bool)
  : M ArgsLoader unit :=
  let* args := get_args in
  if negb force && negb (py_is_none (getattr_default args arg_name py_none)) then ret tt
  else
    let checkpoint_value :=
      getattr_default checkpoint_args (default arg_name old_arg_name) py_none in
    if negb (py_is_none checkpoint_value) then
      on_world (print_rank_0 dist ("Setting " +:+ arg_name +:+ " to "
                                   +:+ py_str checkpoint_value +:+ " from checkpoint")) ;;
      set_arg_value arg_name checkpoint_value
    else
      on_world (print_rank_0 dist ("Checkpoint did not provide arguments " +:+ arg_name)).

(** A run of consecutive [_set_arg] calls. *)
Fixpoint set_args (calls : list SetArg) : M ArgsLoader unit :=
  match calls with
  | [] => ret tt
  | c :: calls' =>
      _set_arg (sa_name c) (sa_old_name c) (sa_force c) ;; set_args calls'
  end.

End SetArgs.

(** Model args. *)
Definition model_args : list SetArg :=
  [ plain "num_layers"; plain "hidden_size"; plain "ffn_hidden_size"; plain "seq_length";
    plain "num_attention_heads"; forced "num_query_groups"; forced "group_query_attention";
    plain "kv_channels"; plain "max_position_embeddings"; forced "position_embedding_type";
    forced "add_position_embedding"; forced "use_rotary_position_embeddings";
    forced "rotary_base"; forced "rotary_percent"; forced "rotary_interleaved";
    forced "add_bias_linear"; forced "add_qkv_bias"; forced "squared_relu"; forced "swiglu";
    forced "untie_embeddings_and_output_weights"; forced "apply_layernorm_1p";
    forced "normalization"; forced "apply_query_key_layer_scaling";
    forced "attention_dropout"; forced "hidden_dropout";
    forced "hybrid_override_pattern"; forced "spec"; forced "hybrid_attention_ratio";
    forced "hybrid_mlp_ratio";
    forced "num_experts"; forced "moe_layer_freq" ].

(** The rest of the mixture-of-experts args, the Mamba args, the
    heterogeneous args and the tokenizer type. *)
Definition expert_to_tokenizer_args : list SetArg :=
  [ forced "moe_router_topk"; forced "moe_token_dispatcher_type";
    forced "moe_router_pre_softmax"; forced "moe_grouped_gemm";
    forced "moe_shared_expert_intermediate_size";
    forced "mamba_state_dim"; forced "mamba_head_dim"; forced "mamba_num_groups";
    forced "mamba_num_heads"; forced "is_hybrid_model";
    forced "heterogeneous_layers_config_path";
    forced "heterogeneous_layers_config_encoded_json";
    forced "tokenizer_type" ].

(** The end of the tokenizer args and the checkpoint args. *)
Definition tokenizer_to_checkpoint_args : list SetArg :=
  [ forced "tiktoken_pattern"; plain "padded_vocab_size"; plain "ckpt_format" ].

(** Model parallelism args of a checkpoint of version 3.0 or more. *)
Definition model_parallelism_args : list SetArg :=
  [ forced "tensor_model_parallel_size"; forced "pipeline_model_parallel_size";
    forced "virtual_pipeline_model_parallel_size";
    plain "num_layers_per_virtual_pipeline_stage"; forced "expert_model_parallel_size" ].

(** [load_args_from_checkpoint] with [load_arg='load'].  The [args] namespace
    is seen twice: [base_args] holds [args.load] and the attributes that
    [_load_base_checkpoint] reads, the namespace of the state holds the
    attributes that are read and set here. *)
Definition load_args_from_checkpoint (base_args : Args)
    (checkpointing_context : option CheckpointingContext) : M ArgsLoader LoadedArgs :=
  match load base_args with
  | None =>
      on_world (print_rank_0 dist "No load directory specified, using provided arguments.") ;;
      ret ArgsAlone
  | Some load_dir =>
      let* base :=
        on_world (_load_base_checkpoint dist (Some load_dir) base_args true
                    checkpointing_context) in
      let* state_dict :=
        match base with
        | NotLoaded => ret None
        | _ => let* sd := on_world (read_common_state_dict base) in ret (Some sd)
        end in
      match state_dict with
      | None =>
          on_world (print_rank_0 dist
            "Checkpoint not found to provide arguments, using provided arguments.") ;;
          ret ArgsAlone
      | Some state_dict =>
          if csd_empty state_dict then
            on_world (print_rank_0 dist
              "Checkpoint not found to provide arguments, using provided arguments.") ;;
            ret ArgsAlone
          else
          match csd_args state_dict with
          | None =>
              on_world (print_rank_0 dist
                "Checkpoint provided does not have arguments saved, using provided arguments.") ;;
              ret ArgsAlone
          | Some checkpoint_args =>
              let checkpoint_version := default 0%float (csd_checkpoint_version state_dict) in
              let* iteration :=
                match csd_iteration state_dict with
                | Some it => ret it
                | None => raise (KeyError "iteration")
                end in
              set_arg_value "iteration" iteration ;;
              (* One-off conversion for foundation models *)
              let checkpoint_args :=
                match checkpoint_args !! "disable_bias_linear" with
                | Some disable =>
                    setattr checkpoint_args "add_bias_linear"
                      (py_bool (negb (py_truthy disable)))
                | None => checkpoint_args
                end in
              set_args checkpoint_args model_args ;;
              (if negb (py_is_none (getattr_default checkpoint_args "num_experts" py_none))
               then _set_arg checkpoint_args "moe_ffn_hidden_size" None true
               else set_arg_value "moe_ffn_hidden_size" py_none) ;;
              set_args checkpoint_args expert_to_tokenizer_args ;;
              (* Using checkpoint version might not always be safe. *)
              let* args := get_args in
              let* use_tokenizer_model := getattr args "use_tokenizer_model_from_checkpoint_args" in
              when (py_truthy use_tokenizer_model)
                (_set_arg checkpoint_args "tokenizer_model" None true) ;;
              set_args checkpoint_args tokenizer_to_checkpoint_args ;;
              (* Model parallelism args. *)
              let* args := get_args in
              let* use_mp_args := getattr args "use_mp_args_from_checkpoint_args" in
              when (py_truthy use_mp_args)
                (if PrimFloat.ltb checkpoint_version 3
                 then _set_arg checkpoint_args "tensor_model_parallel_size"
                        (Some "model_parallel_size") false
                 else set_args checkpoint_args model_parallelism_args) ;;
              ret (ArgsAndCheckpointArgs checkpoint_args)
          end
      end
  end.

End LoadArgs.

Arguments CommonStateDict : clear implicits.
Arguments ArgsLoader : clear implicits.
Arguments LoadedArgs : clear implicits.

(** The arguments that [load_args_from_checkpoint] sets without [force]
    whatever the checkpoint version, and those that it sets with [force]
    whatever the checkpoint and the arguments are. *)
Definition set_unless_given : list string :=
  [ "num_layers"; "hidden_size"; "ffn_hidden_size"; "seq_length"; "num_attention_heads";
    "kv_channels"; "max_position_embeddings"; "padded_vocab_size"; "ckpt_format";
    "num_layers_per_virtual_pipeline_stage" ].

Definition always_forced : list string :=
  sa_name <$> filter (fun c => sa_force c = true)
                (model_args ++ expert_to_tokenizer_args ++ tokenizer_to_checkpoint_args)%list.

(** The value that a checkpoint provides for an argument: [None] stands for
    a missing attribute as for the value [None]. *)
Definition provided {V} {PO : PyObject V} (checkpoint_args : gmap string V) (name : string)
  : option V :=
  match checkpoint_args !! name with
  | Some v => if py_is_none v then None else Some v
  | None => None
  end.

(** A computation that leaves the attribute [n] of [args] as it is, and one
    that keeps its value [v], however they end. *)
Definition untouched {V A} (n : string) (m : M (ArgsLoader V) A) : Prop :=
  forall s, al_args (snd (m s)) !! n = al_args s !! n.

Definition keeps {V A} (n : string) (v : V) (m : M (ArgsLoader V) A) : Prop :=
  forall s, al_args s !! n = Some v -> al_args (snd (m s)) !! n = Some v.

(** The value of an argument set with [force]: the checkpoint's when it
    provides one, else the value before. *)
Definition follow {V} {PO : PyObject V} (checkpoint_args : gmap string V) (n : string)
    (before : option V) : option V :=
  match provided checkpoint_args n with
  | Some v => Some v
  | None => before
  end.

(** A reader that answers with one state dict, and a state to start from. *)
Definition reader_with (sd : CommonStateDict PyVal) (base : BaseCheckpoint)
  : M World (CommonStateDict PyVal) :=
  ret sd.

Definition checkpoint_of (checkpoint_args : gmap string PyVal) : CommonStateDict PyVal :=
  {| csd_args := Some checkpoint_args; csd_checkpoint_version := Some 3%float;
     csd_iteration := Some (VInt 5); csd_other_keys := true |}.

Definition loader_at (text : string) (args : gmap string PyVal) : ArgsLoader PyVal :=
  {| al_world := tracker_world "/ckpt/latest_checkpointed_iteration.txt" text;
     al_args := args |}.

(** The arguments of a run that takes its parallel sizes from the
    checkpoint. *)
Definition args_for_loading (layers : Z) : gmap string PyVal :=
  setattr (setattr (small_args layers 2 true)
             "use_tokenizer_model_from_checkpoint_args" (VBool false))
    "use_mp_args_from_checkpoint_args" (VBool true).

(** ** The ordering of query, key and value rows in old checkpoints *)

(** Tensors are seen along their first dimension: a tensor of shape
    [(n, ...)] is the list of its [n] rows, in memory order. *)
Module Tensor.
Section Tensor.

Context {X : Type}.

(** [t.view(d0, d1, ...)] of a tensor with [d0 * d1] rows: [d0] blocks of
    [d1] rows. *)
Definition view (d0 d1 : nat) (t : list X) : list (list X) :=
  (fun i => take d1 (drop (i * d1) t)) <$> seq 0 d0.

(** [m.transpose(0, 1).contiguous()] of [d0] blocks of [d1] entries: entry
    [i] of block [j] of the result is entry [j] of block [i]. *)
Definition transpose (d0 d1 : nat) (m : list (list X)) : list (list X) :=
  (fun j => omap (fun block => block !! j) m) <$> seq 0 d1.

(** [m.view(d0 * d1, ...)] *)
Definition flatten (m : list (list X)) : list X := concat m.

End Tensor.
End Tensor.

(** [name.endswith(suffix)]: the suffix is [name] or the end of what
    follows its first character. *)
Fixpoint endswith (suffix name : string) : bool :=
  match name with
  | EmptyString => String.eqb suffix name
  | String _ rest => String.eqb suffix name || endswith suffix rest
  end.

Section QueryKeyValue.

(** The rows of a parameter, none of them an empty tensor. *)
Context {A : Type}.

(** What [_transpose_first_dim] reads in the first self-attention module of
    the model: [hidden_size_per_attention_head] and
    [num_attention_heads_per_partition]. *)
Variable hn : nat.
Variable np : nat.

Definition INVALID_SHAPE : string := "shape is invalid for input size".

Definition _transpose_first_dim {S} (t : list A) (num_splits : nat) (num_splits_first : bool)
  : M S (list A) :=
  if num_splits_first then
    (* [num_splits * np * hn, h] -->(view) [num_splits, np, hn, h]
       -->(tranpose) [np, num_splits, hn, h] -->(view) [np * num_splits * hn, h] *)
    if negb (length t =? num_splits * np * hn)%nat then raise (RuntimeError INVALID_SHAPE)
    else
      let t := Tensor.view num_splits np (Tensor.view (num_splits * np) hn t) in
      let t := Tensor.transpose num_splits np t in
      ret (Tensor.flatten (Tensor.flatten t))
  else
    (* [np * hn * num_splits, h] -->(view) [np, hn, num_splits, h]
       -->(tranpose) [np, num_splits, hn, h] -->(view) [np * num_splits * hn, h] *)
    if negb (length t =? np * hn * num_splits)%nat then raise (RuntimeError INVALID_SHAPE)
    else
      let t := Tensor.view hn num_splits <$> Tensor.view np (hn * num_splits) t in
      let t := Tensor.transpose hn num_splits <$> t in
      ret (Tensor.flatten (Tensor.flatten <$> t)).

(** The named parameters of a model, in the order of [named_parameters()],
    and the [model] argument: one model or a list of models. *)
Definition Parameters : Type := list (string * list A).

Inductive ModelArg : Type :=
| OneModel (parameters : Parameters)
| ModelList (models : list Parameters).

Variable dist : option Dist.

(** [str(checkpoint_version)] *)
Variable float_str : float -> string.

Definition fix_parameter (checkpoint_version : float) (num_splits : nat) (data : list A)
  : M World (list A) :=
  if PrimFloat.eqb checkpoint_version 0 then _transpose_first_dim data num_splits true
  else if PrimFloat.eqb checkpoint_version 1 then _transpose_first_dim data num_splits false
  else
    print_rank_0 dist ("Invalid checkpoint version " +:+ float_str checkpoint_version +:+ ".") ;;
    sys_exit.

Definition is_query_key_value (name : string) : bool :=
  endswith ".query_key_value.weight" name || endswith ".query_key_value.bias" name.

Definition is_key_value (name : string) : bool :=
  endswith ".key_value.weight" name || endswith ".key_value.bias" name.

(** The body of the loop over the named parameters. *)
Definition fix_named_parameter (checkpoint_version : float) (param : string * list A)
  : M World (string * list A) :=
  let (name, data) := param in
  let* data :=
    if is_query_key_value name then fix_parameter checkpoint_version 3 data else ret data in
  let* data :=
    if is_key_value name then fix_parameter checkpoint_version 2 data else ret data in
  ret (name, data).

Fixpoint fix_named_parameters (checkpoint_version : float) (params : Parameters)
  : M World Parameters :=
  match params with
  | [] => ret []
  | param :: params' =>
      let* param := fix_named_parameter checkpoint_version param in
      let* params' := fix_named_parameters checkpoint_version params' in
      ret (param :: params')
  end.

(** The [model] argument is updated in place; the function is given here as
    returning it, as the loop leaves it. *)
Definition fix_query_key_value_ordering (model : ModelArg) (checkpoint_version : float)
  : M World ModelArg :=
  if PrimFloat.ltb checkpoint_version 2 then
    let* params :=
      match model with
      | OneModel p => ret p
      | ModelList [p] => ret p
      | ModelList _ => raise (AssertionError "")
      end in
    let* params := fix_named_parameters checkpoint_version params in
    print_rank_0 dist (" successfully fixed query-key-values ordering for checkpoint version "
                       +:+ float_str checkpoint_version) ;;
    ret (match model with
         | OneModel _ => OneModel params
         | ModelList _ => ModelList [params]
         end)
  else ret model.

End QueryKeyValue.

(** What the fix may do to one named parameter: the name stays, the rows
    are rearranged, and nothing changes under another name. *)
Definition rearranged {A} (param param' : string * list A) : Prop :=
  fst param' = fst param
  /\ snd param' ≡ₚ snd param
  /\ (is_query_key_value (fst param) = false -> is_key_value (fst param) = false ->
      snd param' = snd param).

(** The shapes that the fix asks of the parameters it rearranges. *)
Definition fits {A} (hn np : nat) (param : string * list A) : Prop :=
  (is_query_key_value (fst param) = true -> length (snd param) = (3 * np * hn)%nat)
  /\ (is_key_value (fst param) = true -> length (snd param) = (2 * np * hn)%nat).

Definition FIXED (float_str : float -> string) (checkpoint_version : float) : string :=
  " successfully fixed query-key-values ordering for checkpoint version "
  +:+ float_str checkpoint_version.

Definition no_float_str (v : float) : string := "".

(** ** Removing old non-persistent checkpoints *)

From Stdlib Require Import Sorted.

(** Python's slices [l[:stop]] and [l[start:]] for an integer bound: a
    negative bound counts from the end, and bounds are clipped. *)
Definition slice_to {X} (stop : Z) (l : list X) : list X :=
  let n := Z.of_nat (length l) in
  take (Z.to_nat (if stop <? 0 then Z.max (n + stop) 0 else Z.min stop n)) l.

Definition slice_from {X} (start : Z) (l : list X) : list X :=
  let n := Z.of_nat (length l) in
  drop (Z.to_nat (if start <? 0 then Z.max (n + start) 0 else Z.min start n)) l.

(** [s[n:]] for a string. *)
Fixpoint string_drop (n : nat) (s : string) : string :=
  match n, s with
  | S n', String _ r => string_drop n' r
  | _, _ => s
  end.

(** [sorted(l, key=...)] on elements that come with their integer key: a
    stable sort. *)
Fixpoint insert_by_key {X} (x : Z * X) (l : list (Z * X)) : list (Z * X) :=
  match l with
  | [] => [x]
  | y :: r => if fst x <=? fst y then x :: l else y :: insert_by_key x r
  end.

Fixpoint sorted_by_key {X} (l : list (Z * X)) : list (Z * X) :=
  match l with
  | [] => []
  | x :: r => insert_by_key x (sorted_by_key r)
  end.

(** [int(ckpt_name.name[len('iter_'):])] for a path. *)
Definition iteration_of (ckpt_name : string) : option Z :=
  PyStr.int (string_drop 5 (PyPath.tail_of ckpt_name)).

Section Cleanup.

(** The file system, with what [Path(save_dir).rglob(pattern)] yields on it
    and what [shutil.rmtree] does to it. *)
Context {FS : Type}.
Variable rglob : string -> string -> FS -> list string.
Variable rmtree : string -> Py.E FS unit.

(** [str(l)] for a list of paths. *)
Variable paths_str : list string -> string.

Variable dist : option Dist.

(** The process while it cleans up: its world, the file system, and the
    arguments of the threads it started. *)
Record Cleaner : Type := {
  cl_world : World;
  cl_fs : FS;
  cl_threads : list (list string)
}.

Definition cl_print_rank_0 (msg : string) : Py.E Cleaner unit :=
  Py.lift cl_world (fun w s => {| cl_world := w; cl_fs := cl_fs s;
                                  cl_threads := cl_threads s |})
    (print_rank_0 dist msg).

Definition cl_rmtree (ckpt : string) : Py.E Cleaner unit :=
  fun s =>
    let (r, fs) := rmtree ckpt (cl_fs s) in
    (r, {| cl_world := cl_world s; cl_fs := fs; cl_threads := cl_threads s |}).

Fixpoint remove_iter_ckpts (_iter_ckpts : list string) : Py.E Cleaner unit :=
  match _iter_ckpts with
  | [] => Py.ret tt
  | ckpt :: rest => cl_rmtree ckpt ;+ remove_iter_ckpts rest
  end.

(** [threading.Thread(target=remove_iter_ckpts, args=(l,)).start()] *)
Definition start_remove_iter_ckpts (l : list string) : Py.E Cleaner unit :=
  fun s => (Py.Ok tt, {| cl_world := cl_world s; cl_fs := cl_fs s;
                         cl_threads := cl_threads s ++ [l] |}).

(** The keys of [sorted]: the first path whose name does not read as an
    integer after [iter_] raises [ValueError]. *)
Fixpoint with_keys (paths : list string) : Py.E Cleaner (list (Z * string)) :=
  match paths with
  | [] => Py.ret []
  | p :: rest =>
      match iteration_of p with
      | Some n => let+ keyed := with_keys rest in Py.ret ((n, p) :: keyed)
      | None => Py.raise (Py.ValueError (string_drop 5 (PyPath.tail_of p)))
      end
  end.

Definition cleanup_old_non_persistent_checkpoint (save_dir : string) (leave_ckpt_num : Z)
    (do_async : bool) : Py.E Cleaner unit :=
  if match dist with Some d => negb (rank d =? 0) | None => false end then Py.ret tt
  else
    let+ iter_ckpts := (fun s => (Py.Ok (rglob save_dir "iter_*" (cl_fs s)), s)) in
    let+ keyed := with_keys iter_ckpts in
    let sorted_iter_ckpts := snd <$> sorted_by_key keyed in
    if bool_decide (sorted_iter_ckpts = []) then Py.ret tt
    else
      let rm_iter_ckpts := slice_to (- leave_ckpt_num) sorted_iter_ckpts in
      cl_print_rank_0 ("Non-persistent checkpoints scheduled for removal: "
                       +:+ paths_str rm_iter_ckpts) ;+
      cl_print_rank_0 ("Non-persistent checkpoints to be kept: "
                       +:+ paths_str (slice_from (- leave_ckpt_num) sorted_iter_ckpts)) ;+
      if do_async then start_remove_iter_ckpts rm_iter_ckpts
      else remove_iter_ckpts rm_iter_ckpts.

End Cleanup.

Arguments Cleaner : clear implicits.

(** Whether this process is the one that cleans up. *)
Definition cleans_up (dist : option Dist) : bool :=
  match dist with Some d => rank d =? 0 | None => true end.

(** A file system that is the list of its directories, where [rmtree]
    removes the directory it is given. *)
Definition listed_rglob (save_dir pattern : string) (fs : list string) : list string := fs.

Definition listed_rmtree (ckpt : string) : Py.E (list string) unit :=
  fun fs => (Py.Ok tt, filter (fun d => d <> ckpt) fs).

Definition no_paths_str (l : list string) : string := "".

Definition cleaner_of (fs : list string) : Cleaner (list string) :=
  {| cl_world := empty_world; cl_fs := fs; cl_threads := [] |}.

(** ** Saving the state of the dataloader *)

(** A train iterator: the name of its type, and what [save_state()] of its
    [iterable] returns, [None] when the iterable has no such attribute. *)
Record TrainIterator : Type := {
  type_repr : string;
  iterable_save_state : option string
}.

(** The world holds files, not directories: [os.makedirs(dirname,
    exist_ok=True)] leaves it as it is. *)
Definition ensure_directory_exists (filename : string) (check_parent : bool)
  : M World unit :=
  let dirname := if check_parent then PyPath.dirname filename else filename in
  ret tt.

Section DataloaderState.

Variable mpu : Mpu.

(** [mpu.is_pipeline_first_stage(ignore_virtual=True)] and
    [mpu.get_data_parallel_rank()] in this process. *)
Variable is_pipeline_first_stage : bool.
Variable data_parallel_rank : Z.

(** The text that [torch.save] writes for a dict of the given items. *)
Variable torch_save_text : list (string * string) -> string.

Definition maybe_save_dataloader_state (train_iterator : option TrainIterator)
    (iteration : Z) (dataloader_save_path : option string) : M World unit :=
  (* If no dataloader or saving path is provided, exit early *)
  match train_iterator, dataloader_save_path with
  | None, _ | _, None => ret tt
  | Some train_iterator, Some dataloader_save_path =>
      if String.eqb dataloader_save_path "" then ret tt
      else
        (* If dataloader doesn't support saving state, raise an error. *)
        match iterable_save_state train_iterator with
        | None =>
            raise (RuntimeError
                     ("Could not find a save_state for the train_iterator of type "
                      +:+ type_repr train_iterator))
        | Some save_state =>
            (* Save dataloader state for each data parallel rank only once. *)
            let first_rank :=
              is_pipeline_first_stage && (tensor_model_parallel_rank mpu =? 0) in
            if negb first_rank then ret tt
            else
              let dp_rank := data_parallel_rank in
              print ("saving dataloader checkpoint at iteration " +:+ PyStr.str iteration
                     +:+ " to " +:+ dataloader_save_path) ;;
              let train_dataloader_state_dict := save_state in
              let data_state_save_path :=
                get_checkpoint_name mpu dataloader_save_path iteration false None None None
                  None None false
                  ("train_dataloader_dprank" +:+ PyStr.format_0d 3 dp_rank +:+ ".pt") in
              (* the two barriers of the data-parallel group do nothing in one
                 process *)
              when (data_parallel_rank =? 0)
                (ensure_directory_exists data_state_save_path true) ;;
              let dataloader_save_dict :=
                [("dataloader_state_dict", train_dataloader_state_dict)] in
              write_file data_state_save_path (torch_save_text dataloader_save_dict)
        end
  end.

End DataloaderState.

(** ** The content metadata of a distributed checkpoint *)

Definition _build_sharded_state_dict_metadata {S} (args : Args)
  : M S (gmap string PyVal) :=
  let metadata : gmap string PyVal := ∅ in
  let* metadata :=
    if use_distributed_optimizer args then
      match ckpt_fully_parallel_save args with
      | Some fully_parallel_save =>
          if fully_parallel_save
          then ret (<["distrib_optim_sharding_type" := VStr "fully_sharded_model_space"]>
                      metadata)
          else ret (<["distrib_optim_sharding_type" := VStr "dp_zero_gather_scatter"]>
                      metadata)
      | None => raise (no_attribute "ckpt_fully_parallel_save")
      end
    else ret metadata in
  ret (<["chained_optim_avoid_prefix" := VBool true]> metadata).

(** ** Loading a biencoder checkpoint *)

(** The parameters of [get_checkpoint_name], in order. *)
Definition get_checkpoint_name_parameters : list string :=
  ["checkpoints_path"; "iteration"; "release"; "pipeline_parallel"; "tensor_rank";
   "pipeline_rank"; "expert_parallel"; "expert_rank"; "return_base_dir"; "basename"].

(** A call that gives the first [positional] parameters by position and
    the parameters [keywords] by name: the first keyword, if any, whose
    parameter has its value already. *)
Definition multiple_values (parameters : list string) (positional : nat)
    (keywords : list string) : option string :=
  List.find (fun k => bool_decide (k ∈ take positional parameters)) keywords.

Section Biencoder.

(** A model chunk and the value of a state dict's entry. *)
Context {Module_ Tensors : Type}.

Variable mpu : Mpu.

(** [unwrap_model], [mpu.get_data_parallel_rank()],
    [torch.distributed.get_rank()], [torch.load] and
    [module.load_state_dict]. *)
Variable unwrap_model : list Module_ -> list Module_.
Variable data_parallel_rank : Z.
Variable global_rank : Z.
Variable torch_load : string -> M World (gmap string (gmap string Tensors)).
Variable load_state_dict : Module_ -> gmap string Tensors -> M World Module_.

(** [d.pop(key)] *)
Definition dict_pop {X} (d : gmap string X) (key : string) : M World (gmap string X) :=
  match d !! key with
  | Some _ => ret (delete key d)
  | None => raise (KeyError key)
  end.

Definition in_py {A} (m : M World A) : Py.E World A :=
  Py.lift (fun w => w) (fun w _ => w) m.

Definition load_biencoder_checkpoint (args : Args) (model : list Module_)
    (only_query_model only_context_model : bool) (custom_load_path : option string)
  : Py.E World (list Module_) :=
  let model := unwrap_model model in
  let load_path :=
    match custom_load_path with Some p => Some p | None => load args end in
  let+ tracker_filename := in_py (tracker_of load_path) in
  let+ text := in_py (read_file tracker_filename) in
  let+ iteration := Py.int_of text in
  (* get_checkpoint_name(load_path, iteration, args.use_distributed_optimizer,
                         release=False) *)
  let+ checkpoint_name :=
    match multiple_values get_checkpoint_name_parameters 3 ["release"] with
    | Some name =>
        Py.raise (Py.Exn (TypeError ("get_checkpoint_name() got multiple values for argument '"
                                     +:+ name +:+ "'")))
    | None =>
        (* [load_path] is a string here, [os.path.join] took it *)
        Py.ret (get_checkpoint_name mpu (default "" load_path) iteration
                  (use_distributed_optimizer args) None None None None None false
                  default_basename)
    end in
  Py.when (data_parallel_rank =? 0)
    (in_py (print ("global rank " +:+ PyStr.str global_rank +:+ " is loading checkpoint "
                   +:+ checkpoint_name))) ;+
  let+ state_dict := in_py (torch_load checkpoint_name) in
  let+ ret_state_dict :=
    match state_dict !! "model" with
    | Some d => Py.ret d
    | None => Py.raise (Py.Exn (KeyError "model"))
    end in
  let+ ret_state_dict :=
    if only_query_model then in_py (dict_pop ret_state_dict "context_model")
    else Py.ret ret_state_dict in
  let+ ret_state_dict :=
    if only_context_model then in_py (dict_pop ret_state_dict "query_model")
    else Py.ret ret_state_dict in
  match model with
  | [module] =>
      let+ module := in_py (load_state_dict module ret_state_dict) in
      Py.when (data_parallel_rank =? 0)
        (in_py (print (" successfully loaded " +:+ checkpoint_name))) ;+
      Py.ret [module]
  | _ => Py.raise (Py.Exn (AssertionError ""))
  end.

End Biencoder.

(** The state dict that [load_checkpoint] reads from a checkpoint saved with
    the given arguments and content metadata, [metadata_str] being the
    [str()] of these. *)
Definition checkpoint_with (ckpt_args : Args) (metadata : gmap string PyVal)
    (metadata_str : string) (rerun_state : bool) : StateDict :=
  {| sd_args := Some ckpt_args;
     sd_content_metadata :=
       Some (match metadata !! "distrib_optim_sharding_type" with
             | Some (VStr sharding_type) => Some sharding_type
             | _ => None
             end);
     sd_content_metadata_str := metadata_str;
     sd_has_rerun_state_machine := rerun_state |}.

(** The attributes that [check_checkpoint_args] reads among those of the
    record: an [args] namespace is these and [others]. *)
Definition namespace_of (args : Args) (others : gmap string PyVal) : gmap string PyVal :=
  <["tensor_model_parallel_size" := VInt (tensor_model_parallel_size args)]>
    (<["pipeline_model_parallel_size" := VInt (pipeline_model_parallel_size args)]>
       (<["use_dist_ckpt" := VBool (use_dist_ckpt args)]> others)).

(** How [load_biencoder_checkpoint] ends in a world, for the load directory
    it is given or finds in [args]. *)
Definition biencoder_error (load_path : option string) (w : World) : Py.error :=
  match load_path with
  | None => Py.Exn (TypeError "expected str, bytes or os.PathLike object, not NoneType")
  | Some d =>
      match files w !! get_checkpoint_tracker_filename d with
      | None => Py.Exn (FileNotFoundError (get_checkpoint_tracker_filename d))
      | Some text =>
          match PyStr.int (PyStr.strip text) with
          | None => Py.ValueError (PyStr.strip text)
          | Some _ =>
              Py.Exn (TypeError
                        "get_checkpoint_name() got multiple values for argument 'release'")
          end
      end
  end.

(** ** Saving a checkpoint *)

Definition ASYNC_WARNING : string :=
  "WARNING: Starting a checkpoint save before previous has finished. Consider increasing the checkpoint interval.".

(** Modelled from the spec: [is_empty_async_queue] and [schedule_async_save]
    of [megatron/training/async_utils.py] are not among the sources; as the
    spec's asynchronous completion pipeline has it, the pipeline tracks the
    outstanding save requests: the queue is empty when none is outstanding,
    and scheduling a request adds it after the outstanding ones. *)
Definition is_empty_async_queue : M World bool :=
  fun w => (Returns (bool_decide (async_queue w = [])), w).

Definition schedule_async_save (r : AsyncRequest) : M World unit := enqueue r.

(** What [save_checkpoint] works with beside its arguments: the process
    group and the parallel state; the model chunks, the optimizer, the
    scheduler and the state of the rerun state machine (present or not); the
    attributes [log_progress], [save_retain_interval] and [dataloader_save]
    of [args]; whether [modelopt] and [nvidia_resiliency_ext] can be
    imported; and the calls that the functions it uses make on the file
    system. *)
Record SaveEnv (FS : Type) : Type := {
  env_dist : option Dist;
  env_mpu : Mpu;
  env_expert_data_parallel_rank : Z;
  env_tensor_model_parallel_world_size : Z;
  env_is_pipeline_first_stage : bool;
  env_data_parallel_rank : Z;
  env_n_models : nat;
  env_optimizer : option Optimizer;
  env_opt_param_scheduler : bool;
  env_rerun_state : bool;
  env_log_progress : bool;
  env_save_retain_interval : option Z;
  env_dataloader_save : option string;
  env_has_nvidia_modelopt : bool;
  env_has_nvidia_resiliency_ext : bool;
  env_rglob : string -> string -> FS -> list string;
  env_rmtree : string -> Py.E FS unit;
  env_paths_str : list string -> string;
  env_islink : string -> bool;
  env_append_to_progress_log : string -> M World unit;
  env_torch_save_text : list (string * string) -> string
}.

Arguments env_dist {FS} _.
Arguments env_mpu {FS} _.
Arguments env_expert_data_parallel_rank {FS} _.
Arguments env_tensor_model_parallel_world_size {FS} _.
Arguments env_is_pipeline_first_stage {FS} _.
Arguments env_data_parallel_rank {FS} _.
Arguments env_n_models {FS} _.
Arguments env_optimizer {FS} _.
Arguments env_opt_param_scheduler {FS} _.
Arguments env_rerun_state {FS} _.
Arguments env_log_progress {FS} _.
Arguments env_save_retain_interval {FS} _.
Arguments env_dataloader_save {FS} _.
Arguments env_has_nvidia_modelopt {FS} _.
Arguments env_has_nvidia_resiliency_ext {FS} _.
Arguments env_rglob {FS} _.
Arguments env_rmtree {FS} _.
Arguments env_paths_str {FS} _.
Arguments env_islink {FS} _.
Arguments env_append_to_progress_log {FS} _.
Arguments env_torch_save_text {FS} _.

(** The process while it saves: what
    [cleanup_old_non_persistent_checkpoint] works on (the world, the file
    system, the removal threads), and the directories for which a thread
    running [delete_checkpoint] has been started. *)
Record Saving (FS : Type) : Type := {
  sg_cleaner : Cleaner FS;
  sg_deleting : list string
}.

Arguments sg_cleaner {FS} _.
Arguments sg_deleting {FS} _.

Section Save.

Context {FS : Type}.
Variable env : SaveEnv FS.

Definition sg_world (s : Saving FS) : World := cl_world (sg_cleaner s).

Definition sg_with_world (w : World) (s : Saving FS) : Saving FS :=
  {| sg_cleaner := {| cl_world := w; cl_fs := cl_fs (sg_cleaner s);
                      cl_threads := cl_threads (sg_cleaner s) |};
     sg_deleting := sg_deleting s |}.

(** The computations of the functions that [save_checkpoint] calls, run on
    their part of the state. *)
Definition sg_in_world {A} (m : M World A) : Py.E (Saving FS) A :=
  Py.lift sg_world sg_with_world m.

Definition sg_in_cleaner {A} (m : Py.E (Cleaner FS) A) : Py.E (Saving FS) A :=
  Py.zoom sg_cleaner (fun c s => {| sg_cleaner := c; sg_deleting := sg_deleting s |}) m.

Definition sg_in_saver {A} (m : Py.E Saver A) : Py.E (Saving FS) A :=
  Py.zoom (fun s => {| sv_world := sg_world s; sv_deleting := sg_deleting s |})
    (fun v s => {| sg_cleaner := sg_cleaner (sg_with_world (sv_world v) s);
                   sg_deleting := sv_deleting v |}) m.

Definition is_rank_0 : bool :=
  match env_dist env with Some d => rank d =? 0 | None => true end.

Definition is_last : bool :=
  match env_dist env with Some d => last_rank d | None => true end.

(** Lines 552-557: [iter_finalize_fn] of a local checkpoint. *)
Definition local_iter_finalize_fn (args : Args) (iteration : Z) : M World unit :=
  print_rank_0 (env_dist env)
    ("  successfully saved local checkpoint from iteration " +:+ PyStr.format_d 7 iteration) ;;
  when (env_log_progress env && async_save args)
    (env_append_to_progress_log env
       ("Saved async local checkpoint" +:+ String "009" "Iteration: "
        +:+ PyStr.str iteration)).

(** [assert async_save_request is not None] and
    [async_save_request.add_finalize_fn(f)] *)
Definition add_finalize_fn (f : FinalizeFn) (async_save_request : option AsyncRequest)
  : Py.E (Saving FS) (option AsyncRequest) :=
  match async_save_request with
  | Some r =>
      Py.ret (Some {| req_checkpoint_name := req_checkpoint_name r;
                      req_iteration := req_iteration r;
                      req_state_dict := req_state_dict r;
                      req_finalize_fns := req_finalize_fns r ++ [f] |})
  | None => Py.raise (Py.Exn (AssertionError ""))
  end.

(** [save_checkpoint] from line 365 on.  The writers of the state dict
    ([dist_checkpointing.save], [torch.distributed.checkpoint.save], the
    local checkpoint manager, [torch.save],
    [optimizer.save_parameter_state] and those of the ModelOpt state) are
    not among the sources: what is
    kept of a write is the request it leaves when it is asynchronous, with
    the name, the iteration and the keys of the state dict it was given.
    The calls on the one-logger, the fault-tolerance integration and wandb
    and the barriers leave the state as it is. *)
Definition save_checkpoint_body (args : Args) (iteration : Z)
    (checkpointing_context : option CheckpointingContext)
    (pipeline_rank expert_rank tensor_rank : option Z)
    (pipeline_parallel expert_parallel : option bool)
    (non_persistent_ckpt : bool) (train_data_iterator : option TrainIterator)
  : Py.E (Saving FS) unit :=
  let dist := env_dist env in
  let mpu := env_mpu env in
  (* Handle non_persistent_ckpt flag. *)
  let not_implemented (got : string) : Py.E (Saving FS) (CheckpointType * string) :=
    Py.raise (Py.Exn (NotImplementedError
                        ("Please use local or global non-persistent checkpoints (got: "
                         +:+ got +:+ ")"))) in
  let+ (ckpt_type, save_dir) :=
    if non_persistent_ckpt then
      match non_persistent_ckpt_type args with
      | Some ty =>
          if String.eqb ty "global" then
            let save_dir :=
              if truthy_str (non_persistent_global_ckpt_dir args)
              then default "" (non_persistent_global_ckpt_dir args)
              else PyStr.os_path_join (save args) [_NON_PERSISTENT_CKPT_SUBDIR] in
            sg_in_cleaner
              (cleanup_old_non_persistent_checkpoint (env_rglob env) (env_rmtree env)
                 (env_paths_str env) dist save_dir 1 (async_save args)) ;+
            Py.ret (GLOBAL, save_dir)
          else if String.eqb ty "local" then
            let+ manager := sg_in_world (the_local_manager checkpointing_context) in
            Py.ret (LOCAL, local_ckpt_dir manager)
          else not_implemented ty
      | None => not_implemented "None"
      end
    else Py.ret (if use_dist_ckpt args then GLOBAL else LEGACY, save args) in
  let is_global := match ckpt_type with GLOBAL => true | _ => false end in
  let is_legacy := match ckpt_type with LEGACY => true | _ => false end in
  let is_local := match ckpt_type with LOCAL => true | _ => false end in
  let format := if is_global then ckpt_format args else "torch" in
  sg_in_world
    (print_rank_0 dist ("saving checkpoint at iteration " +:+ PyStr.format_d 7 iteration
                        +:+ " to " +:+ save_dir +:+ " in " +:+ format +:+ " format")) ;+
  (* Collect rng state across data parallel ranks: [get_rng_state] always
     gives one.  Collect rerun state across all ranks. *)
  let rng_state := true in
  let rerun_state := env_rerun_state env in
  (* Checkpoint name. *)
  let checkpoint_name :=
    get_checkpoint_name mpu save_dir iteration false pipeline_parallel tensor_rank
      pipeline_rank expert_parallel expert_rank (negb is_legacy) default_basename in
  (* Save dataloader state if the dataloader supports it *)
  sg_in_world
    (maybe_save_dataloader_state mpu (env_is_pipeline_first_stage env)
       (env_data_parallel_rank env) (env_torch_save_text env) train_data_iterator
       iteration (env_dataloader_save env)) ;+
  (* Save distributed optimizer's custom parameter state. *)
  (if use_distributed_optimizer args && negb (default false (no_save_optim args))
      && is_legacy
   then match env_optimizer env with
        | Some optimizer =>
            let optim_checkpoint_name :=
              get_distributed_optimizer_checkpoint_name checkpoint_name in
            (* then [optimizer.save_parameter_state], unless it is a stub *)
            sg_in_world (ensure_directory_exists optim_checkpoint_name true)
        | None => Py.ret tt
        end
   else Py.ret tt) ;+
  (if async_save args then
     if is_legacy
     then Py.raise (Py.Exn (NotImplementedError
                              "Async checkpoint save not implemented for legacy checkpoints"))
     else if is_global && negb (String.eqb (ckpt_format args) "torch_dist")
     then Py.raise (Py.Exn (NotImplementedError
                              ("Async checkpoint save not implemented for "
                               +:+ ckpt_format args
                               +:+ " distributed checkpoint format")))
     else Py.ret tt
   else Py.ret tt) ;+
  (* Collect args, model, RNG. *)
  let+ async_save_request :=
    if bool_decide (dist = None) || (env_expert_data_parallel_rank env =? 0)
       || negb is_legacy
    then
      (if negb is_legacy then
         let+ sharded_sd_metadata :=
           sg_in_world (_build_sharded_state_dict_metadata args) in
         if use_distributed_optimizer args then
           match sharded_sd_metadata !! "distrib_optim_sharding_type" with
           | Some sharding_type =>
               sg_in_world
                 (print_rank_0 dist ("Storing distributed optimizer sharded state of type "
                                     +:+ PyVal.str sharding_type))
           | None => Py.raise (Py.Exn (KeyError "distrib_optim_sharding_type"))
           end
         else Py.ret tt
       else Py.ret tt) ;+
      let state_dict :=
        generate_state_dict args (env_n_models env) (env_optimizer env)
          (env_opt_param_scheduler env) rng_state true rerun_state
        ∪ {[ "num_floating_point_operations_so_far" ]} in
      let request : option AsyncRequest :=
        if async_save args
        then Some {| req_checkpoint_name := checkpoint_name; req_iteration := iteration;
                     req_state_dict := state_dict; req_finalize_fns := [] |}
        else None in
      if is_global && String.eqb format "torch_dist" then
        Py.when is_rank_0
          (sg_in_world (ensure_directory_exists checkpoint_name false)) ;+
        (* [dist_checkpointing.save] with [async_sharded_save=args.async_save] *)
        Py.ret request
      else if is_global && String.eqb format "torch_dcp" then
        Py.when is_rank_0
          (sg_in_world (ensure_directory_exists checkpoint_name false)) ;+
        Py.ret None
      else
        (* [ModelOpt]: Inject modelopt_state into state_dict *)
        Py.when (env_has_nvidia_modelopt env && is_local)
          (sg_in_world
             (print_rank_0 dist
                "WARNING: Local checkpointing does not support nvidia_modelopt.")) ;+
        if is_local then
          (if env_has_nvidia_resiliency_ext env then Py.ret tt
           else Py.raise (Py.Exn (RuntimeError
                  "The 'nvidia_resiliency_ext' module is required for local checkpointing but was not found. Please ensure it is installed."))) ;+
          (* [checkpointing_context['local_checkpoint_manager'].save], with
             [is_async=bool(args.async_save)] *)
          let+ manager := sg_in_world (the_local_manager checkpointing_context) in
          Py.ret request
        else
          sg_in_world (assert is_legacy "") ;+
          (* Save. *)
          sg_in_world (ensure_directory_exists checkpoint_name true) ;+
          Py.ret None
    else Py.ret None in
  (if negb is_local && negb (async_save args)
   then sg_in_world (assert (bool_decide (async_save_request = None)) "")
   else Py.ret tt) ;+
  (* And update the latest iteration *)
  let+ async_save_request :=
    if is_rank_0 then
      let tracker_filename := get_checkpoint_tracker_filename save_dir in
      if async_save args then
        add_finalize_fn (if is_local then LocalIterFinalize iteration
                         else IterFinalize tracker_filename iteration)
          async_save_request
      else
        (if is_local then sg_in_world (local_iter_finalize_fn args iteration)
         else sg_in_saver
                (iter_finalize_fn dist mpu (env_tensor_model_parallel_world_size env)
                   (env_islink env) (env_append_to_progress_log env) (env_log_progress env)
                   (env_save_retain_interval env) args tracker_filename iteration
                   tensor_rank pipeline_rank)) ;+
        Py.ret async_save_request
    else Py.ret async_save_request in
  (* Additional callback for one_logger (last rank) *)
  let+ async_save_request :=
    if is_last && async_save args
    then add_finalize_fn OneLoggerFinalize async_save_request
    else Py.ret async_save_request in
  (* Additional callback for wandb (last rank) *)
  let+ async_save_request :=
    if is_last && async_save args
    then add_finalize_fn WandbFinalize async_save_request
    else Py.ret async_save_request in
  if async_save args then
    match async_save_request with
    | Some r =>
        sg_in_world (schedule_async_save r) ;+
        sg_in_world
          (print_rank_0 dist ("  scheduled an async checkpoint save at iteration "
                              +:+ PyStr.format_d 7 iteration +:+ " to " +:+ save_dir))
    | None =>
        (* not reached: an asynchronous save that gets here has a request *)
        Py.raise (Py.Exn (AttributeError
                            "'NoneType' object has no attribute 'add_finalize_fn'"))
    end
  else Py.ret tt.

(** [save_checkpoint]: lines 362-363, then the rest. *)
Definition save_checkpoint (args : Args) (iteration : Z)
    (checkpointing_context : option CheckpointingContext)
    (pipeline_rank expert_rank tensor_rank : option Z)
    (pipeline_parallel expert_parallel : option bool)
    (non_persistent_ckpt : bool) (train_data_iterator : option TrainIterator)
  : Py.E (Saving FS) unit :=
  let+ empty := sg_in_world is_empty_async_queue in
  Py.when (async_save args && negb empty)
    (sg_in_world (print_rank_0 (env_dist env) ASYNC_WARNING)) ;+
  save_checkpoint_body args iteration checkpointing_context pipeline_rank expert_rank
    tensor_rank pipeline_parallel expert_parallel non_persistent_ckpt train_data_iterator.

End Save.

(** A train iterator that can save its state. *)
Definition energon_iterator (state : string) : TrainIterator :=
  {| type_repr := "<class 'RerunDataIterator'>"; iterable_save_state := Some state |}.

Definition first_stage (expert_rank : Z) : Mpu :=
  {| tensor_model_parallel_rank := 0; pipeline_model_parallel_rank := 0;
     pipeline_model_parallel_world_size := 1; expert_model_parallel_rank := expert_rank;
     expert_model_parallel_world_size := 2 |}.

Definition one_item (items : list (string * string)) : string :=
  match items with
  | [(_, v)] => v
  | _ => ""
  end.

(** Two states of the cleaning process, and of the saving process, that
    differ by outstanding saves and by lines printed because of them, as
    [queue_frame] has it for their worlds. *)
Definition cleaner_frame {FS} (q : list AsyncRequest) (warn base : list string)
    (idle busy : Cleaner FS) : Prop :=
  queue_frame q warn base (cl_world idle) (cl_world busy)
  /\ cl_fs busy = cl_fs idle
  /\ cl_threads busy = cl_threads idle.

Definition saving_frame {FS} (q : list AsyncRequest) (warn base : list string)
    (idle busy : Saving FS) : Prop :=
  cleaner_frame q warn base (sg_cleaner idle) (sg_cleaner busy)
  /\ sg_deleting busy = sg_deleting idle.

(** Computations that do not look at the outstanding saves. *)
Definition cleaner_blind {FS A} (m : Py.E (Cleaner FS) A) : Prop :=
  forall q warn base idle busy,
    cleaner_frame q warn base idle busy ->
    fst (m idle) = fst (m busy)
    /\ cleaner_frame q warn base (snd (m idle)) (snd (m busy)).

Definition saving_blind {FS A} (m : Py.E (Saving FS) A) : Prop :=
  forall q warn base idle busy,
    saving_frame q warn base idle busy ->
    fst (m idle) = fst (m busy)
    /\ saving_frame q warn base (snd (m idle)) (snd (m busy)).

(** Whether [maybe_save_dataloader_state] has a state to save or nothing
    to do: it raises when it is given an iterator without [save_state] and
    a path. *)
Definition dataloader_state_can_be_saved (train_data_iterator : option TrainIterator)
    (dataloader_save : option string) : bool :=
  match train_data_iterator, dataloader_save with
  | Some train_iterator, Some path =>
      String.eqb path "" || bool_decide (is_Some (iterable_save_state train_iterator))
  | _, _ => true
  end.

(** The request that [save_checkpoint] schedules for an asynchronous save
    of a distributed checkpoint to [args.save]. *)
Definition scheduled_request {FS} (env : SaveEnv FS) (args : Args) (iteration : Z)
    (pipeline_rank expert_rank tensor_rank : option Z)
    (pipeline_parallel expert_parallel : option bool) : AsyncRequest :=
  {| req_checkpoint_name :=
       get_checkpoint_name (env_mpu env) (save args) iteration false pipeline_parallel
         tensor_rank pipeline_rank expert_parallel expert_rank true default_basename;
     req_iteration := iteration;
     req_state_dict :=
       generate_state_dict args (env_n_models env) (env_optimizer env)
         (env_opt_param_scheduler env) true true (env_rerun_state env)
       ∪ {[ "num_floating_point_operations_so_far" ]};
     req_finalize_fns :=
       (if is_rank_0 env
        then [IterFinalize (get_checkpoint_tracker_filename (save args)) iteration]
        else [])
       ++ (if is_last env then [OneLoggerFinalize; WandbFinalize] else []) |}.

(** The line about the sharding type of the distributed optimizer. *)
Definition STORING (args : Args) : string :=
  "Storing distributed optimizer sharded state of type "
  +:+ (if default false (ckpt_fully_parallel_save args) then FULLY_SHARDED else DP_ZERO).

(** One process without a process group, on a file system that is the list
    of its directories; and its state while the save of iteration 5 is
    outstanding. *)
Definition one_process : SaveEnv (list string) :=
  {| env_dist := None; env_mpu := single_rank; env_expert_data_parallel_rank := 0;
     env_tensor_model_parallel_world_size := 1; env_is_pipeline_first_stage := true;
     env_data_parallel_rank := 0; env_n_models := 1; env_optimizer := None;
     env_opt_param_scheduler := false; env_rerun_state := false;
     env_log_progress := false; env_save_retain_interval := None;
     env_dataloader_save := None; env_has_nvidia_modelopt := false;
     env_has_nvidia_resiliency_ext := false;
     env_rglob := listed_rglob; env_rmtree := listed_rmtree;
     env_paths_str := no_paths_str; env_islink := fun _ => false;
     env_append_to_progress_log := no_progress_log;
     env_torch_save_text := one_item |}.

Definition saving_in (w : World) : Saving (list string) :=
  {| sg_cleaner := {| cl_world := w; cl_fs := []; cl_threads := [] |};
     sg_deleting := [] |}.

(** * Properties *)

Example strip_ex : PyStr.strip "  12
" = "12".
Proof. reflexivity. Qed.

Example int_ex : PyStr.int "1_000" = Some 1000 /\ PyStr.int "-07" = Some (-7)
  /\ PyStr.int "1__0" = None /\ PyStr.int "" = None /\ PyStr.int "release" = None
  /\ PyStr.int "+5" = Some 5 /\ PyStr.int "5_" = None /\ PyStr.int "1 2" = None.
Proof. repeat split; reflexivity. Qed.

Example format_ex : PyStr.format_0d 7 5 = "0000005" /\ PyStr.format_0d 7 (-5) = "-000005"
  /\ PyStr.format_0d 2 123 = "123" /\ PyStr.format_d 7 42 = "     42"
  /\ PyStr.format_0d 7 0 = "0000000".
Proof. repeat split; reflexivity. Qed.

Example join_ex : PyStr.os_path_join "/ckpt" ["iter_0000005"; "mp_rank_00"] = "/ckpt/iter_0000005/mp_rank_00"
  /\ PyStr.os_path_join "/ckpt/" ["x"] = "/ckpt/x" /\ PyStr.os_path_join "" ["x"] = "x"
  /\ PyStr.os_path_join "a" ["/x"] = "/x".
Proof. repeat split; reflexivity. Qed.

(** ** Decimal numerals *)

Section Numerals.

Import PyStr.

Lemma digit_facts c :
  is_digit c = true ->
  isspace c = false /\ Ascii.eqb c "_" = false /\ c <> "+"%char /\ c <> "-"%char
  /\ c <> "/"%char.
Proof.
  unfold is_digit, isspace. intros H.
  apply andb_true_iff in H as [H1 H2].
  apply Nat.leb_le in H1, H2.
  assert (Hc : c = ascii_of_nat (nat_of_ascii c)) by (symmetry; apply ascii_nat_embedding).
  remember (nat_of_ascii c) as n eqn:Hn. clear Hn.
  assert (Hcases : (n = 48 \/ n = 49 \/ n = 50 \/ n = 51 \/ n = 52 \/ n = 53
                    \/ n = 54 \/ n = 55 \/ n = 56 \/ n = 57)%nat) by lia.
  clear H1 H2.
  repeat (destruct Hcases as [-> | Hcases]); try subst n; subst c;
    (repeat split; try reflexivity; intros E; vm_compute in E; discriminate E).
Qed.

Lemma all_digits_uint (u : Decimal.uint) : all_digits (NilEmpty.string_of_uint u) = true.
Proof. induction u; simpl; auto. Qed.

Lemma all_digits_zeros k : all_digits (zeros k) = true.
Proof. induction k; simpl; auto. Qed.

Lemma all_digits_app s t :
  all_digits s = true -> all_digits t = true -> all_digits (s +:+ t) = true.
Proof.
  induction s as [|c s IH]; simpl; [auto|].
  intros H Ht. apply andb_true_iff in H as [Hc Hs].
  rewrite Hc. simpl. auto.
Qed.

Lemma lstrip_digits s : all_digits s = true -> lstrip s = s.
Proof.
  destruct s as [|c s]; simpl; [reflexivity|].
  intros H. apply andb_true_iff in H as [Hc _].
  apply digit_facts in Hc as [-> _]. reflexivity.
Qed.

Lemma rstrip_digits s : all_digits s = true -> rstrip s = s.
Proof.
  induction s as [|c s IH]; simpl; [reflexivity|].
  intros H. apply andb_true_iff in H as [Hc Hs].
  rewrite (IH Hs). apply digit_facts in Hc as [-> _].
  destruct s; reflexivity.
Qed.

Lemma strip_digits s : all_digits s = true -> strip s = s.
Proof.
  intros H. unfold strip. rewrite (lstrip_digits _ H). apply rstrip_digits, H.
Qed.

Lemma strip_minus_digits s : all_digits s = true -> strip (String "-" s) = String "-" s.
Proof.
  intros H. unfold strip. simpl. rewrite (rstrip_digits _ H).
  destruct s; reflexivity.
Qed.

(** Parsing what the printer wrote gives the numeral back. *)
Lemma parse_digits_uint (u : Decimal.uint) b :
  u <> Decimal.Nil \/ b = true ->
  parse_digits b (NilEmpty.string_of_uint u) = Some u.
Proof.
  revert b. induction u; intros b Hb; simpl;
    try (rewrite IHu by (right; reflexivity); reflexivity).
  destruct Hb as [Hb | ->]; [congruence | reflexivity].
Qed.

Lemma parse_digits_zeros k (u : Decimal.uint) b :
  u <> Decimal.Nil \/ b = true ->
  parse_digits b (zeros k +:+ NilEmpty.string_of_uint u) = Some (Nat.iter k Decimal.D0 u).
Proof.
  revert b. induction k as [|k IH]; intros b Hb; simpl.
  - apply parse_digits_uint, Hb.
  - rewrite IH by (right; reflexivity). reflexivity.
Qed.

Lemma of_uint_zeros k u : Z.of_uint (Nat.iter k Decimal.D0 u) = Z.of_uint u.
Proof. induction k; simpl; auto. Qed.

Lemma str_nonneg n :
  0 <= n -> exists u, u <> Decimal.Nil /\ str n = NilEmpty.string_of_uint u /\ Z.of_uint u = n.
Proof.
  intros Hn. destruct n as [|p|p]; [| |lia].
  - exists (Decimal.D0 Decimal.Nil). repeat split; discriminate.
  - exists (Pos.to_uint p). pose proof (DecimalPos.Unsigned.to_uint_nonnil p) as Hp.
    split; [exact Hp|]. split.
    + unfold str. simpl. destruct (Pos.to_uint p); [congruence | reflexivity ..].
    + unfold Z.of_uint. rewrite DecimalPos.Unsigned.of_to. reflexivity.
Qed.

Lemma str_nonneg_digits n : 0 <= n -> all_digits (str n) = true.
Proof.
  intros Hn. destruct (str_nonneg n Hn) as (u & _ & -> & _). apply all_digits_uint.
Qed.

Lemma str_neg n : n < 0 -> str n = String "-" (str (- n)).
Proof. destruct n; try lia. intros _. reflexivity. Qed.

(** A string of digits does not start with a sign: [int] takes its last
    branch. *)
Lemma int_digits s :
  all_digits s = true -> int s = Z.of_uint <$> parse_digits false s.
Proof.
  intros H. unfold int. rewrite (strip_digits _ H).
  destruct s as [|c s]; [reflexivity|].
  simpl in H. apply andb_true_iff in H as [Hc _].
  apply digit_facts in Hc as (_ & _ & Hplus & Hminus & _).
  destruct c as [[] [] [] [] [] [] [] []]; try reflexivity; congruence.
Qed.

(** [int(str(n)) == n] *)
Lemma int_str n : int (str n) = Some n.
Proof.
  destruct (Z_lt_le_dec n 0) as [Hneg | Hpos].
  - rewrite (str_neg n Hneg).
    destruct (str_nonneg (- n) ltac:(lia)) as (u & Hu & Hs & Hv).
    unfold int. rewrite strip_minus_digits by (rewrite Hs; apply all_digits_uint).
    rewrite Hs. rewrite parse_digits_uint by (left; exact Hu). simpl. f_equal. lia.
  - destruct (str_nonneg n Hpos) as (u & Hu & Hs & Hv).
    rewrite int_digits by (rewrite Hs; apply all_digits_uint).
    rewrite Hs. rewrite parse_digits_uint by (left; exact Hu). simpl. congruence.
Qed.

Lemma length_app_str (s t : string) :
  String.length (s +:+ t) = (String.length s + String.length t)%nat.
Proof. induction s; simpl; auto. Qed.

Lemma length_zeros k : String.length (zeros k) = k.
Proof. induction k; simpl; auto. Qed.

(** The zero-padded form is made of digits only, has at least [width]
    characters, exactly [width] when the number fits, and reads back as the
    number. *)
Lemma format_0d_nonneg width n :
  0 <= n ->
  all_digits (format_0d width n) = true
  /\ String.length (format_0d width n) = Nat.max width (String.length (str n))
  /\ int (format_0d width n) = Some n.
Proof.
  intros Hn. unfold format_0d.
  assert (Hlt : (n <? 0) = false) by (apply Z.ltb_ge; lia).
  rewrite Hlt. rewrite Z.abs_eq by lia.
  change ("" +:+ ?x) with x. cbn [String.length]. rewrite Nat.sub_0_r.
  destruct (str_nonneg n Hn) as (u & Hu & Hs & Hv).
  split; [|split].
  - apply all_digits_app; [apply all_digits_zeros | apply str_nonneg_digits, Hn].
  - rewrite length_app_str, length_zeros. lia.
  - rewrite int_digits
      by (apply all_digits_app; [apply all_digits_zeros | apply str_nonneg_digits, Hn]).
    rewrite Hs. rewrite parse_digits_zeros by (left; exact Hu).
    simpl. rewrite of_uint_zeros. congruence.
Qed.

Lemma format_0d_neg width n :
  n < 0 ->
  format_0d width n
  = String "-" (zeros (width - 1 - String.length (str (- n))) +:+ str (- n)).
Proof.
  intros Hn. unfold format_0d.
  assert (Hlt : (n <? 0) = true) by (apply Z.ltb_lt; lia).
  rewrite Hlt. rewrite Z.abs_neq by lia. reflexivity.
Qed.

(** For every integer, negative ones included. *)
Lemma format_0d_reads_back width n :
  int (format_0d width n) = Some n
  /\ (width <= String.length (format_0d width n))%nat.
Proof.
  destruct (Z_lt_le_dec n 0) as [Hneg | Hpos].
  - rewrite (format_0d_neg _ _ Hneg).
    destruct (str_nonneg (- n) ltac:(lia)) as (u & Hu & Hs & Hv).
    assert (Hd : all_digits (zeros (width - 1 - String.length (str (- n))) +:+ str (- n)) = true)
      by (apply all_digits_app; [apply all_digits_zeros | rewrite Hs; apply all_digits_uint]).
    split.
    + unfold int. rewrite (strip_minus_digits _ Hd).
      rewrite Hs. rewrite parse_digits_zeros by (left; exact Hu).
      simpl. rewrite of_uint_zeros. f_equal. lia.
    + cbn [String.length]. rewrite length_app_str, length_zeros. lia.
  - destruct (format_0d_nonneg width n Hpos) as (_ & Hlen & Hint).
    split; [exact Hint | lia].
Qed.

Lemma format_0d_inj width n m : format_0d width n = format_0d width m -> n = m.
Proof.
  intros E. pose proof (proj1 (format_0d_reads_back width n)) as Hn.
  rewrite E in Hn. rewrite (proj1 (format_0d_reads_back width m)) in Hn. congruence.
Qed.

End Numerals.

(** ** Paths *)

(** A relative component appended to a path that does not end with a
    separator: the literal [path/component]. *)
Lemma join2_plain (path b : string) :
  path <> "" -> PyStr.endswith_sep path = false -> PyStr.startswith "/" b = false ->
  PyStr.join2 path b = path +:+ "/" +:+ b.
Proof.
  intros Hne Hend Hb. unfold PyStr.join2. rewrite Hb, Hend.
  destruct (String.eqb_spec path ""); [contradiction | reflexivity].
Qed.

Lemma append_assoc_str (a b c : string) : (a +:+ b) +:+ c = a +:+ b +:+ c.
Proof. induction a as [|x a IH]; [reflexivity|]. cbn. now rewrite IH. Qed.

Lemma append_empty_r (a : string) : a +:+ "" = a.
Proof. induction a as [|x a IH]; [reflexivity|]. cbn. now rewrite IH. Qed.

Lemma endswith_sep_app (s t : string) :
  t <> "" -> PyStr.endswith_sep (s +:+ t) = PyStr.endswith_sep t.
Proof.
  intros Ht. induction s as [|c s IH]; [reflexivity|].
  cbn. rewrite IH. destruct (s +:+ t) eqn:E; [|reflexivity].
  destruct s; [cbn in E; contradiction | discriminate].
Qed.

Lemma endswith_sep_digits (s : string) :
  PyStr.all_digits s = true -> PyStr.endswith_sep s = false.
Proof.
  induction s as [|c s IH]; [reflexivity|]. cbn.
  intros H. apply andb_true_iff in H as [Hc Hs].
  destruct s; [|exact (IH Hs)].
  apply digit_facts in Hc as (_ & _ & _ & _ & Hc).
  apply Ascii.eqb_neq, Hc.
Qed.

(** A zero-padded number never ends with the path separator. *)
Lemma endswith_sep_format (width : nat) (n : Z) (s : string) :
  PyStr.endswith_sep (s +:+ PyStr.format_0d width n) = false
  /\ s +:+ PyStr.format_0d width n <> "".
Proof.
  assert (Hd : exists a d, PyStr.format_0d width n = a +:+ d /\ d <> ""
                           /\ PyStr.all_digits d = true).
  { assert (Hstr : forall m, 0 <= m -> PyStr.str m <> "").
    { intros m Hm E. pose proof (int_str m) as Hi. rewrite E in Hi. discriminate Hi. }
    destruct (Z_lt_le_dec n 0) as [Hneg | Hpos].
    - exists (String "-" (PyStr.zeros (width - 1 - String.length (PyStr.str (- n))))),
             (PyStr.str (- n)).
      split; [apply (format_0d_neg _ _ Hneg)|].
      split; [apply Hstr; lia | apply str_nonneg_digits; lia].
    - exists (PyStr.zeros (width - 0 - String.length (PyStr.str n))), (PyStr.str n).
      split; [|split; [apply Hstr, Hpos | apply str_nonneg_digits, Hpos]].
      unfold PyStr.format_0d.
      assert (Hlt : (n <? 0) = false) by (apply Z.ltb_ge; lia).
      rewrite Hlt. rewrite Z.abs_eq by lia. reflexivity. }
  destruct Hd as (a & d & -> & Hne & Hdig).
  rewrite <- append_assoc_str. split.
  - rewrite endswith_sep_app by exact Hne. apply endswith_sep_digits, Hdig.
  - intros E. destruct (s +:+ a); [cbn in E; contradiction | discriminate].
Qed.

Lemma startswith_sep_app (a b : string) :
  a <> "" -> PyStr.startswith "/" (a +:+ b) = PyStr.startswith "/" a.
Proof.
  destruct a as [|c a]; [contradiction|]. intros _.
  change (String c a +:+ b) with (String c (a +:+ b)).
  unfold PyStr.startswith, String.prefix; fold String.prefix.
  destruct (ascii_dec "/" c); [|reflexivity].
  destruct a as [|x a']; destruct (_ +:+ b); reflexivity.
Qed.

Lemma join2_app (x a b : string) :
  a <> "" -> PyStr.join2 x (a +:+ b) = PyStr.join2 x a +:+ b.
Proof.
  intros Ha. unfold PyStr.join2. rewrite (startswith_sep_app a b Ha).
  destruct (PyStr.startswith "/" a); [reflexivity|].
  destruct (_ || _); now rewrite ?append_assoc_str.
Qed.

Lemma base_directory_shape (checkpoints_path : string) (N : Z) (release : bool) :
  let base := PyStr.join2 checkpoints_path
                (if release then "release" else "iter_" +:+ PyStr.format_0d 7 N) in
  base <> "" /\ PyStr.endswith_sep base = false.
Proof.
  destruct release; cbv zeta.
  - unfold PyStr.join2. change (PyStr.startswith "/" "release") with false. cbv iota.
    destruct (_ || _).
    + split; [destruct checkpoints_path; discriminate|].
      now rewrite endswith_sep_app by discriminate.
    + split; [destruct checkpoints_path; discriminate|].
      rewrite <- append_assoc_str. now rewrite endswith_sep_app by discriminate.
  - rewrite join2_app by discriminate.
    destruct (endswith_sep_format 7 N (PyStr.join2 checkpoints_path "iter_")). auto.
Qed.

(** ** Checkpoint names *)

Ltac norm_str :=
  repeat (rewrite ?append_assoc_str, ?append_empty_r;
          cbn -[PyStr.format_0d PyStr.join2]);
  try reflexivity.

Example get_checkpoint_name_examples :
  let mpu := {| tensor_model_parallel_rank := 1; pipeline_model_parallel_rank := 2;
                pipeline_model_parallel_world_size := 4;
                expert_model_parallel_rank := 3; expert_model_parallel_world_size := 8 |} in
  get_checkpoint_name mpu "/ckpt" 5 false None None None None None true default_basename
    = "/ckpt/iter_0000005"
  /\ get_checkpoint_name mpu "/ckpt" 5 true None None None None None true default_basename
    = "/ckpt/release"
  /\ get_checkpoint_name mpu "/ckpt" 12345678 false None None None None None false default_basename
    = "/ckpt/iter_12345678/mp_rank_01_002_003/model_optim_rng.pt"
  /\ get_checkpoint_name mpu "/ckpt" 5 false (Some false) (Some 0) (Some 0) (Some false) (Some 0)
       false default_basename
    = "/ckpt/iter_0000005/mp_rank_00/model_optim_rng.pt"
  /\ get_checkpoint_name mpu "ckpt/" 5 false (Some true) (Some 0) (Some 0) (Some false) (Some 0)
       false default_basename
    = "ckpt/iter_0000005/mp_rank_00_000/model_optim_rng.pt".
Proof. repeat split; reflexivity. Qed.

(** C9.  With [return_base_dir=True], [get_checkpoint_name] is the
    checkpoints path joined with [iter_{N:07d}], or with [release] for a
    release checkpoint: the path, a separator unless the path is empty or
    ends with one, and that directory name.  Otherwise the result is that
    base directory, a separator, the directory [mp_rank_{tp:02d}] (followed
    by [_{pp:03d}] under pipeline parallelism, then by [_{exp:03d}] under
    expert parallelism), and the base name joined to it,
    [/model_optim_rng.pt] by default.  The zero-padded fields have at least
    their width in characters and read back as the number they were made
    from. *)
Theorem get_checkpoint_name_layout
    (mpu : Mpu) (checkpoints_path : string) (N : Z) (release : bool)
    (pipeline_parallel : option bool) (tensor_rank pipeline_rank : option Z)
    (expert_parallel : option bool) (expert_rank : option Z) (basename : string) :
  let name := get_checkpoint_name mpu checkpoints_path N release pipeline_parallel
                tensor_rank pipeline_rank expert_parallel expert_rank in
  let pp := default (1 <? pipeline_model_parallel_world_size mpu) pipeline_parallel in
  let ep := default (1 <? expert_model_parallel_world_size mpu) expert_parallel in
  let tp_rank := default (tensor_model_parallel_rank mpu) tensor_rank in
  let pp_rank := default (pipeline_model_parallel_rank mpu) pipeline_rank in
  let ep_rank := default (expert_model_parallel_rank mpu) expert_rank in
  let directory := if release then "release" else "iter_" +:+ PyStr.format_0d 7 N in
  let rank_dir :=
    "mp_rank_" +:+ PyStr.format_0d 2 tp_rank
    +:+ (if pp then "_" +:+ PyStr.format_0d 3 pp_rank else "")
    +:+ (if ep then "_" +:+ PyStr.format_0d 3 ep_rank else "") in
  name true basename = PyStr.join2 checkpoints_path directory
  /\ name true basename
     = checkpoints_path
       +:+ (if String.eqb checkpoints_path "" || PyStr.endswith_sep checkpoints_path
            then "" else "/")
       +:+ directory
  /\ name false basename = PyStr.join2 (name true basename +:+ "/" +:+ rank_dir) basename
  /\ name false default_basename
     = name true basename +:+ "/" +:+ rank_dir +:+ "/model_optim_rng.pt"
  /\ PyStr.int (PyStr.format_0d 7 N) = Some N
  /\ (7 <= String.length (PyStr.format_0d 7 N))%nat
  /\ PyStr.int (PyStr.format_0d 2 tp_rank) = Some tp_rank
  /\ PyStr.int (PyStr.format_0d 3 pp_rank) = Some pp_rank
  /\ PyStr.int (PyStr.format_0d 3 ep_rank) = Some ep_rank.
Proof.
  intros name pp ep tp_rank pp_rank ep_rank directory rank_dir.
  split; [reflexivity|].
  split.
  { change (name true basename) with (PyStr.join2 checkpoints_path directory).
    unfold PyStr.join2.
    assert (Hdir : PyStr.startswith "/" directory = false)
      by (unfold directory; destruct release; reflexivity).
    rewrite Hdir. destruct (_ || _); reflexivity. }
  split; [|split; [|repeat split; apply format_0d_reads_back]].
  all: set (base := name true basename).
  all: assert (Hbase : base <> "" /\ PyStr.endswith_sep base = false)
         by apply (base_directory_shape checkpoints_path N release).
  all: set (mid := "mp_rank_" +:+ PyStr.format_0d 2 tp_rank
                   +:+ (if pp then "_" +:+ PyStr.format_0d 3 pp_rank else "")).
  all: assert (Hmid : PyStr.startswith "/" mid = false) by reflexivity.
  all: set (suffix := if ep then "_" +:+ PyStr.format_0d 3 ep_rank else "").
  all: assert (Hrank : rank_dir = mid +:+ suffix)
         by (unfold rank_dir, mid, suffix; cbn; now rewrite !append_assoc_str).
  all: assert (Hcommon : forall b,
                 name false b = PyStr.join2 (PyStr.join2 base mid +:+ suffix) b)
         by (intros b; unfold name, get_checkpoint_name, base, mid, suffix;
             fold pp ep tp_rank pp_rank ep_rank; cbn -[PyStr.format_0d PyStr.join2];
             destruct pp, ep; cbn -[PyStr.format_0d PyStr.join2];
             rewrite ?append_empty_r; reflexivity).
  all: assert (Hnest : PyStr.join2 base mid +:+ suffix = base +:+ "/" +:+ rank_dir)
         by (rewrite join2_plain by (exact Hmid || apply Hbase);
             rewrite Hrank; now rewrite !append_assoc_str).
  - rewrite Hcommon. now rewrite Hnest.
  - rewrite Hcommon, Hnest.
    assert (Hend : PyStr.endswith_sep ((base +:+ "/") +:+ rank_dir) = false
                   /\ (base +:+ "/") +:+ rank_dir <> "").
    { unfold rank_dir. destruct pp, ep.
      - replace (_ +:+ _) with
          (((base +:+ "/") +:+ "mp_rank_" +:+ PyStr.format_0d 2 tp_rank +:+ "_"
            +:+ PyStr.format_0d 3 pp_rank +:+ "_") +:+ PyStr.format_0d 3 ep_rank)
          by norm_str.
        apply endswith_sep_format.
      - replace (_ +:+ _) with
          (((base +:+ "/") +:+ "mp_rank_" +:+ PyStr.format_0d 2 tp_rank +:+ "_")
           +:+ PyStr.format_0d 3 pp_rank) by norm_str.
        apply endswith_sep_format.
      - replace (_ +:+ _) with
          (((base +:+ "/") +:+ "mp_rank_" +:+ PyStr.format_0d 2 tp_rank +:+ "_")
           +:+ PyStr.format_0d 3 ep_rank) by norm_str.
        apply endswith_sep_format.
      - replace (_ +:+ _) with
          (((base +:+ "/") +:+ "mp_rank_") +:+ PyStr.format_0d 2 tp_rank) by norm_str.
        apply endswith_sep_format. }
    rewrite append_assoc_str in Hend.
    rewrite join2_plain; [now rewrite !append_assoc_str | apply Hend | apply Hend
                          | reflexivity].
Qed.

(** ** The module-level checkpoint version *)

Section VersionFacts.

Context {V : Type} `{EqDecision V}.

Lemma set_all_after_first (v : V) (later : list V) :
  snd (Version.set_all later (Some v)) = Some v
  /\ returned (fst (Version.set_all later (Some v))) = bool_decide (Forall (eq v) later).
Proof.
  induction later as [|x later [IHst IHret]].
  - split; [reflexivity|]. symmetry. apply bool_decide_eq_true. constructor.
  - cbn. unfold Eff.bind, Version.set_checkpoint_version.
    destruct (decide (v = x)) as [<- | Hne].
    + split; [exact IHst|]. rewrite IHret.
      apply bool_decide_ext. split; [now constructor | now inversion 1].
    + split; [reflexivity|]. cbn. symmetry. apply bool_decide_eq_false.
      inversion 1; contradiction.
Qed.

End VersionFacts.

(** C10.  The checkpoint version is assigned once: before the first
    [set_checkpoint_version] the getter returns [None]; the first call stores
    its argument; a later call with the same value changes nothing; a later
    call with another value fails its assertion and leaves the stored value;
    so after any sequence of later calls the getter still returns the first
    value, and the sequence runs to its end exactly when every value in it
    is the first one. *)
Theorem checkpoint_version_single_assignment
    (V : Type) `{EqDecision V} (v : V) (later : list V) :
  Version.get_checkpoint_version (None : option V) = (Returns None, None)
  /\ Version.set_checkpoint_version v None = (Returns tt, Some v)
  /\ Version.set_checkpoint_version v (Some v) = (Returns tt, Some v)
  /\ (forall v', v' <> v ->
        Version.set_checkpoint_version v' (Some v)
        = (Raises (AssertionError "checkpoint versions do not match"), Some v))
  /\ (let after := snd (Version.set_all later (Some v)) in
      Version.get_checkpoint_version after = (Returns (Some v), Some v))
  /\ returned (fst (Version.set_all later (Some v))) = bool_decide (Forall (eq v) later).
Proof.
  split; [reflexivity|]. split; [reflexivity|].
  split; [unfold Version.set_checkpoint_version; now rewrite decide_True|].
  split.
  { intros v' Hne. unfold Version.set_checkpoint_version.
    rewrite decide_False by congruence. reflexivity. }
  destruct (set_all_after_first v later) as [Hst Hret].
  split; [|exact Hret].
  cbn. rewrite Hst. reflexivity.
Qed.

Lemma checkpoint_version_single_assignment_witness :
  Version.set_checkpoint_version 2 (Some 3)
  = (Raises (AssertionError "checkpoint versions do not match"), Some 3)
  /\ returned (fst (Version.set_all [3; 3; 2; 3] (Some 3))) = false.
Proof.
  destruct (checkpoint_version_single_assignment Z 3 [3; 3; 2; 3])
    as (_ & _ & _ & Hdiff & _ & Hret).
  split; [apply Hdiff; discriminate | rewrite Hret; reflexivity].
Defined.

(** ** The tracker file *)

Lemma all_reduce_max_spec (own : Z) (peers : list Z) :
  own <= all_reduce_max own peers
  /\ Forall (fun p => p <= all_reduce_max own peers) peers
  /\ (all_reduce_max own peers = own \/ In (all_reduce_max own peers) peers).
Proof.
  unfold all_reduce_max. revert own.
  induction peers as [|p peers IH]; intros own; cbn.
  - split; [lia|]. split; [constructor | now left].
  - destruct (IH (Z.max own p)) as (Hge & Hall & Hin).
    split; [lia|]. split; [constructor; [lia | exact Hall]|].
    destruct Hin as [Heq | Hin]; [|right; now right].
    destruct (Z.max_spec own p) as [[_ Hm] | [_ Hm]].
    + right. left. congruence.
    + left. congruence.
Qed.

Lemma all_reduce_max_agree (own : Z) (peers : list Z) :
  Forall (fun p => p <= own) peers -> all_reduce_max own peers = own.
Proof.
  intros Hall. destruct (all_reduce_max_spec own peers) as (Hge & _ & [Heq | Hin]);
    [exact Heq|].
  rewrite Forall_forall in Hall. apply list_elem_of_In in Hin.
  specialize (Hall _ Hin). lia.
Qed.

Lemma read_metadata_cases (dist : option Dist) (tracker text : string) (w : World) :
  files w !! tracker = Some text ->
  match PyStr.int (PyStr.strip text) with
  | Some n =>
      if 0 <? n
      then fst (read_metadata dist tracker w) = Returns (agreed_iteration dist tracker n, false)
      else read_metadata dist tracker w
           = (Raises (AssertionError ("error parsing metadata file " +:+ tracker)), w)
  | None =>
      if String.eqb (PyStr.strip text) "release"
      then fst (read_metadata dist tracker w) = Returns (agreed_iteration dist tracker 0, true)
      else fst (read_metadata dist tracker w) = SysExit
           /\ snd (read_metadata dist tracker w)
              = snd (print_rank_0 dist
                       ("ERROR: Invalid metadata file " +:+ tracker +:+ ". Exiting") w)
  end.
Proof.
  intros Hfile. unfold read_metadata, Eff.bind, read_file. rewrite Hfile.
  destruct (PyStr.int (PyStr.strip text)) as [n|] eqn:Hint.
  - unfold Eff.ret, Eff.assert. rewrite orb_false_r.
    destruct (0 <? n) eqn:Hpos; [|reflexivity].
    unfold Eff.ret. destruct dist as [d|]; [|reflexivity].
    unfold agreed_iteration, Eff.when.
    destruct (negb _); reflexivity.
  - destruct (String.eqb (PyStr.strip text) "release") eqn:Hrel.
    + unfold Eff.ret, Eff.assert. cbn. unfold Eff.ret.
      destruct dist as [d|]; [|reflexivity].
      unfold agreed_iteration, Eff.when. destruct (negb _); reflexivity.
    + unfold print_rank_0, Eff.sys_exit.
      destruct dist as [d|]; [destruct (rank d =? 0)|]; split; reflexivity.
Qed.

Lemma tracker_content_str (n : Z) : 0 < n -> tracker_content (PyStr.str n) = Iteration n.
Proof.
  intros Hn. unfold tracker_content.
  rewrite strip_digits by (apply str_nonneg_digits; lia).
  rewrite int_str. apply Z.ltb_lt in Hn. now rewrite Hn.
Qed.

(** C4 (amended).  The tracker file of a checkpoints directory is the
    directory joined with [latest_checkpointed_iteration.txt].  When its
    text is a positive integer, [read_metadata] returns, with
    [release=False], the maximum of that number and of the numbers the other
    ranks read, which is the number itself without a process group or when
    no rank read a larger one; when it is the word [release] the result has
    [release=True].  For any other text the call does not return: when the
    text is no integer it prints the error line (on rank 0) and ends in
    [sys.exit()]; when it is an integer that is not positive it ends in the
    failed assertion, with nothing printed.  The decimal form of a positive
    number reads as that number. *)
Theorem read_metadata_tracker
    (dist : option Dist) (checkpoints_path text : string) (w : World) :
  let tracker := get_checkpoint_tracker_filename checkpoints_path in
  files w !! tracker = Some text ->
  tracker = PyStr.join2 checkpoints_path "latest_checkpointed_iteration.txt"
  /\ match tracker_content text with
     | Iteration n =>
         let max_iter := agreed_iteration dist tracker n in
         fst (read_metadata dist tracker w) = Returns (max_iter, false)
         /\ n <= max_iter
         /\ (max_iter = n
             \/ exists d, dist = Some d /\ In max_iter (peer_iterations d tracker))
         /\ (dist = None -> max_iter = n)
         /\ (forall d, dist = Some d ->
               Forall (fun p => p <= n) (peer_iterations d tracker) -> max_iter = n)
     | Release =>
         fst (read_metadata dist tracker w) = Returns (agreed_iteration dist tracker 0, true)
     | NotPositive n =>
         n <= 0
         /\ PyStr.int (PyStr.strip text) = Some n
         /\ read_metadata dist tracker w
            = (Raises (AssertionError ("error parsing metadata file " +:+ tracker)), w)
     | NotAnInteger =>
         PyStr.int (PyStr.strip text) = None
         /\ PyStr.strip text <> "release"
         /\ read_metadata dist tracker w
            = (SysExit,
               {| stdout := stdout w
                            ++ rank_0_lines dist
                                 ("ERROR: Invalid metadata file " +:+ tracker +:+ ". Exiting");
                  files := files w; async_queue := async_queue w |})
     end
  /\ (forall n, 0 < n -> tracker_content (PyStr.str n) = Iteration n)
  /\ tracker_content "release" = Release.
Proof.
  intros tracker Hfile. split; [reflexivity|].
  split; [|split; [apply tracker_content_str | reflexivity]].
  pose proof (read_metadata_cases dist tracker text w Hfile) as Hcases.
  unfold tracker_content.
  destruct (PyStr.int (PyStr.strip text)) as [n|].
  - destruct (0 <? n) eqn:Hpos.
    + split; [exact Hcases|]. unfold agreed_iteration.
      destruct dist as [d|].
      * destruct (all_reduce_max_spec n (peer_iterations d tracker)) as (Hge & _ & Hin).
        split; [exact Hge|]. split.
        { destruct Hin as [Heq | Hin]; [now left | right; now exists d]. }
        split; [discriminate|].
        intros d' [= <-] Hall. now apply all_reduce_max_agree.
      * split; [lia|]. split; [now left|]. split; [reflexivity | discriminate].
    + apply Z.ltb_ge in Hpos. now repeat split.
  - destruct (String.eqb (PyStr.strip text) "release") eqn:Hrel; [exact Hcases|].
    split; [reflexivity|]. split; [now apply String.eqb_neq|].
    destruct Hcases as [Hexit Hworld].
    destruct (read_metadata dist tracker w) as [o w']. cbn in Hexit, Hworld. subst o w'.
    f_equal. unfold print_rank_0, rank_0_lines, print.
    destruct dist as [d|]; [destruct (rank d =? 0)|]; cbn; try reflexivity.
    rewrite app_nil_r. now destruct w.
Qed.

Lemma read_metadata_tracker_witness :
  fst (read_metadata None "/ckpt/latest_checkpointed_iteration.txt"
         (tracker_world "/ckpt/latest_checkpointed_iteration.txt" "1500
"))
  = Returns (1500, false).
Proof.
  pose proof (read_metadata_tracker None "/ckpt" "1500
" (tracker_world "/ckpt/latest_checkpointed_iteration.txt" "1500
") eq_refl) as (_ & H & _).
  exact (proj1 H).
Defined.

(** C4, as first stated, fails when another rank read a larger iteration:
    the tracker holds 5, rank 1 sees a peer contribute 9, and the call
    returns 9. *)
Lemma read_metadata_takes_the_maximum :
  let d := {| rank := 1; last_rank := false; peer_iterations := fun _ => [5; 9] |} in
  let w := tracker_world "/ckpt/latest_checkpointed_iteration.txt" "5" in
  PyStr.int "5" = Some 5
  /\ fst (read_metadata (Some d) (get_checkpoint_tracker_filename "/ckpt") w)
     = Returns (9, false).
Proof. split; reflexivity. Qed.

(** ** Choosing between the non-persistent and the persistent checkpoint *)

Lemma print_rank_0_on_rank_0 (dist : option Dist) (msg : string) (w : World) :
  (match dist with Some d => rank d = 0 | None => True end) ->
  print_rank_0 dist msg w
  = (Returns tt, {| stdout := stdout w ++ [msg]; files := files w;
                    async_queue := async_queue w |}).
Proof.
  unfold print_rank_0. destruct dist as [d|]; [|reflexivity].
  intros ->. reflexivity.
Qed.

Lemma print_rank_0_returns (dist : option Dist) (msg : string) (w : World) :
  fst (print_rank_0 dist msg w) = Returns tt
  /\ files (snd (print_rank_0 dist msg w)) = files w
  /\ async_queue (snd (print_rank_0 dist msg w)) = async_queue w.
Proof.
  unfold print_rank_0. destruct dist as [d|]; [destruct (rank d =? 0)|];
    repeat split; reflexivity.
Qed.

(** C3 (amended).  When a non-persistent checkpoint exists (its iteration
    is not -1), [_load_base_checkpoint] ends with the non-persistent reader
    exactly when that iteration is at least the persistent iteration to
    load, which is [args.ckpt_step] when that is set and the iteration of
    the persistent tracker otherwise; when it is smaller, the warning is
    printed and the persistent checkpoint of that iteration is read. *)
Theorem non_persistent_or_persistent
    (dist : option Dist) (load_dir : option string) (args : Args) (rank0 : bool)
    (checkpointing_context : option CheckpointingContext) (w w1 w2 : World)
    (non_persistent_iteration tracker_iteration : Z) (tracker : string) (release : bool) :
  _get_non_persistent_iteration dist (non_persistent_dir_of load_dir args) args
    checkpointing_context w = (Returns non_persistent_iteration, w1) ->
  read_persistent_tracker dist load_dir w1
    = (Returns (tracker, (tracker_iteration, release)), w2) ->
  non_persistent_iteration <> -1 ->
  let iteration := iteration_to_load args tracker_iteration in
  let run := _load_base_checkpoint dist load_dir args rank0 checkpointing_context w in
  (fst run = Returns (NonPersistent (non_persistent_dir_of load_dir args)
                        non_persistent_iteration)
   <-> iteration <= non_persistent_iteration)
  /\ (iteration <= non_persistent_iteration -> snd run = w2)
  /\ (non_persistent_iteration < iteration -> iteration <> -1 ->
        run = (Returns (Persistent load_dir iteration release),
               snd (print_rank_0 dist OLDER_WARNING w2)))
  /\ (truthy_int (ckpt_step args) = false -> iteration = tracker_iteration)
  /\ (forall step, ckpt_step args = Some step -> step <> 0 -> iteration = step).
Proof.
  intros Hnp Htracker Hne iteration run.
  assert (Hrun : run =
    if iteration <=? non_persistent_iteration
    then (Returns (NonPersistent (non_persistent_dir_of load_dir args)
                     non_persistent_iteration), w2)
    else (let* _ := print_rank_0 dist OLDER_WARNING in
          if iteration =? -1 then
            when (negb rank0)
              (print_rank_0 dist ("WARNING: could not find the metadata file " +:+ tracker) ;;
               print_rank_0 dist "    will not load any checkpoints and will start from random") ;;
            if exit_on_missing_checkpoint args then
              print_rank_0 dist ">> '--exit-on-missing-checkpoint' set ... exiting. <<" ;;
              sys_exit
            else ret NotLoaded
          else ret (Persistent load_dir iteration release)) w2).
  { unfold run, _load_base_checkpoint, Eff.bind at 1 2. rewrite Hnp. cbn beta iota.
    unfold Eff.bind at 1. rewrite Htracker. cbn beta iota. fold iteration.
    assert (Hneb : (non_persistent_iteration =? -1) = false) by (apply Z.eqb_neq, Hne).
    rewrite Hneb. cbn [negb]. destruct (iteration <=? non_persistent_iteration); reflexivity. }
  split; [|split; [|split; [|split]]].
  - rewrite Hrun. destruct (iteration <=? non_persistent_iteration) eqn:Hle.
    + apply Z.leb_le in Hle. split; [auto | reflexivity].
    + apply Z.leb_gt in Hle. split; [|lia].
      unfold Eff.bind. destruct (print_rank_0_returns dist OLDER_WARNING w2) as (Hp & _).
      destruct (print_rank_0 dist OLDER_WARNING w2) as [o w3]. cbn in Hp. subst o.
      destruct (iteration =? -1); [|discriminate].
      unfold Eff.when.
      destruct (negb rank0), (exit_on_missing_checkpoint args);
        unfold Eff.bind, Eff.ret, Eff.sys_exit;
        repeat match goal with
               | |- context [print_rank_0 ?d ?m ?x] =>
                   let H := fresh in
                   destruct (print_rank_0_returns d m x) as (H & _);
                   destruct (print_rank_0 d m x); cbn in H; subst
               end; cbn; discriminate.
  - intros Hle. apply Z.leb_le in Hle. rewrite Hrun, Hle. reflexivity.
  - intros Hlt Hnot. rewrite Hrun.
    assert (Hle : (iteration <=? non_persistent_iteration) = false) by (apply Z.leb_gt; lia).
    rewrite Hle. unfold Eff.bind.
    destruct (print_rank_0_returns dist OLDER_WARNING w2) as (Hp & _).
    destruct (print_rank_0 dist OLDER_WARNING w2) as [o w3]. cbn in Hp. subst o.
    assert (Hneq : (iteration =? -1) = false) by (apply Z.eqb_neq, Hnot).
    rewrite Hneq. reflexivity.
  - intros Hstep. unfold iteration, iteration_to_load. now rewrite Hstep.
  - intros step Hstep Hnz. unfold iteration, iteration_to_load. rewrite Hstep. cbn.
    assert (Hneq : (step =? 0) = false) by (apply Z.eqb_neq, Hnz).
    now rewrite Hneq.
Qed.

Lemma non_persistent_or_persistent_witness :
  _load_base_checkpoint None (Some "/ckpt")
    (run_args (Some "global") None false false false 1 1 1) false None
    (two_trackers "100" "150")
  = (Returns (NonPersistent (Some "/ckpt/non_persistent") 150), two_trackers "100" "150").
Proof.
  pose proof (non_persistent_or_persistent None (Some "/ckpt")
                (run_args (Some "global") None false false false 1 1 1) false None
                (two_trackers "100" "150") (two_trackers "100" "150")
                (two_trackers "100" "150") 150 100
                "/ckpt/latest_checkpointed_iteration.txt" false
                eq_refl eq_refl ltac:(discriminate)) as (Hiff & Hworld & _).
  apply injective_projections; cbn [fst snd].
  - apply Hiff. cbn. lia.
  - apply Hworld. cbn. lia.
Defined.

(** C3, as first stated, fails under [--ckpt-step]: the persistent tracker
    is at iteration 100 and the non-persistent one at 50, which is older,
    yet with [ckpt_step=10] the non-persistent checkpoint is the one
    loaded. *)
Lemma ckpt_step_lets_older_non_persistent_win :
  let args := run_args (Some "global") (Some 10) false false false 1 1 1 in
  let w := two_trackers "100" "50" in
  fst (read_metadata None "/ckpt/latest_checkpointed_iteration.txt" w) = Returns (100, false)
  /\ fst (read_metadata None "/ckpt/non_persistent/latest_checkpointed_iteration.txt" w)
     = Returns (50, false)
  /\ fst (_load_base_checkpoint None (Some "/ckpt") args false None w)
     = Returns (NonPersistent (Some "/ckpt/non_persistent") 50).
Proof. repeat split; reflexivity. Qed.

(** ** Printed lines *)

Lemma printed_nil (w : World) : printed [] w = w.
Proof. destruct w. unfold printed. cbn. now rewrite app_nil_r. Qed.

Lemma printed_printed (a b : list string) (w : World) :
  printed b (printed a w) = printed (a ++ b) w.
Proof. unfold printed. cbn. now rewrite app_assoc. Qed.

Lemma print_rank_0_printed (dist : option Dist) (msg : string) (w : World) :
  print_rank_0 dist msg w = (Returns tt, printed (rank_0_lines dist msg) w).
Proof.
  unfold print_rank_0, rank_0_lines.
  destruct dist as [d|]; [destruct (rank d =? 0)|]; try reflexivity.
  unfold Eff.ret. now rewrite printed_nil.
Qed.

(** ** Nothing to load *)

Section NothingToLoad.

Variable dist : option Dist.
Variable load_dir : option string.
Variable args : Args.
Variable checkpointing_context : option CheckpointingContext.

(** A search for a non-persistent checkpoint that ends with [-1] has found
    no tracker file (type [global]) or no local checkpoint (type [local]),
    or the run has no non-persistent type; it ends so in every world with
    the same files, having printed its lines. *)
Lemma get_non_persistent_iteration_none (dir : option string) (w : World) :
  fst (_get_non_persistent_iteration dist dir args checkpointing_context w) = Returns (-1) ->
  forall w', files w' = files w ->
    _get_non_persistent_iteration dist dir args checkpointing_context w'
    = (Returns (-1), printed (non_persistent_lines dist dir args) w').
Proof.
  unfold _get_non_persistent_iteration, non_persistent_lines.
  destruct (non_persistent_ckpt_type args) as [ty|];
    [|intros _ w' _; unfold Eff.ret; now rewrite printed_nil].
  destruct (String.eqb ty "global").
  - intros H w' Hfiles. destruct dir as [d|]; [|discriminate H].
    cbn [tracker_of] in H |- *. unfold Eff.bind, Eff.ret, isfile in H |- *.
    rewrite Hfiles.
    destruct (files w !! get_checkpoint_tracker_filename d) as [text|] eqn:Hfile.
    + exfalso. rewrite bool_decide_eq_true_2 in H by eauto.
      pose proof (read_metadata_cases dist _ _ w Hfile) as Hcases.
      destruct (read_metadata dist (get_checkpoint_tracker_filename d) w)
        as [[[iteration release]| |e] w1]; cbn [fst] in Hcases; [|discriminate..].
      destruct release; [discriminate|].
      injection H as ->.
      destruct (PyStr.int (PyStr.strip text)) as [n|].
      * destruct (0 <? n) eqn:Hpos; [|discriminate].
        injection Hcases as Hn. apply Z.ltb_lt in Hpos.
        unfold agreed_iteration in Hn. destruct dist as [dd|]; [|lia].
        pose proof (all_reduce_max_spec n (peer_iterations dd
                      (get_checkpoint_tracker_filename d))) as [Hge _]. lia.
      * destruct (String.eqb (PyStr.strip text) "release"); [discriminate|].
        destruct Hcases as [Hc _]. discriminate.
    + rewrite bool_decide_eq_false_2 by (intros [x Hx]; discriminate).
      rewrite !print_rank_0_printed. now rewrite printed_printed.
  - destruct (String.eqb ty "local"); [|discriminate].
    unfold Eff.bind, the_local_manager.
    destruct checkpointing_context as [c|]; [|discriminate].
    destruct (local_checkpoint_manager c) as [m|]; [|discriminate].
    cbn. intros [= Hlatest] w' _. rewrite Hlatest.
    destruct dir; now rewrite printed_nil.
Qed.

Hypothesis no_step : truthy_int (ckpt_step args) = false.

Lemma load_base_checkpoint_missing (rank0 : bool) (w : World) :
  fst (_get_non_persistent_iteration dist (non_persistent_dir_of load_dir args) args
         checkpointing_context w) = Returns (-1) ->
  (forall d, load_dir = Some d -> files w !! get_checkpoint_tracker_filename d = None) ->
  forall w', files w' = files w ->
    _load_base_checkpoint dist load_dir args rank0 checkpointing_context w'
    = let found :=
        (non_persistent_lines dist (non_persistent_dir_of load_dir args) args
         ++ (if rank0 then [] else start_from_random_lines dist load_dir))%list in
      if exit_on_missing_checkpoint args
      then (SysExit, printed (found ++ rank_0_lines dist EXIT_MESSAGE) w')
      else (Returns NotLoaded, printed found w').
Proof.
  intros Hnp Hfile w' Hfiles. unfold _load_base_checkpoint.
  unfold Eff.bind at 1.
  rewrite (get_non_persistent_iteration_none _ w Hnp w' Hfiles).
  set (w1 := printed _ w').
  assert (Htracker : read_persistent_tracker dist load_dir w1
                     = (Returns (tracker_name load_dir, (-1, false)), w1)).
  { unfold read_persistent_tracker, tracker_name. destruct load_dir as [d|]; [|reflexivity].
    unfold Eff.bind, isfile. cbn [files w1 printed]. rewrite Hfiles, (Hfile d eq_refl).
    rewrite bool_decide_eq_false_2 by (intros [x Hx]; discriminate). reflexivity. }
  unfold Eff.bind at 1. rewrite Htracker. cbv beta iota zeta.
  unfold iteration_to_load. rewrite no_step.
  change (-1 =? -1) with true. cbn [negb]. cbv iota.
  unfold start_from_random_lines, Eff.when.
  destruct rank0; cbn [negb]; unfold Eff.bind, Eff.ret, Eff.sys_exit;
    rewrite ?print_rank_0_printed; cbv beta iota;
    destruct (exit_on_missing_checkpoint args);
    rewrite ?print_rank_0_printed; cbv beta iota; subst w1;
    rewrite ?printed_printed, ?app_nil_r, <- ?app_assoc; reflexivity.
Qed.

End NothingToLoad.




(** ** Strict handling of key mismatches *)

Section Substrings.

Import PyStr.

Lemma prefix_app (n b : string) : String.prefix n (n +:+ b) = true.
Proof.
  induction n as [|c n IH]; [now destruct b|].
  cbn. destruct (Ascii.ascii_dec c c); [exact IH | contradiction].
Qed.

Lemma prefix_app_l (n d b : string) :
  String.prefix n d = true -> String.prefix n (d +:+ b) = true.
Proof.
  revert n. induction d as [|c d IH]; intros [|x n] H; cbn in *;
    try reflexivity; try discriminate.
  - now destruct b.
  - destruct (Ascii.ascii_dec x c); [now apply IH | discriminate].
Qed.

Lemma contains_unfold (n hay : string) :
  contains n hay
  = String.prefix n hay || match hay with
                           | EmptyString => false
                           | String _ r => contains n r
                           end.
Proof. destruct hay; reflexivity. Qed.

Lemma contains_app_r (n a b : string) :
  contains n b = true -> contains n (a +:+ b) = true.
Proof.
  intros H. induction a as [|c a IH]; [exact H|].
  cbn [String.append]. rewrite contains_unfold, IH. apply orb_true_r.
Qed.

Lemma contains_app_l (n d b : string) :
  contains n d = true -> contains n (d +:+ b) = true.
Proof.
  induction d as [|c d IH]; intros H.
  - rewrite contains_unfold, orb_false_r in H. destruct n; [|discriminate].
    rewrite contains_unfold. now destruct b.
  - rewrite contains_unfold in H. cbn [String.append]. rewrite contains_unfold.
    apply orb_true_iff in H as [H | H].
    + pose proof (prefix_app_l _ _ b H) as E. cbn [String.append] in E.
      now rewrite E.
    + rewrite (IH H). apply orb_true_r.
Qed.

Lemma contains_middle (n a b : string) : contains n (a +:+ n +:+ b) = true.
Proof.
  apply contains_app_r. rewrite contains_unfold, prefix_app. reflexivity.
Qed.

(** A pattern without a closing brace cannot run from a key into the
    brace that follows it. *)
Lemma prefix_stops_at_brace (p d b : string) :
  contains "}" p = false ->
  String.prefix p (d +:+ String "}" b) = true -> String.prefix p d = true.
Proof.
  revert p. induction d as [|c d IH]; intros [|x p] Hp H; try reflexivity.
  - rewrite contains_unfold in Hp. cbn in Hp, H.
    destruct (Ascii.ascii_dec x "}") as [-> | Hne]; [|discriminate].
    destruct (Ascii.ascii_dec "}" "}"); [|contradiction].
    now destruct p.
  - rewrite contains_unfold in Hp. apply orb_false_iff in Hp as [_ Hp].
    cbn in H |- *. destruct (Ascii.ascii_dec x c); [|discriminate].
    now apply IH.
Qed.

Lemma contains_stops_at_brace (n d b : string) :
  contains "}" n = false -> contains n (String "}" b) = false ->
  contains n d = false -> contains n (d +:+ String "}" b) = false.
Proof.
  intros Hn Hb. induction d as [|c d IH]; intros Hd; [exact Hb|].
  rewrite contains_unfold in Hd. apply orb_false_iff in Hd as [Hpre Hd].
  cbn [String.append]. rewrite contains_unfold. apply orb_false_iff. split.
  - destruct (String.prefix n (String c (d +:+ String "}" b))) eqn:E; [|reflexivity].
    change (String c (d +:+ String "}" b)) with (String c d +:+ String "}" b) in E.
    apply (prefix_stops_at_brace _ _ _ Hn) in E. congruence.
  - exact (IH Hd).
Qed.

End Substrings.

Lemma load_return_all (requested checkpoint : gset string) (log : list string) :
  DistCkpt.load requested checkpoint DistCkpt.RETURN_ALL log
  = (Returns (DistCkpt.WithMismatch (requested ∩ checkpoint) (checkpoint ∖ requested)
                (requested ∖ checkpoint)), log).
Proof. reflexivity. Qed.

Lemma unexpected_message (D : string) :
  DistCkpt.mismatch_message ∅ {[ D ]}
  = "Unexpected keys (for this rank): {" +:+ D +:+ "}. ".
Proof.
  unfold DistCkpt.mismatch_message, DistCkpt.missing_section, DistCkpt.unexpected_section,
    DistCkpt.render_keys.
  rewrite decide_True by reflexivity.
  rewrite decide_False by (intros E; apply (f_equal (fun X => bool_decide (D ∈ X))) in E;
                           rewrite bool_decide_eq_true_2 in E by set_solver;
                           rewrite bool_decide_eq_false_2 in E by set_solver;
                           discriminate).
  rewrite elements_singleton. cbn. now rewrite !append_assoc_str.
Qed.

(** C1 (amended).  Under [RETURN_ALL], a request for [{A, B, C}] against a
    checkpoint that saved [{A, B}] returns [unexpected_keys == {C}] and
    [missing_keys == set()]; a request for [{A}] against the same checkpoint
    returns [missing_keys == {B}] and [unexpected_keys == set()].  Under
    [RAISE_UNEXPECTED], a request with a spurious key [D] raises an exception
    whose message contains [Unexpected keys] and names [D], and contains
    [Missing keys] only if the name of [D] does. *)
Theorem strict_mode_key_sets (A B C D : string) (log : list string) :
  A <> B -> A <> C -> B <> C -> D <> A -> D <> B ->
  DistCkpt.load {[ A; B; C ]} {[ A; B ]} DistCkpt.RETURN_ALL log
  = (Returns (DistCkpt.WithMismatch {[ A; B ]} ∅ {[ C ]}), log)
  /\ DistCkpt.load {[ A ]} {[ A; B ]} DistCkpt.RETURN_ALL log
     = (Returns (DistCkpt.WithMismatch {[ A ]} {[ B ]} ∅), log)
  /\ (let msg := "Unexpected keys (for this rank): {" +:+ D +:+ "}. " in
      DistCkpt.load {[ A; D ]} {[ A; B ]} DistCkpt.RAISE_UNEXPECTED log
      = (Raises (CheckpointingException msg), log)
      /\ PyStr.contains "Unexpected keys" msg = true
      /\ PyStr.contains D msg = true
      /\ PyStr.contains "Missing keys" msg = PyStr.contains "Missing keys" D).
Proof.
  intros HAB HAC HBC HDA HDB.
  split; [|split].
  - rewrite load_return_all. do 2 f_equal. f_equal; set_solver.
  - rewrite load_return_all. do 2 f_equal. f_equal; set_solver.
  - cbv zeta. split; [|split; [reflexivity|split]].
    + unfold DistCkpt.load. cbn [DistCkpt.reports_missing].
      assert (Hun : ({[ A; D ]} : gset string) ∖ {[ A; B ]} = {[ D ]}) by set_solver.
      rewrite Hun.
      rewrite (bool_decide_eq_false_2 (({[ D ]} : gset string) = ∅)) by set_solver.
      rewrite andb_false_r. now rewrite unexpected_message.
    + apply (contains_middle D "Unexpected keys (for this rank): {" "}. ").
    + destruct (PyStr.contains "Missing keys" D) eqn:HD.
      * apply (contains_app_r _ "Unexpected keys (for this rank): {").
        now apply contains_app_l.
      * cbn -[PyStr.contains String.append].
        repeat (rewrite contains_unfold; cbn [String.prefix orb]).
        now apply contains_stops_at_brace.
Qed.

Lemma strict_mode_key_sets_witness :
  DistCkpt.load {[ "TenA"; "TenB"; "TenC" ]} {[ "TenA"; "TenB" ]} DistCkpt.RETURN_ALL []
  = (Returns (DistCkpt.WithMismatch {[ "TenA"; "TenB" ]} ∅ {[ "TenC" ]}), [])
  /\ PyStr.contains "Missing keys" "Unexpected keys (for this rank): {UnexpectedTenD}. "
     = false.
Proof.
  destruct (strict_mode_key_sets "TenA" "TenB" "TenC" "UnexpectedTenD" []
              ltac:(discriminate) ltac:(discriminate) ltac:(discriminate)
              ltac:(discriminate) ltac:(discriminate)) as (H1 & _ & _ & _ & _ & H4).
  split; [exact H1 | exact H4].
Defined.

(** C1, as first stated, fails in its first half: the key [C] that is
    requested but was not saved comes back in [unexpected_keys], and
    [missing_keys] is empty. *)
Lemma requested_but_absent_is_unexpected :
  DistCkpt.load {[ "A"; "B"; "C" ]} {[ "A"; "B" ]} DistCkpt.RETURN_ALL []
  = (Returns (DistCkpt.WithMismatch {[ "A"; "B" ]} ∅ {[ "C" ]}), []).
Proof. reflexivity. Qed.

(** The assertions of [TestNonStrictLoad] on the key sets, replayed: the
    checkpoint holds the five base keys; the first test requests two more,
    the second leaves two out. *)
Example test_unexpected_keys_handling_during_validation :
  let saved : gset string := {[ "TenA"; "TenB"; "TenC"; "ObjA"; "ObjB" ]} in
  let requested : gset string := saved ∪ {[ "UnexpectedTenD"; "UnexpectedObjD" ]} in
  DistCkpt.load requested saved DistCkpt.RETURN_UNEXPECTED []
  = (Returns (DistCkpt.WithMismatch saved ∅ {[ "UnexpectedTenD"; "UnexpectedObjD" ]}), [])
  /\ DistCkpt.load requested saved DistCkpt.RETURN_ALL []
     = (Returns (DistCkpt.WithMismatch saved ∅ {[ "UnexpectedTenD"; "UnexpectedObjD" ]}), [])
  /\ DistCkpt.load requested saved DistCkpt.IGNORE_ALL [] = (Returns (DistCkpt.StateDictOnly saved), [])
  /\ (exists msg,
        DistCkpt.load requested saved DistCkpt.RAISE_ALL []
        = (Raises (CheckpointingException msg), [])
        /\ PyStr.contains "Unexpected keys" msg = true
        /\ PyStr.contains "UnexpectedTenD" msg = true
        /\ PyStr.contains "UnexpectedObjD" msg = true
        /\ PyStr.contains "Missing keys" msg = false)
  /\ returned (fst (DistCkpt.load requested saved DistCkpt.ASSUME_OK_UNEXPECTED [])) = false.
Proof.
  cbv zeta. split; [reflexivity|]. split; [reflexivity|]. split; [reflexivity|].
  split; [|reflexivity]. eexists. split; [reflexivity|]. repeat split; vm_compute; reflexivity.
Qed.

Example test_missing_keys_raises_error_during_validation :
  let saved : gset string := {[ "TenA"; "TenB"; "TenC"; "ObjA"; "ObjB" ]} in
  let requested : gset string := {[ "TenB"; "TenC"; "ObjA" ]} in
  DistCkpt.load requested saved DistCkpt.RETURN_ALL []
  = (Returns (DistCkpt.WithMismatch requested {[ "TenA"; "ObjB" ]} ∅), [])
  /\ DistCkpt.load requested saved DistCkpt.RETURN_UNEXPECTED []
     = (Returns (DistCkpt.WithMismatch requested ∅ ∅), [])
  /\ DistCkpt.load requested saved DistCkpt.RAISE_UNEXPECTED []
     = (Returns (DistCkpt.StateDictOnly requested), [])
  /\ DistCkpt.load requested saved DistCkpt.LOG_UNEXPECTED []
     = (Returns (DistCkpt.StateDictOnly requested), [])
  /\ (exists msg,
        DistCkpt.load requested saved DistCkpt.RAISE_ALL []
        = (Raises (CheckpointingException msg), [])
        /\ PyStr.contains "Unexpected keys" msg = false
        /\ PyStr.contains "TenA" msg = true
        /\ PyStr.contains "ObjB" msg = true
        /\ PyStr.contains "Missing keys" msg = true).
Proof.
  cbv zeta. repeat (split; [reflexivity|]).
  eexists. split; [reflexivity|]. repeat split; vm_compute; reflexivity.
Qed.

(** ** Loading a tensor against another global shape *)

Section Resharding.

Import DistCkpt.

Context {A : Type} (zero : A).

Lemma length_copy_shard (offset : nat) (buffer : list A) (shard : nat * list A) :
  length (copy_shard offset buffer shard) = length buffer.
Proof.
  destruct shard as [start written]. unfold copy_shard.
  destruct (Nat.ltb_spec (Nat.max start offset)
              (Nat.min (start + length written) (offset + length buffer))) as [Hlt | Hge];
    [|reflexivity].
  rewrite !length_app, !length_take, length_drop, length_drop. lia.
Qed.

Lemma lookup_copy_shard (offset : nat) (buffer : list A) (start : nat) (written : list A)
    (i : nat) :
  (i < length buffer)%nat ->
  copy_shard offset buffer (start, written) !! i
  = if (start <=? offset + i)%nat && (offset + i <? start + length written)%nat
    then written !! (offset + i - start)%nat
    else buffer !! i.
Proof.
  intros Hi. unfold copy_shard.
  set (lo := Nat.max start offset).
  set (hi := Nat.min (start + length written) (offset + length buffer)).
  destruct (Nat.ltb_spec lo hi) as [Hlt | Hge].
  - destruct (Nat.leb_spec start (offset + i)) as [Hs | Hs];
      [destruct (Nat.ltb_spec (offset + i) (start + length written)) as [He | He]|];
      cbn [andb].
    + (* covered *)
      rewrite lookup_app_r by (rewrite length_take; lia).
      rewrite length_take.
      rewrite lookup_app_l by (rewrite length_take, length_drop; lia).
      rewrite lookup_take_lt by lia. rewrite lookup_drop. f_equal. lia.
    + (* past the shard *)
      rewrite lookup_app_r by (rewrite length_take; lia).
      rewrite length_take.
      rewrite lookup_app_r by (rewrite length_take, length_drop; lia).
      rewrite length_take, length_drop. rewrite lookup_drop. f_equal. lia.
    + (* before the shard *)
      rewrite lookup_app_l by (rewrite length_take; lia).
      apply lookup_take_lt. lia.
  - destruct (Nat.leb_spec start (offset + i)) as [Hs | Hs];
      [destruct (Nat.ltb_spec (offset + i) (start + length written)) as [He | He]|];
      cbn [andb]; try reflexivity. lia.
Qed.

Lemma length_fold_copy (offset : nat) (shards : list (nat * list A)) (buffer : list A) :
  length (fold_left (copy_shard offset) shards buffer) = length buffer.
Proof.
  revert buffer. induction shards as [|sh shards IH]; intros buffer; [reflexivity|].
  cbn. rewrite IH. apply length_copy_shard.
Qed.

(** Copying the shards that tile a tensor puts, at each place of the
    buffer that they cover, the element of the tensor at that place. *)
Lemma lookup_fold_tiling (offset : nat) (chunks : list (list A)) (start : nat)
    (buffer : list A) (i : nat) :
  (i < length buffer)%nat ->
  fold_left (copy_shard offset) (tiling start chunks) buffer !! i
  = if (start <=? offset + i)%nat && (offset + i <? start + length (concat chunks))%nat
    then concat chunks !! (offset + i - start)%nat
    else buffer !! i.
Proof.
  revert start buffer. induction chunks as [|c chunks IH]; intros start buffer Hi.
  - cbn [tiling fold_left concat length]. rewrite Nat.add_0_r.
    destruct (Nat.leb_spec start (offset + i)), (Nat.ltb_spec (offset + i) start);
      cbn [andb]; first [reflexivity | lia].
  - cbn [tiling fold_left concat]. rewrite IH by (rewrite length_copy_shard; exact Hi).
    rewrite lookup_copy_shard by exact Hi. rewrite length_app.
    destruct (Nat.leb_spec (start + length c) (offset + i)) as [H1 | H1];
      destruct (Nat.ltb_spec (offset + i) (start + length c + length (concat chunks)))
        as [H2 | H2];
      destruct (Nat.leb_spec start (offset + i)) as [H3 | H3];
      destruct (Nat.ltb_spec (offset + i) (start + length c)) as [H4 | H4];
      destruct (Nat.ltb_spec (offset + i) (start + (length c + length (concat chunks))))
        as [H5 | H5];
      cbn [andb]; try lia; try reflexivity.
    + rewrite lookup_app_r by lia. f_equal. lia.
    + rewrite lookup_app_l by lia. reflexivity.
Qed.

End Resharding.

(** C7.  A tensor was saved in consecutive shards and is loaded under a
    global shape other than the one on disk.  A shard that allows the
    mismatch loads: each of its places holds the saved element at that
    global place, or zero where the saved tensor does not reach, so that a
    shard lying past a smaller saved extent is all zeros and a shard lying
    within a larger one is the corresponding part of it, cropped.  A shard
    that does not allow the mismatch raises a checkpointing exception. *)
Theorem shape_mismatch_tolerance {A : Type} (zero : A)
    (ckpt : gmap string (DistCkpt.OnDisk A)) (chunks : list (list A))
    (request : DistCkpt.ShardedTensor A) :
  ckpt !! DistCkpt.key request
  = Some {| DistCkpt.disk_shape := length (concat chunks);
            DistCkpt.disk_shards := DistCkpt.tiling 0 chunks |} ->
  DistCkpt.global_shape request <> length (concat chunks) ->
  let saved := concat chunks in
  let n := length (DistCkpt.data request) in
  let offset := DistCkpt.global_offset request in
  if DistCkpt.allow_shape_mismatch request
  then exists loaded,
         DistCkpt.load_tensor zero ckpt request = Returns loaded
         /\ length loaded = n
         /\ (forall i, (i < n)%nat ->
               loaded !! i = Some (default zero (saved !! (offset + i)%nat)))
         /\ ((offset + n <= length saved)%nat -> loaded = take n (drop offset saved))
         /\ ((length saved <= offset)%nat -> loaded = replicate n zero)
  else exists msg,
         DistCkpt.load_tensor zero ckpt request = Raises (CheckpointingException msg).
Proof.
  intros Hdisk Hshape. cbv zeta. unfold DistCkpt.load_tensor. rewrite Hdisk.
  cbn [DistCkpt.disk_shape DistCkpt.disk_shards].
  assert (Hne : (DistCkpt.global_shape request =? length (concat chunks))%nat = false)
    by (apply Nat.eqb_neq, Hshape).
  rewrite Hne. destruct (DistCkpt.allow_shape_mismatch request); cbn [orb];
    [|eexists; reflexivity].
  generalize (DistCkpt.global_offset request) (length (DistCkpt.data request)).
  intros offset n. set (saved := concat chunks).
  set (loaded := fold_left _ _ _).
  assert (Hlen : length loaded = n)
    by (unfold loaded; rewrite length_fold_copy; apply length_replicate).
  assert (Hat : forall i, (i < n)%nat ->
                  loaded !! i = Some (default zero (saved !! (offset + i)%nat))).
  { intros i Hi. unfold loaded.
    rewrite lookup_fold_tiling by (rewrite length_replicate; exact Hi).
    rewrite Nat.sub_0_r. cbn [Nat.leb andb Nat.add]. fold saved.
    destruct (Nat.ltb_spec (offset + i) (length saved)) as [Hin | Hout].
    - destruct (lookup_lt_is_Some_2 saved (offset + i) Hin) as [x Hx].
      now rewrite Hx.
    - rewrite (lookup_ge_None_2 saved (offset + i)) by exact Hout.
      cbn. now apply lookup_replicate_2. }
  exists loaded. split; [reflexivity|]. split; [exact Hlen|]. split; [exact Hat|]. split.
  - intros Hin. apply list_eq. intros i.
    destruct (Nat.lt_ge_cases i n) as [Hi | Hi].
    + rewrite (Hat i Hi). rewrite lookup_take_lt by exact Hi. rewrite lookup_drop.
      destruct (lookup_lt_is_Some_2 saved (offset + i) ltac:(lia)) as [x Hx].
      now rewrite Hx.
    + rewrite (lookup_ge_None_2 loaded i) by lia.
      symmetry. apply lookup_ge_None_2. rewrite length_take, length_drop. lia.
  - intros Hpast. apply list_eq. intros i.
    destruct (Nat.lt_ge_cases i n) as [Hi | Hi].
    + rewrite (Hat i Hi). rewrite (lookup_ge_None_2 saved (offset + i)) by lia.
      cbn. symmetry. now apply lookup_replicate_2.
    + rewrite (lookup_ge_None_2 loaded i) by lia.
      symmetry. apply lookup_ge_None_2. rewrite length_replicate. lia.
Qed.

Lemma shape_mismatch_tolerance_witness :
  DistCkpt.load_tensor 0 mismatch_checkpoint (rank_shard "keyB" true 9 4 3)
  = Returns [27; 28; 29; 30; 31; 0; 0; 0; 0].
Proof.
  assert (Hdisk : mismatch_checkpoint !! DistCkpt.key (rank_shard "keyB" true 9 4 3)
                  = Some {| DistCkpt.disk_shape :=
                              length (concat ((fun r => arange (r * 4) 4) <$> seq 0 8));
                            DistCkpt.disk_shards :=
                              DistCkpt.tiling 0 ((fun r => arange (r * 4) 4) <$> seq 0 8) |})
    by (vm_compute; reflexivity).
  assert (Hshape : DistCkpt.global_shape (rank_shard "keyB" true 9 4 3)
                   <> length (concat ((fun r => arange (r * 4) 4) <$> seq 0 8)))
    by (vm_compute; discriminate).
  destruct (shape_mismatch_tolerance 0 mismatch_checkpoint
              ((fun r => arange (r * 4) 4) <$> seq 0 8)
              (rank_shard "keyB" true 9 4 3) Hdisk Hshape)
    as (loaded & Hload & _).
  rewrite Hload. vm_compute in Hload. congruence.
Defined.

(** [test_tensor_shape_mismatch], replayed: extent 32 on disk; four shards
    of width 7 ask for extent 28, four shards of width 9 for extent 36. *)
Example test_tensor_shape_mismatch :
  DistCkpt.global_shape (rank_shard "keyA" false 4 8 0) = 32%nat
  /\ Forall (fun r => DistCkpt.load_tensor 0 mismatch_checkpoint (rank_shard "keyB" true 7 4 r)
                      = Returns (arange (r * 7) 7)) (seq 0 4)
  /\ Forall (fun r => returned (DistCkpt.load_tensor 0 mismatch_checkpoint
                                  (rank_shard "keyA" false 7 4 r)) = false) (seq 0 4)
  /\ Forall (fun r => DistCkpt.load_tensor 0 mismatch_checkpoint (rank_shard "keyB" true 9 4 r)
                      = Returns (arange (r * 9) 9)) (seq 0 3)
  /\ DistCkpt.load_tensor 0 mismatch_checkpoint (rank_shard "keyB" true 9 4 3)
     = Returns [27; 28; 29; 30; 31; 0; 0; 0; 0]
  /\ Forall (fun r => returned (DistCkpt.load_tensor 0 mismatch_checkpoint
                                  (rank_shard "keyA" false 9 4 r)) = false) (seq 0 4).
Proof.
  split; [reflexivity|].
  repeat split; repeat constructor; vm_compute; reflexivity.
Qed.

(** ** Factories *)

Section Factories.

Import DistCkpt.

Lemma save_shard_other (ckpt : gmap string (OnDisk Z)) (sh : ShardedTensor Z) (k : string) :
  key sh <> k -> save_shard ckpt sh !! k = ckpt !! k.
Proof. intros Hne. unfold save_shard. now rewrite lookup_insert_ne. Qed.

Lemma save_shard_fresh (ckpt : gmap string (OnDisk Z)) (k : string) (tensor : list Z) :
  ckpt !! k = None ->
  save_shard ckpt (whole_tensor k tensor) !! k
  = Some {| disk_shape := length tensor; disk_shards := [(0%nat, tensor)] |}.
Proof.
  intros Hnone. unfold save_shard. cbn [key whole_tensor]. rewrite Hnone.
  now rewrite lookup_insert_eq.
Qed.

Lemma save_others (shards : list (ShardedTensor Z)) (ckpt : gmap string (OnDisk Z))
    (k : string) :
  Forall (fun sh => key sh <> k) shards ->
  fold_left save_shard shards ckpt !! k = ckpt !! k.
Proof.
  revert ckpt. induction shards as [|sh shards IH]; intros ckpt Hall; [reflexivity|].
  inversion Hall as [|? ? Hsh Hrest]; subst. cbn. rewrite IH by exact Hrest.
  now apply save_shard_other.
Qed.

Lemma copy_whole (buffer written : list Z) :
  length buffer = length written -> copy_shard 0 buffer (0%nat, written) = written.
Proof.
  intros Hlen. unfold copy_shard. cbn [Nat.max Nat.add]. rewrite Hlen, Nat.min_id.
  destruct (Nat.ltb_spec 0 (length written)) as [Hpos | Hzero].
  - rewrite !Nat.sub_0_r, take_0, drop_0.
    rewrite firstn_all. rewrite (drop_ge buffer) by lia. now rewrite app_nil_r.
  - destruct written; [|cbn in Hzero; lia]. now destruct buffer.
Qed.

Lemma load_whole (ckpt : gmap string (OnDisk Z)) (k : string) (saved requested : list Z) :
  ckpt !! k = Some {| disk_shape := length saved; disk_shards := [(0%nat, saved)] |} ->
  length requested = length saved ->
  load_tensor 0 ckpt (whole_tensor k requested) = Returns saved.
Proof.
  intros Hdisk Hlen. unfold load_tensor. cbn [key whole_tensor]. rewrite Hdisk.
  cbn [disk_shape disk_shards global_shape allow_shape_mismatch data global_offset
       whole_tensor].
  rewrite Hlen, Nat.eqb_refl. cbn [orb fold_left].
  rewrite copy_whole by (now rewrite length_replicate). reflexivity.
Qed.

Lemma sum_of_three (t : list Z) : sum_tensors [t; t; t] = (fun x => 3 * x) <$> t.
Proof.
  cbn. induction t as [|x t IH]; [reflexivity|]. cbn. rewrite IH. f_equal. lia.
Qed.

Lemma part_keys_distinct (k : string) :
  k +:+ "part1" <> k +:+ "part2" /\ k +:+ "part1" <> k +:+ "part3"
  /\ k +:+ "part2" <> k +:+ "part3".
Proof.
  repeat split; intros E; apply (inj (String.append k)) in E; discriminate E.
Qed.

End Factories.

(** C8.  A factory whose build function makes three tensors, each equal to
    the base tensor and each under its own key, and whose merge function is
    [sum], is saved together with other tensors; loading it back, with a
    request of the same shape, gives three times the base tensor. *)
Theorem factory_sum_of_three_parts
    (k : string) (base requested : list Z) (others : list (DistCkpt.ShardedTensor Z)) :
  length requested = length base ->
  Forall (fun sh => DistCkpt.key sh ∉ part_keys k) others ->
  let saved := DistCkpt.save_state_dict
                 ((DistCkpt.Tensor <$> others) ++ [DistCkpt.Factory (sum_factory k base)]) in
  DistCkpt.load_entry saved (DistCkpt.Factory (sum_factory k requested))
  = Returns ((fun x => 3 * x) <$> base).
Proof.
  intros Hlen Hothers saved.
  destruct (part_keys_distinct k) as (H12 & H13 & H23).
  assert (Hsaved : saved
            = DistCkpt.save_shard
                (DistCkpt.save_shard
                   (DistCkpt.save_shard (fold_left DistCkpt.save_shard others ∅)
                      (whole_tensor (k +:+ "part1") base))
                   (whole_tensor (k +:+ "part2") base))
                (whole_tensor (k +:+ "part3") base)).
  { unfold saved, DistCkpt.save_state_dict, DistCkpt.save.
    rewrite fmap_app, concat_app, fold_left_app. cbn [fmap list_fmap concat app].
    assert (Hflat : concat ((fun e => match e with
                                      | DistCkpt.Tensor sh => [sh]
                                      | DistCkpt.Factory f => DistCkpt.apply_factory f
                                      end) <$> (DistCkpt.Tensor <$> others)) = others).
    { clear. induction others as [|sh l IH]; [reflexivity|]. cbn. now rewrite IH. }
    rewrite Hflat. reflexivity. }
  assert (Hfresh : forall key', key' ∈ part_keys k ->
                     fold_left DistCkpt.save_shard others ∅ !! key' = None).
  { intros key' Hin. rewrite save_others; [apply lookup_empty|].
    eapply Forall_impl; [exact Hothers|]. intros sh Hsh E.
    rewrite <- E in Hin. contradiction. }
  assert (Hdisk : forall key', key' ∈ part_keys k ->
            saved !! key'
            = Some {| DistCkpt.disk_shape := length base;
                      DistCkpt.disk_shards := [(0%nat, base)] |}).
  { intros key' Hin. rewrite Hsaved. unfold part_keys in Hin.
    apply elem_of_cons in Hin as [-> | Hin];
      [|apply elem_of_cons in Hin as [-> | Hin];
        [|apply elem_of_cons in Hin as [-> | Hin]; [|inversion Hin]]].
    - rewrite save_shard_other by (cbn; congruence).
      rewrite save_shard_other by (cbn; congruence).
      apply save_shard_fresh, Hfresh. unfold part_keys. set_solver.
    - rewrite save_shard_other by (cbn; congruence).
      apply save_shard_fresh. rewrite save_shard_other by (cbn; congruence).
      apply Hfresh. unfold part_keys. set_solver.
    - apply save_shard_fresh.
      rewrite save_shard_other by (cbn; congruence).
      rewrite save_shard_other by (cbn; congruence).
      apply Hfresh. unfold part_keys. set_solver. }
  unfold DistCkpt.load_entry, DistCkpt.apply_factory.
  cbn [sum_factory DistCkpt.build_fn DistCkpt.f_key DistCkpt.f_data DistCkpt.merge_fn
       DistCkpt.three_parts fmap list_fmap DistCkpt.load_all].
  fold (whole_tensor (k +:+ "part1") requested).
  fold (whole_tensor (k +:+ "part2") requested).
  fold (whole_tensor (k +:+ "part3") requested).
  rewrite !(load_whole saved _ base requested)
    by (first [apply Hdisk; unfold part_keys; set_solver | exact Hlen]).
  now rewrite sum_of_three.
Qed.

Lemma factory_sum_of_three_parts_witness :
  DistCkpt.load_entry (DistCkpt.save_state_dict (mixed_state_dict 0))
    (DistCkpt.Factory (sum_factory "D" (arange 10 5)))
  = Returns [0; 3; 6; 9; 12].
Proof.
  assert (Hothers : Forall (fun sh => DistCkpt.key sh ∉ part_keys "D")
                      [whole_tensor "A" (arange 0 2); whole_tensor "B" (arange 0 3);
                       whole_tensor "C" (arange 0 4)])
    by (apply (bool_decide_unpack _); vm_compute; exact I).
  exact (factory_sum_of_three_parts "D" (arange 0 5) (arange 10 5) _ eq_refl Hothers).
Defined.

(** [test_can_mix_sharded_tensors_and_factories], replayed: saved with base
    0, requested with base 10. *)
Example test_can_mix_sharded_tensors_and_factories :
  DistCkpt.load_entry (DistCkpt.save_state_dict (mixed_state_dict 0)) <$> mixed_state_dict 10
  = [Returns (arange 0 2); Returns (arange 0 3); Returns (arange 0 4);
     Returns ((fun x => 3 * x) <$> arange 0 5)].
Proof. vm_compute. reflexivity. Qed.
(** ** More on checkpoint names *)

Lemma append_cancel_l (s a b : string) : s +:+ a = s +:+ b -> a = b.
Proof. induction s as [|c s IH]; cbn; [auto|]. intros E. injection E. auto. Qed.

Lemma all_sep_false (s : string) :
  s <> "" -> PyStr.endswith_sep s = false -> PyPath.all_sep s = false.
Proof.
  induction s as [|c s IH]; [contradiction|]. intros _ H. cbn in H |- *.
  destruct s as [|d s]; [now rewrite H|].
  rewrite IH by (congruence || exact H). apply andb_false_r.
Qed.

(** The directory of one rank: never empty, never ending with a separator,
    and the file of the rank is the base name joined to it. *)
Lemma rank_directory (mpu : Mpu) (checkpoints_path : string) (N : Z) (release : bool)
    (pipeline_parallel : option bool) (tensor_rank pipeline_rank : option Z)
    (expert_parallel : option bool) (expert_rank : option Z) :
  exists common_path,
    common_path <> "" /\ PyStr.endswith_sep common_path = false
    /\ PyPath.all_sep common_path = false
    /\ forall basename,
         get_checkpoint_name mpu checkpoints_path N release pipeline_parallel tensor_rank
           pipeline_rank expert_parallel expert_rank false basename
         = PyStr.join2 common_path basename.
Proof.
  unfold get_checkpoint_name. cbv zeta.
  set (directory := if release then "release" else _).
  set (pp := default _ pipeline_parallel). set (tr := default _ tensor_rank).
  set (pr := default _ pipeline_rank). set (ep := default _ expert_parallel).
  set (er := default _ expert_rank).
  set (base := PyStr.join2 checkpoints_path directory).
  assert (Hshape : forall x n w, x +:+ PyStr.format_0d w n <> ""
            /\ PyStr.endswith_sep (x +:+ PyStr.format_0d w n) = false
            /\ PyPath.all_sep (x +:+ PyStr.format_0d w n) = false).
  { intros x n w. destruct (endswith_sep_format w n x) as [He Hn].
    split; [exact Hn|]. split; [exact He|]. now apply all_sep_false. }
  cbn [negb PyStr.os_path_join fold_left].
  destruct pp, ep; cbn [negb];
    eexists; (split; [|split; [|split; [|intros basename; reflexivity]]]).
  all: fold base.
  all: try (rewrite <- !append_assoc_str; apply Hshape).
  all: try (rewrite join2_app by discriminate; apply Hshape).
  all: rewrite join2_app by discriminate; rewrite <- !append_assoc_str; apply Hshape.
Qed.

(** X1.  The naming scheme does not tell expert parallelism from pipeline
    parallelism: without pipeline parallelism, the file of expert rank [r] has
    the name that the file of pipeline rank [r] has without expert
    parallelism. *)
Theorem expert_rank_and_pipeline_rank_share_names
    (mpu : Mpu) (checkpoints_path : string) (N : Z) (release : bool)
    (tensor_rank pipeline_rank expert_rank : option Z) (r : Z) (basename : string) :
  get_checkpoint_name mpu checkpoints_path N release (Some false) tensor_rank
    pipeline_rank (Some true) (Some r) false basename
  = get_checkpoint_name mpu checkpoints_path N release (Some true) tensor_rank
      (Some r) (Some false) expert_rank false basename.
Proof.
  unfold get_checkpoint_name. cbv zeta.
  cbn [default from_option id negb PyStr.os_path_join fold_left].
  f_equal. rewrite !join2_app by discriminate.
  now rewrite !append_assoc_str.
Qed.

(** Base directories under one checkpoints path are equal only for equal
    directory names. *)
Lemma base_directory_inj (checkpoints_path : string) (N M : Z) (release release' : bool) :
  PyStr.join2 checkpoints_path
    (if release then "release" else "iter_" +:+ PyStr.format_0d 7 N)
  = PyStr.join2 checkpoints_path
      (if release' then "release" else "iter_" +:+ PyStr.format_0d 7 M) ->
  release = release' /\ (release = false -> N = M).
Proof.
  set (pre := if String.eqb checkpoints_path "" || PyStr.endswith_sep checkpoints_path
              then checkpoints_path else checkpoints_path +:+ "/").
  assert (Hjoin : forall d, PyStr.startswith "/" d = false ->
                            PyStr.join2 checkpoints_path d = pre +:+ d).
  { intros d Hd. unfold PyStr.join2, pre. rewrite Hd.
    destruct (_ || _); now rewrite ?append_assoc_str. }
  rewrite !Hjoin by (destruct release; reflexivity) || (destruct release'; reflexivity).
  intros E. apply append_cancel_l in E.
  destruct release, release'; try discriminate E; split; try reflexivity; try discriminate.
  intros _. apply (append_cancel_l "iter_") in E. exact (format_0d_inj _ _ _ E).
Qed.

(** X2.  Two base directories made by [get_checkpoint_name] for the same
    checkpoints path are equal only if both are the release directory or
    both are iteration directories of the same iteration: no two iterations
    share a directory, and none shares it with a release. *)
Theorem iteration_directories_are_distinct
    (mpu : Mpu) (checkpoints_path : string) (N M : Z) (release release' : bool)
    (pipeline_parallel pipeline_parallel' : option bool)
    (tensor_rank pipeline_rank tensor_rank' pipeline_rank' : option Z)
    (expert_parallel expert_parallel' : option bool) (expert_rank expert_rank' : option Z)
    (basename basename' : string) :
  get_checkpoint_name mpu checkpoints_path N release pipeline_parallel tensor_rank
    pipeline_rank expert_parallel expert_rank true basename
  = get_checkpoint_name mpu checkpoints_path M release' pipeline_parallel' tensor_rank'
      pipeline_rank' expert_parallel' expert_rank' true basename' ->
  release = release' /\ (release = false -> N = M).
Proof.
  unfold get_checkpoint_name. cbn [PyStr.os_path_join fold_left].
  apply base_directory_inj.
Qed.

Lemma iteration_directories_are_distinct_witness :
  false = false /\ (false = false -> 5 = 5).
Proof.
  apply (iteration_directories_are_distinct single_rank "/ckpt" 5 5 false false
           None None None None None None None None None None "" "").
  reflexivity.
Defined.

Lemma head_of_app (x b : string) :
  PyPath.has_sep b = false -> PyPath.head_of (x +:+ String "/" b) = x +:+ "/".
Proof.
  intros Hb.
  assert (Hsep : forall y, PyPath.has_sep (y +:+ String "/" b) = true).
  { induction y as [|c y IH]; [reflexivity|].
    change (String c y +:+ String "/" b) with (String c (y +:+ String "/" b)).
    cbn [PyPath.has_sep]. rewrite IH. apply orb_true_r. }
  assert (Hnone : PyPath.head_of b = "").
  { clear Hsep. induction b as [|c b IH]; [reflexivity|]. cbn in Hb |- *.
    now rewrite Hb. }
  induction x as [|c x IH].
  - change ("" +:+ String "/" b) with (String "/" b). cbn. now rewrite Hnone.
  - change (String c x +:+ String "/" b) with (String c (x +:+ String "/" b)).
    cbn [PyPath.head_of]. rewrite Hsep, orb_true_r. now rewrite IH.
Qed.

Lemma all_sep_app (x y : string) :
  PyPath.all_sep (x +:+ y) = PyPath.all_sep x && PyPath.all_sep y.
Proof. induction x as [|c x IH]; [reflexivity|]. cbn. rewrite IH. apply andb_assoc. Qed.

Lemma rstrip_sep_app (x : string) :
  x <> "" -> PyStr.endswith_sep x = false -> PyPath.rstrip_sep (x +:+ "/") = x.
Proof.
  induction x as [|c x IH]; [contradiction|]. intros _ H.
  cbn in H. destruct x as [|d x].
  - cbn. now rewrite H.
  - change (String c (String d x) +:+ "/") with (String c (String d x +:+ "/")).
    cbn [PyPath.rstrip_sep]. rewrite IH by (congruence || exact H). reflexivity.
Qed.

Lemma has_sep_startswith (b : string) :
  PyPath.has_sep b = false -> PyStr.startswith "/" b = false.
Proof.
  destruct b as [|c b]; [reflexivity|]. cbn [PyPath.has_sep]. intros H.
  apply orb_false_iff in H as [H _]. apply Ascii.eqb_neq in H.
  unfold PyStr.startswith, String.prefix. destruct (ascii_dec "/" c) as [e|e]; [|reflexivity].
  symmetry in e. contradiction.
Qed.

Lemma dirname_join2 (common_path basename : string) :
  common_path <> "" -> PyStr.endswith_sep common_path = false ->
  PyPath.has_sep basename = false ->
  PyPath.dirname (PyStr.join2 common_path basename) = common_path.
Proof.
  intros Hne Hend Hb.
  rewrite join2_plain by (auto using has_sep_startswith).
  change ("/" +:+ basename) with (String "/" basename).
  unfold PyPath.dirname. rewrite head_of_app by exact Hb.
  rewrite all_sep_app, (all_sep_false _ Hne Hend).
  destruct (String.eqb_spec (common_path +:+ "/") "") as [E|_].
  { destruct common_path; discriminate. }
  cbn [negb andb]. now apply rstrip_sep_app.
Qed.

(** X3.  The file of the distributed optimizer lies beside the model file:
    for a base name without a path separator,
    [get_distributed_optimizer_checkpoint_name] applied to the name of a
    rank's checkpoint file is that rank's checkpoint name with the base name
    [distrib_optim.pt]. *)
Theorem distributed_optimizer_file_is_beside_the_model_file
    (mpu : Mpu) (checkpoints_path : string) (N : Z) (release : bool)
    (pipeline_parallel : option bool) (tensor_rank pipeline_rank : option Z)
    (expert_parallel : option bool) (expert_rank : option Z) (basename : string) :
  PyPath.has_sep basename = false ->
  get_distributed_optimizer_checkpoint_name
    (get_checkpoint_name mpu checkpoints_path N release pipeline_parallel tensor_rank
       pipeline_rank expert_parallel expert_rank false basename)
  = get_checkpoint_name mpu checkpoints_path N release pipeline_parallel tensor_rank
      pipeline_rank expert_parallel expert_rank false "distrib_optim.pt".
Proof.
  intros Hb.
  destruct (rank_directory mpu checkpoints_path N release pipeline_parallel tensor_rank
              pipeline_rank expert_parallel expert_rank)
    as (common_path & Hne & Hend & _ & Hname).
  rewrite !Hname. unfold get_distributed_optimizer_checkpoint_name.
  cbn [PyStr.os_path_join fold_left].
  now rewrite dirname_join2.
Qed.

Lemma distributed_optimizer_file_is_beside_the_model_file_witness :
  get_distributed_optimizer_checkpoint_name "/ckpt/iter_0000005/mp_rank_00/model_optim_rng.pt"
  = "/ckpt/iter_0000005/mp_rank_00/distrib_optim.pt".
Proof.
  apply (distributed_optimizer_file_is_beside_the_model_file single_rank "/ckpt" 5 false
           (Some false) (Some 0) (Some 0) (Some false) (Some 0) default_basename).
  reflexivity.
Defined.

(** X4.  [find_checkpoint_rank_0] returns the first existing file among
    three names under the base directory of the iteration (rank directories
    [mp_rank_00], [mp_rank_00_000] and [mp_rank_00_000_000]: its second and
    third look-ups ask for the same file), else the base directory when that
    is a distributed checkpoint, else [None]; the look-ups for files leave
    the world as it is, and the answer does not depend on the ranks of the
    calling process. *)
Theorem find_checkpoint_rank_0_tries_three_files
    (mpu : Mpu) (check_is_distributed_checkpoint : string -> M World bool)
    (checkpoints_path : string) (iteration : Z) (release : bool) (w : World) :
  let base :=
    PyStr.join2 checkpoints_path
      (if release then "release" else "iter_" +:+ PyStr.format_0d 7 iteration) in
  find_checkpoint_rank_0 mpu check_is_distributed_checkpoint checkpoints_path iteration
    release w
  = match List.find (is_file w) (rank_0_candidates base) with
    | Some filename => (Returns (Some filename), w)
    | None =>
        (let* distributed := check_is_distributed_checkpoint base in
         ret (if distributed then Some base else None)) w
    end.
Proof.
  intros base.
  destruct (base_directory_shape checkpoints_path iteration release) as [Hne Hend].
  fold base in Hne, Hend.
  assert (Hlit : forall t b, t <> "" -> PyStr.endswith_sep t = false ->
             PyStr.startswith "/" b = false ->
             PyStr.join2 (base +:+ t) b = base +:+ t +:+ "/" +:+ b).
  { intros t b Ht Hend' Hb. rewrite join2_plain; [now rewrite !append_assoc_str| | |exact Hb].
    - destruct base; [contradiction | discriminate].
    - now rewrite endswith_sep_app. }
  assert (Hname : forall pp ep,
             get_checkpoint_name mpu checkpoints_path iteration release (Some pp)
               (Some 0) (Some 0) (Some ep) (Some 0) false default_basename
             = base +:+ (if pp
                         then if ep then "/mp_rank_00_000_000/model_optim_rng.pt"
                              else "/mp_rank_00_000/model_optim_rng.pt"
                         else if ep then "/mp_rank_00_000/model_optim_rng.pt"
                              else "/mp_rank_00/model_optim_rng.pt")).
  { intros pp ep. unfold get_checkpoint_name. cbv zeta.
    cbn [default from_option id PyStr.os_path_join fold_left].
    fold base.
    change (PyStr.format_0d 2 0) with "00". change (PyStr.format_0d 3 0) with "000".
    destruct pp, ep; cbn [negb];
      rewrite !(join2_plain base) by (auto; reflexivity);
      rewrite ?append_assoc_str;
      rewrite !Hlit by (reflexivity || discriminate);
      reflexivity. }
  unfold find_checkpoint_rank_0. rewrite !Hname. cbv beta iota.
  replace (get_checkpoint_name mpu checkpoints_path iteration release (Some true) None
             None None None true default_basename) with base by reflexivity.
  unfold rank_0_candidates, List.find, is_file, Eff.bind, isfile, Eff.ret.
  destruct (bool_decide (is_Some (files w !! (base +:+ "/mp_rank_00/model_optim_rng.pt"))));
    cbv beta iota; [reflexivity|].
  destruct (bool_decide
              (is_Some (files w !! (base +:+ "/mp_rank_00_000/model_optim_rng.pt"))))
    eqn:E; cbv beta iota; [reflexivity|].
  rewrite E. cbv beta iota.
  destruct (bool_decide
              (is_Some (files w !! (base +:+ "/mp_rank_00_000_000/model_optim_rng.pt"))));
    cbv beta iota; [reflexivity|].
  destruct (check_is_distributed_checkpoint base w) as [[[]| |] w']; reflexivity.
Qed.
(** ** The finalize callback of a persistent save *)

Lemma print_rank_0_files (dist : option Dist) (msg : string) (w : World) :
  fst (print_rank_0 dist msg w) = Returns tt
  /\ files (snd (print_rank_0 dist msg w)) = files w
  /\ async_queue (snd (print_rank_0 dist msg w)) = async_queue w.
Proof.
  unfold print_rank_0. destruct dist as [d|]; [destruct (rank d =? 0)|]; repeat split.
Qed.

Lemma unreadable_tracker
    (dist : option Dist) (mpu : Mpu) (tensor_model_parallel_world_size : Z)
    (islink : string -> bool) (append_to_progress_log : string -> M World unit)
    (log_progress : bool) (save_retain_interval : option Z) (args : Args)
    (tracker_filename : string) (iteration : Z) (tensor_rank pipeline_rank : option Z)
    (s : Saver) :
  previous_iteration save_retain_interval tracker_filename (sv_world s) = None ->
  exists text,
    files (sv_world s) !! tracker_filename = Some text
    /\ iter_finalize_fn dist mpu tensor_model_parallel_world_size islink
         append_to_progress_log log_progress save_retain_interval args tracker_filename
         iteration tensor_rank pipeline_rank s
       = (Py.Error (Py.ValueError (PyStr.strip text)), s).
Proof.
  unfold previous_iteration. destruct s as [w deleting]. cbn [sv_world].
  destruct save_retain_interval as [interval|]; [|discriminate].
  destruct (files w !! tracker_filename) as [text|] eqn:Hfile; [|discriminate].
  intros Hint. exists text. split; [reflexivity|].
  unfold iter_finalize_fn, Py.bind, in_world, Py.lift, isfile, read_file, Py.int_of.
  cbn [sv_world sv_deleting]. rewrite Hfile.
  rewrite bool_decide_eq_true_2 by eauto.
  cbv beta iota. cbn [sv_world sv_deleting].
  rewrite Hfile, Hint. reflexivity.
Qed.

(** X5.  With a retention interval set, a tracker file whose text is not an
    integer (the word [release], for one) makes the finalize callback of a
    save raise [ValueError] before it writes anything: the tracker is left
    as it was. *)
Theorem iter_finalize_fn_rejects_unreadable_tracker
    (dist : option Dist) (mpu : Mpu) (tensor_model_parallel_world_size : Z)
    (islink : string -> bool) (append_to_progress_log : string -> M World unit)
    (log_progress : bool) (interval : Z) (args : Args) (tracker_filename : string)
    (iteration : Z) (tensor_rank pipeline_rank : option Z) (s : Saver) (text : string) :
  files (sv_world s) !! tracker_filename = Some text ->
  PyStr.int (PyStr.strip text) = None ->
  iter_finalize_fn dist mpu tensor_model_parallel_world_size islink append_to_progress_log
    log_progress (Some interval) args tracker_filename iteration tensor_rank pipeline_rank s
  = (Py.Error (Py.ValueError (PyStr.strip text)), s).
Proof.
  intros Hfile Hint.
  destruct (unreadable_tracker dist mpu tensor_model_parallel_world_size islink
              append_to_progress_log log_progress (Some interval) args tracker_filename
              iteration tensor_rank pipeline_rank s) as (text' & Hfile' & Hrun).
  { unfold previous_iteration. now rewrite Hfile. }
  rewrite Hfile in Hfile'. injection Hfile' as <-. exact Hrun.
Qed.

Lemma iter_finalize_fn_rejects_unreadable_tracker_witness :
  iter_finalize_fn None single_rank 1 (fun _ => false) no_progress_log false (Some 10)
    (run_args None None false false false 1 1 1) "/ckpt/latest_checkpointed_iteration.txt"
    20 None None (saver_with "/ckpt/latest_checkpointed_iteration.txt" "release")
  = (Py.Error (Py.ValueError "release"),
     saver_with "/ckpt/latest_checkpointed_iteration.txt" "release").
Proof.
  apply (iter_finalize_fn_rejects_unreadable_tracker None single_rank 1 (fun _ => false)
           no_progress_log false 10 (run_args None None false false false 1 1 1)
           "/ckpt/latest_checkpointed_iteration.txt" 20 None None
           (saver_with "/ckpt/latest_checkpointed_iteration.txt" "release") "release").
  - apply lookup_singleton_eq.
  - reflexivity.
Defined.

Section FinalizeFacts.

Variable dist : option Dist.
Variable mpu : Mpu.
Variable tensor_model_parallel_world_size : Z.
Variable islink : string -> bool.
Variable append_to_progress_log : string -> M World unit.
Variable log_progress : bool.
Variable save_retain_interval : option Z.
Variable args : Args.
Variable tracker_filename : string.
Variable iteration : Z.
Variable tensor_rank pipeline_rank : option Z.

(** The first step of the callback. *)
Lemma read_previous_iteration (s : Saver) (prev : Z) :
  previous_iteration save_retain_interval tracker_filename (sv_world s) = Some prev ->
  match save_retain_interval with
  | Some _ =>
      let+ found := in_world (isfile tracker_filename) in
      if found
      then let+ text := in_world (read_file tracker_filename) in Py.int_of text
      else Py.ret 0
  | None => Py.ret 0
  end s = (Py.Ok prev, s).
Proof.
  destruct s as [w deleting]. unfold previous_iteration. cbn [sv_world].
  destruct save_retain_interval as [interval|]; [|intros [= <-]; reflexivity].
  unfold Py.bind, in_world, Py.lift, isfile, read_file, Py.int_of.
  cbn [sv_world sv_deleting].
  destruct (files w !! tracker_filename) as [text|] eqn:Hfile.
  - intros Hint. rewrite bool_decide_eq_true_2 by eauto.
    cbv beta iota. cbn [sv_world sv_deleting]. rewrite Hfile, Hint. reflexivity.
  - intros [= <-]. rewrite bool_decide_eq_false_2 by (intros [? ?]; discriminate).
    reflexivity.
Qed.

(** What the callback does to the world and to the started deletions, once
    the previous iteration is read. *)
Lemma iter_finalize_fn_effect (s : Saver) (prev : Z) :
  previous_iteration save_retain_interval tracker_filename (sv_world s) = Some prev ->
  let after :=
    snd (iter_finalize_fn dist mpu tensor_model_parallel_world_size islink
           append_to_progress_log log_progress save_retain_interval args tracker_filename
           iteration tensor_rank pipeline_rank s) in
  let name :=
    get_checkpoint_name mpu (save args) prev false None None None None None true
      default_basename in
  ((forall msg w, files (snd (append_to_progress_log msg w)) !! tracker_filename
                  = files w !! tracker_filename) ->
   files (sv_world after) !! tracker_filename = Some (PyStr.str iteration))
  /\ (sv_deleting after = sv_deleting s
      \/ sv_deleting after = (sv_deleting s ++ [name])%list
         /\ exists interval,
              save_retain_interval = Some interval /\ interval <> 0
              /\ 0 < prev /\ prev <> iteration /\ prev mod interval <> 0
              /\ islink name = false).
Proof.
  intros Hprev after name. subst after.
  match goal with |- context [snd ?x] => pattern x end.
  match goal with |- ?P _ => set (Q := P) end.
  unfold iter_finalize_fn. unfold Py.bind at 1.
  rewrite (read_previous_iteration s prev Hprev).
  destruct s as [w deleting].
  unfold Py.bind at 1. unfold in_world at 1, Py.lift, write_file.
  cbn [sv_world sv_deleting].
  set (w1 := {| stdout := stdout w; files := <[tracker_filename := PyStr.str iteration]> (files w);
                async_queue := async_queue w |}).
  unfold Py.bind at 1. unfold in_world at 1, Py.lift. cbn [sv_world sv_deleting].
  match goal with |- context [print_rank_0 dist ?m w1] =>
    destruct (print_rank_0_files dist m w1) as (Hr & Hf & _);
    destruct (print_rank_0 dist m w1) as [r2 w2] end.
  cbn [fst snd] in Hr, Hf. subst r2.
  assert (Hw2 : files w2 !! tracker_filename = Some (PyStr.str iteration)).
  { rewrite Hf. apply lookup_insert_eq. }
  clearbody w1. clear Hf.
  assert (Hsame : forall (r : Py.result unit) w3,
             ((forall msg w, files (snd (append_to_progress_log msg w)) !! tracker_filename
                             = files w !! tracker_filename) ->
              files w3 !! tracker_filename = Some (PyStr.str iteration)) ->
             Q (r, {| sv_world := w3; sv_deleting := deleting |})).
  { intros r w3 Hw3. subst Q. cbn [fst snd sv_world sv_deleting].
    split; [exact Hw3 | now left]. }
  unfold Py.bind at 1.
  set (logged := Py.when _ _ _).
  assert (Hlog : sv_deleting (snd logged) = deleting
                 /\ ((forall msg w, files (snd (append_to_progress_log msg w)) !! tracker_filename
                                    = files w !! tracker_filename) ->
                     files (sv_world (snd logged)) !! tracker_filename
                     = Some (PyStr.str iteration))).
  { subst logged. unfold Py.when. destruct (log_progress && async_save args).
    - unfold in_world, Py.lift. cbn [sv_world sv_deleting].
      match goal with |- context [append_to_progress_log ?m w2] => set (msg0 := m) end.
      assert (Hp : (forall msg w, files (snd (append_to_progress_log msg w)) !! tracker_filename
                                  = files w !! tracker_filename) ->
                   files (snd (append_to_progress_log msg0 w2)) !! tracker_filename
                   = Some (PyStr.str iteration))
        by (intros H; rewrite H; exact Hw2).
      destruct (append_to_progress_log msg0 w2) as [[[]| |e] w3];
        (split; [reflexivity | exact Hp]).
    - split; [reflexivity | intros _; exact Hw2]. }
  destruct logged as [[[]| |e] [w3 deleting3]]; cbn [fst snd sv_world sv_deleting] in Hlog;
    destruct Hlog as [-> Hw3]; try (apply Hsame; exact Hw3).
  destruct save_retain_interval as [interval|]; [|exact (Hsame (Py.Ok tt) w3 Hw3)].
  destruct ((0 <? prev) && negb (prev =? iteration)) eqn:Hcond;
    [|exact (Hsame (Py.Ok tt) w3 Hw3)].
  apply andb_true_iff in Hcond as [Hpos Hne].
  apply Z.ltb_lt in Hpos. apply negb_true_iff, Z.eqb_neq in Hne.
  destruct (interval =? 0) eqn:Hzero;
    [exact (Hsame (Py.Error Py.ZeroDivisionError) w3 Hw3)|].
  apply Z.eqb_neq in Hzero.
  destruct (negb (prev mod interval =? 0)) eqn:Hmod; [|exact (Hsame (Py.Ok tt) w3 Hw3)].
  apply negb_true_iff, Z.eqb_neq in Hmod.
  fold name. destruct (islink name) eqn:Hlink.
  - unfold in_world, Py.lift. cbn [sv_world sv_deleting].
    match goal with |- context [print_rank_0 dist ?m w3] =>
      destruct (print_rank_0_files dist m w3) as (Hr & Hf & _);
      destruct (print_rank_0 dist m w3) as [r4 w4] end.
    cbn [fst snd] in Hr, Hf. subst r4.
    apply Hsame. intros H. rewrite Hf. auto.
  - subst Q. cbn [start_delete_checkpoint fst snd sv_world sv_deleting].
    split; [exact Hw3|]. right. split; [reflexivity|].
    exists interval. repeat split; auto.
Qed.

End FinalizeFacts.

(** X6.  The tracker written by the finalize callback reads back: when the
    callback gets past its read of the previous iteration (no retention
    interval, no tracker file yet, or a tracker file holding an integer) and
    the progress log leaves the tracker alone, the tracker file then holds
    [str(iteration)], and for a positive iteration [read_metadata] returns
    that iteration (the maximum over the ranks, under a process group) with
    [release=False]: whether the callback then returns or fails in its
    retention step. *)
Theorem saved_iteration_reads_back
    (dist : option Dist) (mpu : Mpu) (tensor_model_parallel_world_size : Z)
    (islink : string -> bool) (append_to_progress_log : string -> M World unit)
    (log_progress : bool) (save_retain_interval : option Z) (args : Args)
    (tracker_filename : string) (iteration : Z) (tensor_rank pipeline_rank : option Z)
    (s : Saver) (prev : Z) (reader : option Dist) :
  0 < iteration ->
  previous_iteration save_retain_interval tracker_filename (sv_world s) = Some prev ->
  (forall msg w, files (snd (append_to_progress_log msg w)) !! tracker_filename
                 = files w !! tracker_filename) ->
  let after :=
    snd (iter_finalize_fn dist mpu tensor_model_parallel_world_size islink
           append_to_progress_log log_progress save_retain_interval args tracker_filename
           iteration tensor_rank pipeline_rank s) in
  files (sv_world after) !! tracker_filename = Some (PyStr.str iteration)
  /\ fst (read_metadata reader tracker_filename (sv_world after))
     = Returns (agreed_iteration reader tracker_filename iteration, false).
Proof.
  intros Hpos Hprev Hlog after.
  destruct (iter_finalize_fn_effect dist mpu tensor_model_parallel_world_size islink
              append_to_progress_log log_progress save_retain_interval args
              tracker_filename iteration tensor_rank pipeline_rank s prev Hprev)
    as [Hfile _].
  specialize (Hfile Hlog). fold after in Hfile.
  split; [exact Hfile|].
  pose proof (read_metadata_cases reader tracker_filename _ _ Hfile) as Hread.
  rewrite strip_digits in Hread by (apply str_nonneg_digits; lia).
  rewrite int_str in Hread. apply Z.ltb_lt in Hpos. now rewrite Hpos in Hread.
Qed.

Lemma saved_iteration_reads_back_witness :
  fst (read_metadata None "/ckpt/latest_checkpointed_iteration.txt"
         (sv_world
            (snd (iter_finalize_fn None single_rank 1 (fun _ => false) no_progress_log
                    false (Some 10) (run_args None None false false false 1 1 1)
                    "/ckpt/latest_checkpointed_iteration.txt" 20 None None
                    (saver_with "/ckpt/latest_checkpointed_iteration.txt" "15")))))
  = Returns (20, false).
Proof.
  apply (saved_iteration_reads_back None single_rank 1 (fun _ => false) no_progress_log
           false (Some 10) (run_args None None false false false 1 1 1)
           "/ckpt/latest_checkpointed_iteration.txt" 20 None None
           (saver_with "/ckpt/latest_checkpointed_iteration.txt" "15") 15 None).
  - lia.
  - reflexivity.
  - reflexivity.
Defined.

(** X7.  The retention step of the finalize callback starts at most one
    deletion, and only of the base directory, under [args.save], of the
    iteration that the tracker held before: an iteration that is positive, is
    not a multiple of the retention interval, whose directory is not a
    symbolic link and is not the directory of the iteration just saved.
    Without a retention interval nothing is deleted. *)
Theorem retention_spares_the_saved_checkpoint
    (dist : option Dist) (mpu : Mpu) (tensor_model_parallel_world_size : Z)
    (islink : string -> bool) (append_to_progress_log : string -> M World unit)
    (log_progress : bool) (save_retain_interval : option Z) (args : Args)
    (tracker_filename : string) (iteration : Z) (tensor_rank pipeline_rank : option Z)
    (s : Saver) :
  let after :=
    snd (iter_finalize_fn dist mpu tensor_model_parallel_world_size islink
           append_to_progress_log log_progress save_retain_interval args tracker_filename
           iteration tensor_rank pipeline_rank s) in
  let name N :=
    get_checkpoint_name mpu (save args) N false None None None None None true
      default_basename in
  sv_deleting after = sv_deleting s
  \/ exists prev interval,
       sv_deleting after = (sv_deleting s ++ [name prev])%list
       /\ save_retain_interval = Some interval
       /\ previous_iteration save_retain_interval tracker_filename (sv_world s) = Some prev
       /\ 0 < prev /\ prev mod interval <> 0
       /\ islink (name prev) = false
       /\ (name prev =? name iteration)%string = false.
Proof.
  intros after name.
  destruct (previous_iteration save_retain_interval tracker_filename (sv_world s))
    as [prev|] eqn:Hprev.
  - destruct (iter_finalize_fn_effect dist mpu tensor_model_parallel_world_size islink
                append_to_progress_log log_progress save_retain_interval args
                tracker_filename iteration tensor_rank pipeline_rank s prev Hprev)
      as [_ [Hsame | [Hdel (interval & Hsri & Hnz & Hpos & Hne & Hmod & Hlink)]]].
    + now left.
    + right. exists prev, interval. repeat split; auto.
      apply String.eqb_neq. intros E. apply Hne.
      unfold name, get_checkpoint_name in E. cbn [PyStr.os_path_join fold_left] in E.
      apply (base_directory_inj (save args) prev iteration false false) in E as [_ E].
      now apply E.
  - left. subst after.
    destruct (unreadable_tracker dist mpu tensor_model_parallel_world_size islink
                append_to_progress_log log_progress save_retain_interval args
                tracker_filename iteration tensor_rank pipeline_rank s Hprev)
      as (text & _ & ->).
    reflexivity.
Qed.
(** ** Checking the arguments of a checkpoint *)

Lemma bind_returns {S A B} (m : M S A) (k : A -> M S B) (s : S) (b : B) (s2 : S) :
  Eff.bind m k s = (Returns b, s2) ->
  exists a s1, m s = (Returns a, s1) /\ k a s1 = (Returns b, s2).
Proof.
  unfold Eff.bind. destruct (m s) as [[a| |e] s1]; intros E; try discriminate E.
  exists a, s1. split; [reflexivity | exact E].
Qed.

Lemma when_returns {S} (c : bool) (m : M S unit) (s s2 : S) :
  Eff.when c m s = (Returns tt, s2) ->
  if c then m s = (Returns tt, s2) else s2 = s.
Proof. unfold Eff.when. destruct c; [auto|]. now intros [= <-]. Qed.

Lemma getattr_returns {S V} (ns : gmap string V) (name : string) (s s2 : S) (v : V) :
  getattr ns name s = (Returns v, s2) -> ns !! name = Some v /\ s2 = s.
Proof.
  unfold getattr. destruct (ns !! name); [|discriminate]. now intros [= <- <-].
Qed.

Lemma getattr_state {S V} (ns : gmap string V) (name : string) (s : S) :
  snd (getattr ns name s) = s.
Proof. unfold getattr. now destruct (ns !! name). Qed.

Lemma compare_returns {V} {PO : PyObject V} (args checkpoint_args : gmap string V) (arg_name : string)
    (old_arg_name : option string) (default_value : option V)
    (st st2 : option float) :
  _compare args checkpoint_args arg_name old_arg_name default_value st = (Returns tt, st2) ->
  st2 = st /\ agree args checkpoint_args arg_name (default arg_name old_arg_name) default_value.
Proof.
  unfold _compare. intros H.
  apply bind_returns in H as (c & s1 & Hc & H).
  apply bind_returns in H as (a & s2 & Ha & H).
  apply getattr_returns in Ha as [Ha ->].
  unfold Eff.assert in H. destruct (py_eq c a) eqn:Heq; [|discriminate H].
  injection H as <-.
  assert (Hck : s1 = st
                /\ (checkpoint_args !! default arg_name old_arg_name = Some c
                    \/ checkpoint_args !! default arg_name old_arg_name = None
                       /\ default_value = Some c)).
  { destruct default_value as [d|].
    - injection Hc as <- <-. split; [reflexivity|]. unfold getattr_default.
      destruct (checkpoint_args !! _); cbn; auto.
    - apply getattr_returns in Hc as [Hc ->]. auto. }
  destruct Hck as [-> Hck]. split; [reflexivity|]. exists c, a. auto.
Qed.

Lemma compare_state {V} {PO : PyObject V} (args checkpoint_args : gmap string V) (arg_name : string)
    (old_arg_name : option string) (default_value : option V) (st : option float) :
  snd (_compare args checkpoint_args arg_name old_arg_name default_value st) = st.
Proof.
  unfold _compare, Eff.bind, getattr, Eff.assert, Eff.ret, Eff.raise.
  destruct default_value.
  - destruct (args !! arg_name); [destruct (py_eq _ _)|]; reflexivity.
  - destruct (checkpoint_args !! _); [|reflexivity].
    destruct (args !! arg_name); [destruct (py_eq _ _)|]; reflexivity.
Qed.

Tactic Notation "step" hyp(H) "as" ident(a) ident(s) ident(Hs) :=
  apply bind_returns in H as (a & s & Hs & H);
  match type of a with unit => destruct a | _ => idtac end.

(** Everything that a run of [check_checkpoint_args] to its end has
    established. *)
Lemma check_checkpoint_args_returns {V} {PO : PyObject V}
    (args checkpoint_args : gmap string V) (st st2 : option float) :
  check_checkpoint_args args checkpoint_args st = (Returns tt, st2) ->
  st2 = st
  /\ agree args checkpoint_args "num_layers" "num_layers" None
  /\ agree args checkpoint_args "hidden_size" "hidden_size" None
  /\ agree args checkpoint_args "num_attention_heads" "num_attention_heads" None
  /\ agree args checkpoint_args "add_position_embedding" "add_position_embedding"
       (Some (py_bool true))
  /\ exists v,
       st = Some v
       /\ (PrimFloat.ltb v 3 = true ->
           agree args checkpoint_args "tensor_model_parallel_size" "model_parallel_size" None)
       /\ (PrimFloat.leb 3 v = true ->
           exists use_dist_ckpt,
             args !! "use_dist_ckpt" = Some use_dist_ckpt
             /\ (py_truthy use_dist_ckpt = false ->
                 agree args checkpoint_args "tensor_model_parallel_size"
                   "tensor_model_parallel_size" None
                 /\ agree args checkpoint_args "pipeline_model_parallel_size"
                      "pipeline_model_parallel_size" None)).
Proof.
  unfold check_checkpoint_args. intros H.
  step H as u s Hs. apply compare_returns in Hs as [-> H1].
  step H as u s Hs. apply compare_returns in Hs as [-> H2].
  step H as u s Hs. apply compare_returns in Hs as [-> H3].
  step H as u s Hs. apply compare_returns in Hs as [-> H4].
  step H as vocab_file s Hs. apply getattr_returns in Hs as [_ ->].
  step H as u s Hs.
  assert (s = st) as ->.
  { clear H. revert Hs. unfold Eff.when.
    destruct (py_truthy vocab_file); [|now intros [= <-]].
    intros H. step H as u s1 Hs. apply compare_returns in Hs as [-> _].
    step H as u s1 Hs. apply compare_returns in Hs as [-> _].
    step H as use_dist s1 Hs. apply getattr_returns in Hs as [_ ->].
    step H as u s1 Hs. apply when_returns in Hs.
    destruct (negb _); [apply compare_returns in Hs as [-> _] | subst s1].
    - now apply compare_returns in H as [-> _].
    - now apply compare_returns in H as [-> _]. }
  clear Hs.
  step H as random_init s Hs. apply getattr_returns in Hs as [_ ->].
  step H as u s Hs. apply when_returns in Hs.
  assert (s = st) as ->.
  { destruct (py_truthy random_init);
      [now apply compare_returns in Hs as [-> _] | exact Hs]. }
  clear Hs.
  step H as old s Hs. unfold version_lt_3, Eff.bind, Version.get_checkpoint_version in Hs.
  destruct st as [v|]; [|discriminate Hs]. injection Hs as <- <-.
  step H as u s Hs. apply when_returns in Hs.
  assert (Hold : s = Some v
                 /\ (PrimFloat.ltb v 3 = true ->
                     agree args checkpoint_args "tensor_model_parallel_size"
                       "model_parallel_size" None)).
  { destruct (PrimFloat.ltb v 3);
      [apply compare_returns in Hs as [-> Ha]; auto | split; [exact Hs | discriminate]]. }
  clear Hs. destruct Hold as [-> Hold].
  step H as recent s Hs. injection Hs as <- <-.
  step H as compare_sizes s Hs.
  assert (Hrecent : s = Some v
            /\ (PrimFloat.leb 3 v = true ->
                exists use_dist_ckpt,
                  args !! "use_dist_ckpt" = Some use_dist_ckpt
                  /\ compare_sizes = negb (py_truthy use_dist_ckpt))).
  { destruct (PrimFloat.leb 3 v).
    - step Hs as use_dist s1 Hs1. apply getattr_returns in Hs1 as [Hu ->].
      injection Hs as <- <-. split; [reflexivity|]. intros _. now exists use_dist.
    - injection Hs as <- <-. split; [reflexivity | discriminate]. }
  clear Hs. destruct Hrecent as [-> Hrecent].
  apply when_returns in H.
  assert (Hsizes : st2 = Some v
            /\ (compare_sizes = true ->
                agree args checkpoint_args "tensor_model_parallel_size"
                  "tensor_model_parallel_size" None
                /\ agree args checkpoint_args "pipeline_model_parallel_size"
                     "pipeline_model_parallel_size" None)).
  { destruct compare_sizes; [|split; [exact H | discriminate]].
    step H as u s Hs1. apply compare_returns in Hs1 as [-> Ht].
    apply compare_returns in H as [-> Hp]. auto. }
  destruct Hsizes as [-> Hsizes].
  repeat split; auto. exists v. split; [reflexivity|]. split; [exact Hold|].
  intros Hge. destruct (Hrecent Hge) as (use_dist & Hu & ->).
  exists use_dist. split; [exact Hu|]. intros Hf. apply Hsizes. now rewrite Hf.
Qed.

(** X8.  When [check_checkpoint_args] returns, the checkpoint version was
    set, and the checkpoint and the run agree on [num_layers],
    [hidden_size], [num_attention_heads] (all three present on both sides)
    and on [add_position_embedding], for which a checkpoint without the
    attribute counts as [True]; the version is left as it was. *)
Theorem check_checkpoint_args_compares_the_model_shape {V} {PO : PyObject V}
    (args checkpoint_args : gmap string V) (st st2 : option float) :
  check_checkpoint_args args checkpoint_args st = (Returns tt, st2) ->
  st2 = st /\ is_Some st
  /\ agree args checkpoint_args "num_layers" "num_layers" None
  /\ agree args checkpoint_args "hidden_size" "hidden_size" None
  /\ agree args checkpoint_args "num_attention_heads" "num_attention_heads" None
  /\ agree args checkpoint_args "add_position_embedding" "add_position_embedding"
       (Some (py_bool true)).
Proof.
  intros H.
  apply check_checkpoint_args_returns in H as (-> & H1 & H2 & H3 & H4 & v & -> & _).
  repeat split; eauto.
Qed.

Lemma check_checkpoint_args_compares_the_model_shape_witness :
  agree (small_args 24 2 true) (small_args 24 4 true) "num_layers" "num_layers" None.
Proof.
  apply (check_checkpoint_args_compares_the_model_shape
           (small_args 24 2 true) (small_args 24 4 true) (Some 3%float) (Some 3%float)).
  vm_compute. reflexivity.
Defined.

(** X9.  The parallel sizes that [check_checkpoint_args] has compared when
    it returns depend on the checkpoint version: below 3.0, the run's
    [tensor_model_parallel_size] equals the checkpoint's
    [model_parallel_size]; from 3.0 on, and unless the run uses distributed
    checkpoints, the tensor and the pipeline parallel sizes of the run equal
    those of the checkpoint. *)
Theorem check_checkpoint_args_compares_parallel_sizes {V} {PO : PyObject V}
    (args checkpoint_args : gmap string V) (v : float) (st2 : option float) :
  check_checkpoint_args args checkpoint_args (Some v) = (Returns tt, st2) ->
  (PrimFloat.ltb v 3 = true ->
   agree args checkpoint_args "tensor_model_parallel_size" "model_parallel_size" None)
  /\ (PrimFloat.leb 3 v = true ->
      exists use_dist_ckpt,
        args !! "use_dist_ckpt" = Some use_dist_ckpt
        /\ (py_truthy use_dist_ckpt = false ->
            agree args checkpoint_args "tensor_model_parallel_size"
              "tensor_model_parallel_size" None
            /\ agree args checkpoint_args "pipeline_model_parallel_size"
                 "pipeline_model_parallel_size" None)).
Proof.
  intros H.
  apply check_checkpoint_args_returns in H as (_ & _ & _ & _ & _ & v' & [= <-] & Hold & Hnew).
  auto.
Qed.

Lemma check_checkpoint_args_compares_parallel_sizes_witness :
  agree (small_args 24 2 false) (small_args 24 2 false) "tensor_model_parallel_size"
    "tensor_model_parallel_size" None.
Proof.
  destruct (check_checkpoint_args_compares_parallel_sizes
              (small_args 24 2 false) (small_args 24 2 false) 3%float (Some 3%float))
    as [_ Hnew].
  - vm_compute. reflexivity.
  - destruct Hnew as (u & Hu & Hsizes); [reflexivity|].
    apply Hsizes. vm_compute in Hu. injection Hu as <-. reflexivity.
Defined.

(** X10.  Without a checkpoint version, [check_checkpoint_args] never
    returns: it raises at one of its comparisons or, once these pass, with
    the [TypeError] of comparing [None] with [3.0]. *)
Theorem check_checkpoint_args_needs_a_version {V} {PO : PyObject V}
    (args checkpoint_args : gmap string V) :
  returned (fst (check_checkpoint_args args checkpoint_args None)) = false.
Proof.
  destruct (check_checkpoint_args args checkpoint_args None) as [[[]| |e] st2] eqn:H;
    try reflexivity.
  apply check_checkpoint_args_returns in H as (_ & _ & _ & _ & _ & v & Hv & _).
  discriminate Hv.
Qed.

Lemma bind_congr {S A B} (m : M S A) (k1 k2 : A -> M S B) (s : S) :
  (forall a s1, m s = (Returns a, s1) -> k1 a s1 = k2 a s1) ->
  Eff.bind m k1 s = Eff.bind m k2 s.
Proof. unfold Eff.bind. destruct (m s) as [[a| |e] s1]; auto. Qed.

(** With [args.use_dist_ckpt], [check_checkpoint_args] does not read the
    parallel sizes of the checkpoint. *)
Lemma check_checkpoint_args_ignores_sizes {V} {PO : PyObject V}
    (args checkpoint_args : gmap string V) (use_dist_ckpt t p : V) (st : option float) :
  args !! "use_dist_ckpt" = Some use_dist_ckpt ->
  py_truthy use_dist_ckpt = true ->
  check_checkpoint_args args
    (setattr (setattr checkpoint_args "pipeline_model_parallel_size" p)
       "tensor_model_parallel_size" t) st
  = check_checkpoint_args args checkpoint_args st.
Proof.
  intros Hu Htrue.
  set (changed := setattr _ _ _).
  assert (Hother : forall name,
             name <> "tensor_model_parallel_size" ->
             name <> "pipeline_model_parallel_size" ->
             changed !! name = checkpoint_args !! name).
  { intros name H1 H2. unfold changed, setattr in *.
    rewrite lookup_insert_ne by congruence. now rewrite lookup_insert_ne by congruence. }
  assert (Hcompare : forall name old d,
             default name old <> "tensor_model_parallel_size" ->
             default name old <> "pipeline_model_parallel_size" ->
             _compare args changed name old d = _compare args checkpoint_args name old d).
  { intros name old d H1 H2. unfold _compare, getattr, getattr_default.
    now rewrite Hother. }
  unfold check_checkpoint_args.
  rewrite !Hcompare by discriminate.
  do 10 (apply bind_congr; intros ? ? _).
  apply bind_congr. intros recent s' _.
  apply bind_congr. intros compare_sizes s'' Hc.
  assert (compare_sizes = false) as ->; [|reflexivity].
  destruct recent; [|now injection Hc as <- _].
  unfold Eff.bind, getattr in Hc. rewrite Hu in Hc. unfold Eff.ret in Hc.
  injection Hc as <- _. now rewrite Htrue.
Qed.

(** X11.  A run that uses distributed checkpoints may change its parallel
    sizes: when [args.use_dist_ckpt] is true, [check_checkpoint_args] ends in
    the same way whatever the checkpoint's [tensor_model_parallel_size] and
    [pipeline_model_parallel_size] are. *)
Theorem distributed_checkpoints_may_change_parallel_sizes {V} {PO : PyObject V}
    (args checkpoint_args : gmap string V) (use_dist_ckpt t p : V) (st : option float) :
  args !! "use_dist_ckpt" = Some use_dist_ckpt ->
  py_truthy use_dist_ckpt = true ->
  check_checkpoint_args args
    (setattr (setattr checkpoint_args "pipeline_model_parallel_size" p)
       "tensor_model_parallel_size" t) st
  = check_checkpoint_args args checkpoint_args st.
Proof.
  apply check_checkpoint_args_ignores_sizes.
Qed.

Lemma distributed_checkpoints_may_change_parallel_sizes_witness :
  check_checkpoint_args (small_args 24 2 true)
    (setattr (setattr (small_args 24 2 true) "pipeline_model_parallel_size" (VInt 4))
       "tensor_model_parallel_size" (VInt 8)) (Some 3%float)
  = check_checkpoint_args (small_args 24 2 true) (small_args 24 2 true) (Some 3%float).
Proof.
  apply (distributed_checkpoints_may_change_parallel_sizes (small_args 24 2 true)
           (small_args 24 2 true) (VBool true) (VInt 8) (VInt 4) (Some 3%float)).
  - vm_compute. reflexivity.
  - reflexivity.
Defined.

(** ** Planning a [torch_dist] load *)




(** ** Taking arguments from a checkpoint *)

Section LoadArgsFacts.

Context {V : Type} {PO : PyObject V}.
Variable dist : option Dist.
Variable read_common_state_dict : BaseCheckpoint -> M World (CommonStateDict V).

Lemma untouched_bind {A B} n (m : M (ArgsLoader V) A) (k : A -> M (ArgsLoader V) B) :
  untouched (V:=V) n m -> (forall a, untouched (V:=V) n (k a)) -> untouched (V:=V) n (Eff.bind m k).
Proof.
  intros Hm Hk s. unfold Eff.bind. specialize (Hm s).
  destruct (m s) as [[a| |e] s1]; cbn [snd] in Hm |- *; try exact Hm.
  now rewrite Hk.
Qed.

Lemma untouched_on_world {A} n (m : M World A) : untouched (V:=V) n (on_world m).
Proof. intros s. unfold on_world. now destruct (m (al_world s)). Qed.

Lemma untouched_ret {A} n (a : A) : untouched (V:=V) n (Eff.ret a).
Proof. now intros s. Qed.

Lemma untouched_raise {A} n (e : exn) : untouched (V:=V) n (Eff.raise (A := A) e).
Proof. now intros s. Qed.

Lemma untouched_get_args n : untouched (V:=V) n get_args.
Proof. now intros s. Qed.

Lemma untouched_getattr n (ns : gmap string V) name : untouched (V:=V) n (getattr ns name).
Proof. intros s. unfold getattr. now destruct (ns !! name). Qed.

Lemma untouched_set_arg_value n name (v : V) :
  n <> name -> untouched (V:=V) n (set_arg_value name v).
Proof.
  intros Hne s. unfold set_arg_value, setattr. cbn [snd al_args].
  now rewrite lookup_insert_ne by congruence.
Qed.

Lemma untouched_when n (c : bool) (m : M (ArgsLoader V) unit) :
  untouched (V:=V) n m -> untouched (V:=V) n (Eff.when c m).
Proof. intros Hm. unfold Eff.when. destruct c; [exact Hm | apply untouched_ret]. Qed.

Lemma untouched_set_arg n checkpoint_args name old force :
  n <> name -> untouched (V:=V) n (_set_arg dist checkpoint_args name old force).
Proof.
  intros Hne. unfold _set_arg.
  apply untouched_bind; [apply untouched_get_args|]. intros args.
  destruct (_ && _); [apply untouched_ret|].
  destruct (negb _); [|apply untouched_on_world].
  apply untouched_bind; [apply untouched_on_world|]. intros _.
  now apply untouched_set_arg_value.
Qed.

Lemma untouched_set_args n checkpoint_args calls :
  n ∉ (sa_name <$> calls) -> untouched (V:=V) n (set_args dist checkpoint_args calls).
Proof.
  induction calls as [|c calls IH]; intros Hn; cbn [set_args]; [apply untouched_ret|].
  rewrite fmap_cons, not_elem_of_cons in Hn. destruct Hn as [Hc Hn].
  apply untouched_bind; [now apply untouched_set_arg | intros _; now apply IH].
Qed.

Lemma untouched_keeps {A} n v (m : M (ArgsLoader V) A) : untouched (V:=V) n m -> keeps n v m.
Proof. intros Hm s Hs. now rewrite Hm. Qed.

Lemma keeps_bind {A B} n v (m : M (ArgsLoader V) A) (k : A -> M (ArgsLoader V) B) :
  keeps n v m -> (forall a, keeps n v (k a)) -> keeps n v (Eff.bind m k).
Proof.
  intros Hm Hk s Hs. unfold Eff.bind. specialize (Hm s Hs).
  destruct (m s) as [[a| |e] s1]; cbn [snd] in Hm |- *; try exact Hm.
  now apply Hk.
Qed.

Lemma keeps_set_arg n v checkpoint_args name old :
  py_is_none v = false -> keeps n v (_set_arg dist checkpoint_args name old false).
Proof.
  intros Hv. destruct (decide (n = name)) as [-> | Hne];
    [|apply untouched_keeps; now apply untouched_set_arg].
  intros s Hs. unfold _set_arg, Eff.bind, get_args. cbn [negb andb].
  unfold getattr_default. rewrite Hs. cbn [default from_option id]. rewrite Hv.
  exact Hs.
Qed.

Lemma keeps_set_args n v checkpoint_args calls :
  py_is_none v = false ->
  Forall (fun c => sa_name c = n -> sa_force c = false) calls ->
  keeps n v (set_args dist checkpoint_args calls).
Proof.
  intros Hv. induction 1 as [|c calls Hc _ IH]; cbn [set_args];
    [apply untouched_keeps, untouched_ret|].
  apply keeps_bind; [|intros _; exact IH].
  destruct (decide (sa_name c = n)) as [E | Hne].
  - rewrite (Hc E). now apply keeps_set_arg.
  - apply untouched_keeps. apply untouched_set_arg. congruence.
Qed.

Lemma keeps_when n v (c : bool) (m : M (ArgsLoader V) unit) :
  keeps n v m -> keeps n v (Eff.when c m).
Proof.
  intros Hm. unfold Eff.when. destruct c; [exact Hm | apply untouched_keeps, untouched_ret].
Qed.

Lemma plain_check n (calls : list SetArg) :
  forallb (fun c => negb (String.eqb (sa_name c) n) || negb (sa_force c)) calls = true ->
  Forall (fun c => sa_name c = n -> sa_force c = false) calls.
Proof.
  intros H. rewrite forallb_forall in H. apply List.Forall_forall. intros c Hc E.
  specialize (H c Hc). rewrite E, String.eqb_refl in H. cbn in H.
  now apply negb_true_iff in H.
Qed.

End LoadArgsFacts.

Ltac keeps_step :=
  lazymatch goal with
  | |- keeps _ _ (set_args _ _ _) =>
      apply keeps_set_args; [assumption | apply plain_check; vm_compute; reflexivity]
  | |- keeps _ _ (_set_arg _ _ _ _ false) => apply keeps_set_arg; assumption
  | |- keeps _ _ (_set_arg _ _ _ _ true) =>
      apply untouched_keeps, untouched_set_arg; discriminate
  | |- keeps _ _ (set_arg_value _ _) =>
      apply untouched_keeps, untouched_set_arg_value; discriminate
  | |- keeps _ _ (on_world _) => apply untouched_keeps, untouched_on_world
  | |- keeps _ _ (Eff.ret _) => apply untouched_keeps, untouched_ret
  | |- keeps _ _ (Eff.raise _) => apply untouched_keeps, untouched_raise
  | |- keeps _ _ get_args => apply untouched_keeps, untouched_get_args
  | |- keeps _ _ (getattr _ _) => apply untouched_keeps, untouched_getattr
  | |- keeps _ _ (Eff.when _ _) => apply keeps_when
  | |- keeps _ _ (Eff.bind _ _) => apply keeps_bind; [|intros ?]
  | |- keeps _ _ (match ?x with _ => _ end) => destruct x
  end.

(** X12.  An argument that [load_args_from_checkpoint] sets without
    [force] keeps the value it was given: if [num_layers], [hidden_size],
    [ffn_hidden_size], [seq_length], [num_attention_heads], [kv_channels],
    [max_position_embeddings], [padded_vocab_size], [ckpt_format] or
    [num_layers_per_virtual_pipeline_stage] is set (not [None]) in [args]
    before the call, it has the same value after it, whatever the checkpoint
    holds and however the call ends. *)
Theorem given_arguments_survive_load_args {V} {PO : PyObject V}
    (dist : option Dist)
    (read_common_state_dict : BaseCheckpoint -> M World (CommonStateDict V))
    (base_args : Args) (checkpointing_context : option CheckpointingContext)
    (n : string) (v : V) (s : ArgsLoader V) :
  In n set_unless_given ->
  al_args s !! n = Some v ->
  py_is_none v = false ->
  al_args (snd (load_args_from_checkpoint dist read_common_state_dict base_args
                  checkpointing_context s)) !! n = Some v.
Proof.
  intros Hn Hs Hv. revert s Hs. change (keeps n v (load_args_from_checkpoint dist
    read_common_state_dict base_args checkpointing_context)).
  unfold load_args_from_checkpoint.
  unfold set_unless_given in Hn. cbn [In] in Hn.
  repeat (destruct Hn as [<- | Hn]); [..|contradiction];
    repeat keeps_step.
Qed.


Section ForcedArgs.

Context {V : Type} {PO : PyObject V}.
Variable dist : option Dist.
Variable checkpoint_args : gmap string V.

Lemma forced_set_arg (n : string) (s : ArgsLoader V) :
  fst (_set_arg dist checkpoint_args n None true s) = Returns tt
  /\ al_args (snd (_set_arg dist checkpoint_args n None true s)) !! n
     = follow checkpoint_args n (al_args s !! n).
Proof.
  unfold _set_arg, Eff.bind, get_args, follow, provided, getattr_default.
  cbn [negb andb default from_option id].
  destruct (checkpoint_args !! n) as [v|]; cbn [from_option id].
  - destruct (py_is_none v); cbn [negb].
    + unfold on_world. destruct (print_rank_0_files dist
        ("Checkpoint did not provide arguments " +:+ n) (al_world s)) as (Hr & _).
      destruct (print_rank_0 dist _ (al_world s)) as [o w]. cbn [fst] in Hr. subst o.
      split; reflexivity.
    + unfold on_world.
      match goal with |- context [print_rank_0 dist ?m (al_world s)] =>
        destruct (print_rank_0_files dist m (al_world s)) as (Hr & _);
        destruct (print_rank_0 dist m (al_world s)) as [o w] end.
      cbn [fst] in Hr. subst o. unfold set_arg_value, setattr. cbn [fst snd al_args].
      split; [reflexivity | apply lookup_insert_eq].
  - rewrite py_none_is_none. cbn [negb].
    unfold on_world. destruct (print_rank_0_files dist
      ("Checkpoint did not provide arguments " +:+ n) (al_world s)) as (Hr & _).
    destruct (print_rank_0 dist _ (al_world s)) as [o w]. cbn [fst] in Hr. subst o.
    split; reflexivity.
Qed.

Lemma set_arg_returns name old force (s : ArgsLoader V) :
  fst (_set_arg dist checkpoint_args name old force s) = Returns tt.
Proof.
  unfold _set_arg, Eff.bind, get_args.
  destruct (_ && _); [reflexivity|].
  destruct (negb _); unfold on_world;
    match goal with |- context [print_rank_0 dist ?m (al_world s)] =>
      destruct (print_rank_0_files dist m (al_world s)) as (Hr & _);
      destruct (print_rank_0 dist m (al_world s)) as [o w] end;
    cbn [fst] in Hr; subst o; reflexivity.
Qed.

Lemma set_args_returns calls (s : ArgsLoader V) :
  fst (set_args dist checkpoint_args calls s) = Returns tt.
Proof.
  revert s. induction calls as [|c calls IH]; intros s; [reflexivity|].
  cbn [set_args]. unfold Eff.bind.
  pose proof (set_arg_returns (sa_name c) (sa_old_name c) (sa_force c) s) as Hc.
  destruct (_set_arg _ _ _ _ _ s) as [o s1]. cbn [fst] in Hc. subst o. apply IH.
Qed.

Lemma set_args_follow calls (n : string) (s : ArgsLoader V) :
  NoDup (sa_name <$> calls) -> forced n ∈ calls ->
  al_args (snd (set_args dist checkpoint_args calls s)) !! n = follow checkpoint_args n (al_args s !! n).
Proof.
  revert s. induction calls as [|c calls IH]; intros s Hnd Hin; [inversion Hin|].
  rewrite fmap_cons in Hnd. apply NoDup_cons in Hnd as [Hc Hnd].
  cbn [set_args]. unfold Eff.bind.
  pose proof (set_arg_returns (sa_name c) (sa_old_name c) (sa_force c) s) as Hret.
  apply elem_of_cons in Hin as [<- | Hin].
  - cbn [sa_name sa_old_name sa_force forced] in *.
    destruct (forced_set_arg n s) as [_ Hset].
    destruct (_set_arg dist checkpoint_args n None true s) as [o s1].
    cbn [fst snd] in *. subst o.
    rewrite <- Hset. apply (untouched_set_args dist n checkpoint_args calls Hc s1).
  - assert (Hne : n <> sa_name c).
    { intros ->. apply Hc. apply list_elem_of_fmap. now exists (forced (sa_name c)). }
    pose proof (untouched_set_arg dist n checkpoint_args (sa_name c) (sa_old_name c)
                  (sa_force c) Hne s) as Hun.
    destruct (_set_arg _ _ _ _ _ s) as [o s1]. cbn [fst snd] in *. subst o.
    rewrite <- Hun. now apply IH.
Qed.

End ForcedArgs.

Lemma on_world_args {V A} (m : M World A) (s s1 : ArgsLoader V) (o : outcome A) :
  on_world m s = (o, s1) -> al_args s1 = al_args s.
Proof. unfold on_world. destruct (m (al_world s)). now intros [= _ <-]. Qed.

Ltac not_in_names := apply (bool_decide_unpack _); vm_compute; exact I.
Ltac in_calls := repeat first [apply list_elem_of_here | apply list_elem_of_further].

(** X13.  When [load_args_from_checkpoint] returns the pair
    [(args, checkpoint_args)]: every argument that it sets with [force]
    (the model, mixture-of-experts, Mamba, heterogeneous and tokenizer
    arguments so marked) has the value that the returned [checkpoint_args]
    provide for it, and its former value when they provide none;
    [args.iteration] is set; and [args.moe_ffn_hidden_size] is [None] when
    the checkpoint provides no [num_experts]. *)
Theorem forced_arguments_follow_the_checkpoint {V} {PO : PyObject V}
    (dist : option Dist)
    (read_common_state_dict : BaseCheckpoint -> M World (CommonStateDict V))
    (base_args : Args) (checkpointing_context : option CheckpointingContext)
    (s s' : ArgsLoader V) (checkpoint_args : gmap string V) :
  load_args_from_checkpoint dist read_common_state_dict base_args checkpointing_context s
  = (Returns (ArgsAndCheckpointArgs checkpoint_args), s') ->
  (forall n, In n always_forced ->
     al_args s' !! n = follow checkpoint_args n (al_args s !! n))
  /\ is_Some (al_args s' !! "iteration")
  /\ (provided checkpoint_args "num_experts" = None ->
      al_args s' !! "moe_ffn_hidden_size" = Some py_none).
Proof.
  unfold load_args_from_checkpoint. intros H.
  destruct (load base_args) as [load_dir|];
    [|step H as u s1 Hs; discriminate H].
  step H as base s1 Hs. apply on_world_args in Hs as Hs1.
  step H as state_dict s2 Hs2.
  assert (al_args s2 = al_args s) as Hargs2.
  { rewrite <- Hs1. destruct base; try (now injection Hs2 as _ <-);
      step Hs2 as sd s3 Hs3; apply on_world_args in Hs3; now injection Hs2 as _ <-. }
  clear Hs Hs1 Hs2 s1.
  destruct state_dict as [state_dict|]; [|step H as u s1 Hs; discriminate H].
  destruct (csd_empty state_dict); [step H as u s1 Hs; discriminate H|].
  destruct (csd_args state_dict) as [checkpoint_args0|];
    [|step H as u s1 Hs; discriminate H].
  step H as iteration s3 Hs.
  assert (s3 = s2) as ->.
  { destruct (csd_iteration state_dict); [now injection Hs as _ <- | discriminate Hs]. }
  clear Hs.
  step H as u s4 Hs4.
  set (converted := match checkpoint_args0 !! "disable_bias_linear" with
                    | Some _ => _ | None => _ end) in H.
  step H as u s5 Hs5. step H as u s6 Hs6. step H as u s7 Hs7.
  step H as args7 s7' Hs. injection Hs as <- <-.
  step H as use_tokenizer_model s7' Hs. apply getattr_returns in Hs as [_ ->].
  step H as u s8 Hs8. step H as u s9 Hs9.
  step H as args9 s9' Hs. injection Hs as <- <-.
  step H as use_mp_args s9' Hs. apply getattr_returns in Hs as [_ ->].
  step H as u s10 Hs10. injection H as <- <-.
  (* what each step does to an attribute *)
  assert (F4 : al_args s4 = <["iteration" := iteration]> (al_args s)).
  { injection Hs4 as <-. cbn [al_args]. unfold setattr. now rewrite Hargs2. }
  assert (F5 : forall n, n ∉ (sa_name <$> model_args) ->
                         al_args s5 !! n = al_args s4 !! n).
  { intros n Hn. pose proof (untouched_set_args dist n converted model_args Hn s4) as U.
    now rewrite Hs5 in U. }
  assert (G5 : forall n, forced n ∈ model_args ->
                         al_args s5 !! n = follow converted n (al_args s4 !! n)).
  { intros n Hn.
    pose proof (set_args_follow dist converted model_args n s4 ltac:(not_in_names) Hn) as U.
    now rewrite Hs5 in U. }
  assert (F6 : forall n, n <> "moe_ffn_hidden_size" -> al_args s6 !! n = al_args s5 !! n).
  { intros n Hn. destruct (negb _).
    - pose proof (untouched_set_arg dist n converted "moe_ffn_hidden_size" None true Hn s5)
        as U. now rewrite Hs6 in U.
    - pose proof (untouched_set_arg_value n "moe_ffn_hidden_size" py_none Hn s5) as U.
      now rewrite Hs6 in U. }
  assert (G6 : provided converted "num_experts" = None ->
               al_args s6 !! "moe_ffn_hidden_size" = Some py_none).
  { intros Hp.
    assert (py_is_none (getattr_default converted "num_experts" py_none) = true) as Hnone.
    { unfold provided in Hp. unfold getattr_default.
      destruct (converted !! "num_experts") as [v|]; cbn [default from_option id];
        [|apply py_none_is_none].
      destruct (py_is_none v); [reflexivity | discriminate Hp]. }
    rewrite Hnone in Hs6. cbn [negb] in Hs6. injection Hs6 as <-.
    cbn [al_args]. apply lookup_insert_eq. }
  assert (F7 : forall n, n ∉ (sa_name <$> expert_to_tokenizer_args) ->
                         al_args s7 !! n = al_args s6 !! n).
  { intros n Hn.
    pose proof (untouched_set_args dist n converted expert_to_tokenizer_args Hn s6) as U.
    now rewrite Hs7 in U. }
  assert (G7 : forall n, forced n ∈ expert_to_tokenizer_args ->
                         al_args s7 !! n = follow converted n (al_args s6 !! n)).
  { intros n Hn.
    pose proof (set_args_follow dist converted expert_to_tokenizer_args n s6
                  ltac:(not_in_names) Hn) as U.
    now rewrite Hs7 in U. }
  assert (F8 : forall n, n <> "tokenizer_model" -> al_args s8 !! n = al_args s7 !! n).
  { intros n Hn.
    pose proof (untouched_when n (py_truthy use_tokenizer_model) _
                  (untouched_set_arg dist n converted "tokenizer_model" None true Hn) s7) as U.
    now rewrite Hs8 in U. }
  assert (F9 : forall n, n ∉ (sa_name <$> tokenizer_to_checkpoint_args) ->
                         al_args s9 !! n = al_args s8 !! n).
  { intros n Hn.
    pose proof (untouched_set_args dist n converted tokenizer_to_checkpoint_args Hn s8) as U.
    now rewrite Hs9 in U. }
  assert (G9 : forall n, forced n ∈ tokenizer_to_checkpoint_args ->
                         al_args s9 !! n = follow converted n (al_args s8 !! n)).
  { intros n Hn.
    pose proof (set_args_follow dist converted tokenizer_to_checkpoint_args n s8
                  ltac:(not_in_names) Hn) as U.
    now rewrite Hs9 in U. }
  assert (F10 : forall n, n ∉ (sa_name <$> model_parallelism_args) ->
                          al_args s10 !! n = al_args s9 !! n).
  { intros n Hn.
    assert (U : untouched (V:=V) n
                  (Eff.when (py_truthy use_mp_args)
                     (if PrimFloat.ltb (default 0%float (csd_checkpoint_version state_dict)) 3
                      then _set_arg dist converted "tensor_model_parallel_size"
                             (Some "model_parallel_size") false
                      else set_args dist converted model_parallelism_args))).
    { apply untouched_when. destruct (PrimFloat.ltb _ _).
      - apply untouched_set_arg. intros ->. apply Hn. in_calls.
      - now apply untouched_set_args. }
    specialize (U s9). now rewrite Hs10 in U. }
  clear Hs4 Hs5 Hs6 Hs7 Hs8 Hs9 Hs10.
  split; [|split].
  - intros n Hn. vm_compute in Hn.
    repeat (destruct Hn as [<- | Hn]); [..|contradiction];
      (rewrite F10 by not_in_names;
       first [rewrite G9 by in_calls | rewrite F9 by not_in_names];
       rewrite F8 by discriminate;
       first [rewrite G7 by in_calls | rewrite F7 by not_in_names];
       rewrite F6 by discriminate;
       first [rewrite G5 by in_calls | rewrite F5 by not_in_names];
       rewrite F4, lookup_insert_ne by discriminate; reflexivity).
  - exists iteration.
    rewrite F10, F9 by not_in_names. rewrite F8 by discriminate.
    rewrite F7 by not_in_names. rewrite F6 by discriminate.
    rewrite F5 by not_in_names. rewrite F4. apply lookup_insert_eq.
  - intros Hp.
    rewrite F10, F9 by not_in_names. rewrite F8 by discriminate.
    rewrite F7 by not_in_names. now apply G6.
Qed.

Lemma forced_arguments_follow_the_checkpoint_witness :
  is_Some
    (al_args
       (snd (load_args_from_checkpoint None (reader_with (checkpoint_of (small_args 12 4 true)))
               (run_args None None false false false 1 1 1) None
               (loader_at "5" (args_for_loading 24)))) !! "iteration").
Proof.
  set (run := load_args_from_checkpoint None
                (reader_with (checkpoint_of (small_args 12 4 true)))
                (run_args None None false false false 1 1 1) None
                (loader_at "5" (args_for_loading 24))).
  assert (Hf : fst run = Returns (ArgsAndCheckpointArgs (small_args 12 4 true)))
    by (vm_compute; reflexivity).
  apply (forced_arguments_follow_the_checkpoint None
           (reader_with (checkpoint_of (small_args 12 4 true)))
           (run_args None None false false false 1 1 1) None
           (loader_at "5" (args_for_loading 24)) (snd run) (small_args 12 4 true)).
  fold run. rewrite <- Hf. now destruct run.
Defined.

Lemma given_arguments_survive_load_args_witness :
  al_args
    (snd (load_args_from_checkpoint None (reader_with (checkpoint_of (small_args 12 4 true)))
            (run_args None None false false false 1 1 1) None
            (loader_at "5" (small_args 24 2 true)))) !! "num_layers"
  = Some (VInt 24).
Proof.
  apply (given_arguments_survive_load_args None
           (reader_with (checkpoint_of (small_args 12 4 true)))
           (run_args None None false false false 1 1 1) None "num_layers" (VInt 24)
           (loader_at "5" (small_args 24 2 true))).
  - left. reflexivity.
  - vm_compute. reflexivity.
  - reflexivity.
Defined.

(** X14.  When [load_args_from_checkpoint] returns [args] alone (no load
    directory, no checkpoint found, or a checkpoint without saved
    arguments), it has not changed any attribute of [args]. *)
Theorem load_args_alone_changes_nothing {V} {PO : PyObject V}
    (dist : option Dist)
    (read_common_state_dict : BaseCheckpoint -> M World (CommonStateDict V))
    (base_args : Args) (checkpointing_context : option CheckpointingContext)
    (s s' : ArgsLoader V) :
  load_args_from_checkpoint dist read_common_state_dict base_args checkpointing_context s
  = (Returns ArgsAlone, s') ->
  al_args s' = al_args s.
Proof.
  unfold load_args_from_checkpoint. intros H.
  assert (Hprint : forall msg (s1 : ArgsLoader V),
             (on_world (print_rank_0 dist msg) ;; ret (@ArgsAlone V)) s1
             = (Returns ArgsAlone, s') ->
             al_args s' = al_args s1).
  { intros msg s1 E. step E as u s2 Hs. apply on_world_args in Hs.
    injection E as <-. exact Hs. }
  destruct (load base_args) as [load_dir|]; [|now apply Hprint in H].
  step H as base s1 Hs. apply on_world_args in Hs as Hs1.
  step H as state_dict s2 Hs2.
  assert (al_args s2 = al_args s) as Hargs2.
  { rewrite <- Hs1. destruct base; try (now injection Hs2 as _ <-);
      step Hs2 as sd s3 Hs3; apply on_world_args in Hs3; now injection Hs2 as _ <-. }
  rewrite <- Hargs2.
  destruct state_dict as [state_dict|]; [|now apply Hprint in H].
  destruct (csd_empty state_dict); [now apply Hprint in H|].
  destruct (csd_args state_dict) as [checkpoint_args0|]; [|now apply Hprint in H].
  exfalso.
  repeat (apply bind_returns in H as (? & ? & _ & H)).
  discriminate H.
Qed.

Lemma load_args_alone_changes_nothing_witness :
  al_args
    (snd (load_args_from_checkpoint None (reader_with (checkpoint_of (small_args 12 4 true)))
            (run_args None None false false false 1 1 1) None
            {| al_world := empty_world; al_args := small_args 24 2 true |}))
  = small_args 24 2 true.
Proof.
  set (run := load_args_from_checkpoint None
                (reader_with (checkpoint_of (small_args 12 4 true)))
                (run_args None None false false false 1 1 1) None
                {| al_world := empty_world; al_args := small_args 24 2 true |}).
  assert (Hf : fst run = Returns ArgsAlone) by (vm_compute; reflexivity).
  apply (load_args_alone_changes_nothing None
           (reader_with (checkpoint_of (small_args 12 4 true)))
           (run_args None None false false false 1 1 1) None
           {| al_world := empty_world; al_args := small_args 24 2 true |} (snd run)).
  fold run. rewrite <- Hf. now destruct run.
Defined.
(** ** The ordering of query, key and value rows *)

Section TensorFacts.

Local Open Scope nat_scope.

Context {X : Type}.
Implicit Types (t : list X) (m : list (list X)).

Lemma view_lookup d0 d1 t i :
  (i < d0)%nat -> Tensor.view d0 d1 t !! i = Some (take d1 (drop (i * d1) t)).
Proof.
  intros Hi. unfold Tensor.view. rewrite list_lookup_fmap, lookup_seq_lt by exact Hi.
  reflexivity.
Qed.

Lemma view_length d0 d1 t : length (Tensor.view d0 d1 t) = d0.
Proof. unfold Tensor.view. now rewrite length_fmap, length_seq. Qed.

Lemma block_lookup d1 t i j :
  (j < d1)%nat -> take d1 (drop (i * d1) t) !! j = t !! (i * d1 + j)%nat.
Proof. intros Hj. rewrite lookup_take_lt by exact Hj. now rewrite lookup_drop. Qed.

Lemma block_length d0 d1 t i :
  length t = (d0 * d1)%nat -> (i < d0)%nat -> length (take d1 (drop (i * d1) t)) = d1.
Proof. intros Ht Hi. rewrite length_take, length_drop. nia. Qed.

Lemma view_blocks d0 d1 t :
  length t = (d0 * d1)%nat -> Forall (fun b => length b = d1) (Tensor.view d0 d1 t).
Proof.
  intros Ht. apply Forall_lookup. intros i b Hb.
  assert (Hi : (i < d0)%nat).
  { apply lookup_lt_Some in Hb. now rewrite view_length in Hb. }
  rewrite view_lookup in Hb by exact Hi. injection Hb as <-.
  now apply (block_length d0).
Qed.

Lemma concat_lookup_uniform c m i j :
  Forall (fun b => length b = c) m -> (j < c)%nat ->
  concat m !! (i * c + j)%nat = m !! i ≫= (fun b => b !! j).
Proof.
  intros Hm Hj. revert i. induction Hm as [|b m Hb _ IH]; intros i; [reflexivity|].
  cbn [concat]. destruct i as [|i].
  - cbn. rewrite lookup_app_l by lia. reflexivity.
  - rewrite lookup_app_r by (rewrite Hb; nia).
    replace (S i * c + j - length b)%nat with (i * c + j)%nat by (rewrite Hb; nia).
    apply IH.
Qed.

Lemma concat_length_uniform c m :
  Forall (fun b => length b = c) m -> length (concat m) = (length m * c)%nat.
Proof. induction 1 as [|b m Hb _ IH]; [reflexivity|]. cbn. rewrite length_app. lia. Qed.

Lemma view_flatten d0 d1 t :
  length t = (d0 * d1)%nat -> Tensor.flatten (Tensor.view d0 d1 t) = t.
Proof.
  intros Ht. apply list_eq. intros n. unfold Tensor.flatten.
  assert (Hlen : length (concat (Tensor.view d0 d1 t)) = d0 * d1).
  { rewrite (concat_length_uniform d1) by (auto using view_blocks).
    now rewrite view_length. }
  destruct (decide (d1 = 0)) as [-> | Hd1].
  { rewrite !lookup_ge_None_2; [reflexivity | lia | lia]. }
  destruct (decide (n < d0 * d1)%nat) as [Hn | Hn].
  - rewrite (Nat.div_mod_eq n d1), (Nat.mul_comm d1).
    assert (Hj : (n mod d1 < d1)%nat) by (apply Nat.mod_upper_bound; exact Hd1).
    assert (Hi : (n / d1 < d0)%nat) by (apply Nat.Div0.div_lt_upper_bound; lia).
    rewrite (concat_lookup_uniform d1) by (auto using view_blocks).
    rewrite view_lookup by exact Hi. cbn. now apply block_lookup.
  - rewrite !lookup_ge_None_2; [reflexivity | lia | lia].
Qed.

Lemma omap_lookup_total {Y Z} (f : Y -> option Z) (l : list Y) i :
  Forall (fun y => is_Some (f y)) l -> omap f l !! i = l !! i ≫= f.
Proof.
  intros Hl. revert i. induction Hl as [|y l [z Hz] _ IH]; intros i; [reflexivity|].
  cbn. rewrite Hz. destruct i; cbn; [now rewrite Hz | apply IH].
Qed.

Lemma omap_length_total {Y Z} (f : Y -> option Z) (l : list Y) :
  Forall (fun y => is_Some (f y)) l -> length (omap f l) = length l.
Proof.
  induction 1 as [|y l [z Hz] _ IH]; [reflexivity|]. cbn. rewrite Hz. cbn. now rewrite IH.
Qed.

Lemma column_defined d1 m j :
  Forall (fun b => length b = d1) m -> (j < d1)%nat ->
  Forall (fun b => is_Some (b !! j)) m.
Proof.
  intros Hm Hj. eapply Forall_impl; [exact Hm|]. intros b Hb.
  cbv beta in Hb. apply lookup_lt_is_Some. lia.
Qed.

(** Entry [i] of block [j] of the transpose is entry [j] of block [i]. *)
Lemma transpose_lookup d0 d1 m i j :
  Forall (fun b => length b = d1) m -> (j < d1)%nat ->
  Tensor.transpose d0 d1 m !! j ≫= (fun col => col !! i) = m !! i ≫= (fun b => b !! j).
Proof.
  intros Hm Hj. unfold Tensor.transpose.
  rewrite list_lookup_fmap, lookup_seq_lt by exact Hj. cbn.
  apply omap_lookup_total. now apply (column_defined d1).
Qed.

Lemma transpose_length d0 d1 m : length (Tensor.transpose d0 d1 m) = d1.
Proof. unfold Tensor.transpose. now rewrite length_fmap, length_seq. Qed.

Lemma transpose_blocks d0 d1 m :
  Forall (fun b => length b = d1) m ->
  Forall (fun col => length col = length m) (Tensor.transpose d0 d1 m).
Proof.
  intros Hm. apply Forall_lookup. intros j col Hcol.
  unfold Tensor.transpose in Hcol. rewrite list_lookup_fmap in Hcol.
  destruct (seq 0 d1 !! j) as [j'|] eqn:Hj; [|discriminate].
  apply lookup_seq in Hj as [-> Hj]. cbn in Hcol. injection Hcol as <-.
  apply omap_length_total. now apply (column_defined d1).
Qed.

End TensorFacts.

Section TransposeFacts.

Local Open Scope nat_scope.

Context {X : Type}.
Implicit Types (t : list X) (m : list (list X)).

Lemma transpose_columns (b : list X) m a n :
  a + n <= length b ->
  concat ((fun j => omap (fun block => block !! j) (b :: m)) <$> seq a n)
  ≡ₚ take n (drop a b) ++ concat ((fun j => omap (fun block => block !! j) m) <$> seq a n).
Proof.
  revert a. induction n as [|n IH]; intros a Ha; [reflexivity|].
  cbn [seq fmap list_fmap concat omap list_omap].
  destruct (lookup_lt_is_Some_2 b a ltac:(lia)) as [x Hx].
  rewrite Hx. rewrite IH by lia.
  rewrite (drop_S b x a Hx). cbn [take app].
  constructor.
  rewrite !app_assoc. apply Permutation_app_tail, Permutation_app_comm.
Qed.

Lemma transpose_permutation d0 d1 m :
  Forall (fun b => length b = d1) m ->
  Tensor.flatten (Tensor.transpose d0 d1 m) ≡ₚ Tensor.flatten m.
Proof.
  unfold Tensor.flatten, Tensor.transpose.
  induction 1 as [|b m Hb _ IH].
  - cbn. generalize 0. induction d1 as [|d1 IHd]; intros a; [reflexivity|].
    cbn. apply IHd.
  - rewrite transpose_columns by lia. cbn [concat].
    rewrite drop_0, take_ge by lia. now rewrite IH.
Qed.

Lemma concat_fmap_permutation (G : list X -> list X) (groups : list (list X)) :
  Forall (fun g => G g ≡ₚ g) groups -> concat (G <$> groups) ≡ₚ concat groups.
Proof. induction 1 as [|g groups Hg _ IH]; [reflexivity|]. cbn. now rewrite Hg, IH. Qed.

End TransposeFacts.

Section TransposeFirstDim.

Local Open Scope nat_scope.

Context {A : Type}.
Variables hn np : nat.

Lemma transpose_splits_first (t : list A) (s : nat) :
  length t = s * np * hn ->
  let t' := Tensor.flatten (Tensor.flatten
              (Tensor.transpose s np (Tensor.view s np (Tensor.view (s * np) hn t)))) in
  length t' = length t /\ t' ≡ₚ t
  /\ forall k p j, k < s -> p < np -> j < hn ->
       t' !! ((p * s + k) * hn + j) = t !! ((k * np + p) * hn + j).
Proof.
  intros Ht.
  set (B := Tensor.view (s * np) hn t).
  assert (HB : Forall (fun b => length b = hn) B) by (apply view_blocks; lia).
  assert (HBlen : length B = s * np) by apply view_length.
  set (V := Tensor.view s np B).
  assert (HV : Forall (fun b => length b = np) V) by (apply view_blocks; lia).
  set (T := Tensor.transpose s np V).
  assert (HT : Forall (fun col => length col = s) T).
  { pose proof (transpose_blocks s np V HV) as H.
    assert (HVlen : length V = s) by apply view_length.
    now rewrite HVlen in H. }
  assert (Hentry : forall k p, k < s -> p < np ->
             Tensor.flatten T !! (p * s + k) = Some (take hn (drop ((k * np + p) * hn) t))).
  { intros k p Hk Hp. unfold Tensor.flatten.
    rewrite (concat_lookup_uniform s) by assumption.
    unfold T. rewrite (transpose_lookup s np V k p HV Hp).
    unfold V. rewrite view_lookup by exact Hk. cbn.
    rewrite block_lookup by exact Hp.
    unfold B. apply view_lookup. nia. }
  assert (Hperm : Tensor.flatten T ≡ₚ B).
  { unfold T. rewrite transpose_permutation by exact HV.
    unfold V. apply (f_equal (fun l => l)), view_flatten in HBlen as Hflat.
    now rewrite Hflat. }
  assert (HF : Forall (fun b => length b = hn) (Tensor.flatten T)).
  { now rewrite Hperm. }
  cbv zeta. fold B V T. split; [|split].
  - unfold Tensor.flatten at 1. rewrite (concat_length_uniform hn) by exact HF.
    rewrite Hperm, HBlen. lia.
  - unfold Tensor.flatten at 1. rewrite Hperm.
    unfold B. fold (Tensor.flatten (Tensor.view (s * np) hn t)).
    rewrite view_flatten by lia. reflexivity.
  - intros k p j Hk Hp Hj. unfold Tensor.flatten at 1.
    rewrite (concat_lookup_uniform hn) by assumption.
    rewrite Hentry by assumption. cbn. now apply block_lookup.
Qed.

Lemma transpose_splits_last (t : list A) (s : nat) :
  length t = np * hn * s ->
  let t' := Tensor.flatten
              (Tensor.flatten <$>
                 (Tensor.transpose hn s <$>
                    (Tensor.view hn s <$> Tensor.view np (hn * s) t))) in
  length t' = length t /\ t' ≡ₚ t
  /\ forall k p j, k < s -> p < np -> j < hn ->
       t' !! ((p * s + k) * hn + j) = t !! ((p * hn + j) * s + k).
Proof.
  intros Ht.
  set (groups := Tensor.view np (hn * s) t).
  assert (Hgroups : Forall (fun g => length g = hn * s) groups) by (apply view_blocks; lia).
  set (G := fun g : list A => Tensor.flatten (Tensor.transpose hn s (Tensor.view hn s g))).
  assert (Hmap : Tensor.flatten <$> (Tensor.transpose hn s <$> (Tensor.view hn s <$> groups))
                 = G <$> groups).
  { rewrite <- !list_fmap_compose. reflexivity. }
  assert (HG : forall g, length g = hn * s ->
             length (G g) = s * hn /\ G g ≡ₚ g
             /\ forall k j, k < s -> j < hn -> G g !! (k * hn + j) = g !! (j * s + k)).
  { intros g Hg. unfold G.
    assert (HV : Forall (fun b => length b = s) (Tensor.view hn s g))
      by (apply view_blocks; lia).
    assert (HT : Forall (fun col => length col = hn)
                   (Tensor.transpose hn s (Tensor.view hn s g))).
    { pose proof (transpose_blocks hn s _ HV) as H. now rewrite view_length in H. }
    split; [|split].
    - unfold Tensor.flatten. rewrite (concat_length_uniform hn) by exact HT.
      now rewrite transpose_length.
    - rewrite transpose_permutation by exact HV. now rewrite view_flatten.
    - intros k j Hk Hj. unfold Tensor.flatten.
      rewrite (concat_lookup_uniform hn) by assumption.
      rewrite (transpose_lookup hn s _ j k HV Hk).
      rewrite view_lookup by exact Hj. cbn. now apply block_lookup. }
  cbv zeta. fold groups. rewrite Hmap.
  assert (HGs : Forall (fun b => length b = s * hn) (G <$> groups)).
  { apply Forall_fmap. eapply Forall_impl; [exact Hgroups|]. intros g Hg. now apply HG. }
  split; [|split].
  - unfold Tensor.flatten at 1. rewrite (concat_length_uniform (s * hn)) by exact HGs.
    rewrite length_fmap. unfold groups. rewrite view_length. lia.
  - unfold Tensor.flatten at 1. rewrite concat_fmap_permutation.
    + fold (Tensor.flatten groups). unfold groups. now rewrite view_flatten by lia.
    + eapply Forall_impl; [exact Hgroups|]. intros g Hg. now apply HG.
  - intros k p j Hk Hp Hj. unfold Tensor.flatten at 1.
    replace ((p * s + k) * hn + j) with (p * (s * hn) + (k * hn + j)) by lia.
    rewrite (concat_lookup_uniform (s * hn)) by (assumption || nia).
    rewrite list_lookup_fmap. unfold groups. rewrite view_lookup by exact Hp. cbn.
    destruct (HG (take (hn * s) (drop (p * (hn * s)) t))) as (_ & _ & Hlook).
    { apply (block_length np); lia. }
    rewrite Hlook by assumption.
    rewrite block_lookup by nia. f_equal. lia.
Qed.

End TransposeFirstDim.

Lemma transpose_first_dim_returns {A S : Type} (hn np : nat) (t : list A)
    (num_splits : nat) (num_splits_first : bool) (st : S) :
  length t = (num_splits * np * hn)%nat ->
  exists t',
    _transpose_first_dim hn np t num_splits num_splits_first st = (Returns t', st)
    /\ length t' = length t /\ t' ≡ₚ t
    /\ forall k p j, (k < num_splits)%nat -> (p < np)%nat -> (j < hn)%nat ->
         t' !! ((p * num_splits + k) * hn + j)%nat
         = t !! (if num_splits_first then (k * np + p) * hn + j
                 else (p * hn + j) * num_splits + k)%nat.
Proof.
  intros Ht. unfold _transpose_first_dim. destruct num_splits_first.
  - rewrite (proj2 (Nat.eqb_eq _ _) Ht). cbn [negb].
    eexists. split; [reflexivity|]. now apply transpose_splits_first.
  - assert (Ht' : length t = (np * hn * num_splits)%nat) by lia.
    rewrite (proj2 (Nat.eqb_eq _ _) Ht'). cbn [negb].
    eexists. split; [reflexivity|]. now apply transpose_splits_last.
Qed.

(** X15.  [_transpose_first_dim] on a tensor of [num_splits * np * hn] rows
    returns a tensor of as many rows that is a rearrangement of them: with
    rows numbered by split [k], head [p] and position [j], row
    [(p * num_splits + k) * hn + j] of the result is row
    [(k * np + p) * hn + j] of the input when the splits came first, and row
    [(p * hn + j) * num_splits + k] when they came last. *)
Theorem transpose_first_dim_rearranges_rows {A S : Type} (hn np : nat) (t : list A)
    (num_splits : nat) (num_splits_first : bool) (st : S) :
  length t = (num_splits * np * hn)%nat ->
  exists t',
    _transpose_first_dim hn np t num_splits num_splits_first st = (Returns t', st)
    /\ length t' = length t /\ t' ≡ₚ t
    /\ forall k p j, (k < num_splits)%nat -> (p < np)%nat -> (j < hn)%nat ->
         t' !! ((p * num_splits + k) * hn + j)%nat
         = t !! (if num_splits_first then (k * np + p) * hn + j
                 else (p * hn + j) * num_splits + k)%nat.
Proof. apply transpose_first_dim_returns. Qed.

Lemma transpose_first_dim_rearranges_rows_witness :
  exists t',
    _transpose_first_dim 1 2 [10; 11; 20; 21; 30; 31]%Z 3 true tt = (Returns t', tt)
    /\ length t' = 6%nat /\ t' ≡ₚ [10; 11; 20; 21; 30; 31]%Z
    /\ forall k p j, (k < 3)%nat -> (p < 2)%nat -> (j < 1)%nat ->
         t' !! ((p * 3 + k) * 1 + j)%nat
         = [10; 11; 20; 21; 30; 31]%Z !! ((k * 2 + p) * 1 + j)%nat.
Proof.
  apply (transpose_first_dim_rearranges_rows 1 2 [10; 11; 20; 21; 30; 31]%Z 3 true tt).
  reflexivity.
Defined.

Example transpose_first_dim_ex :
  _transpose_first_dim 1 2 [10; 11; 20; 21; 30; 31]%Z 3 true tt
  = (Returns [10; 20; 30; 11; 21; 31]%Z, tt)
  /\ _transpose_first_dim 2 1 [1; 2; 3; 4; 5; 6]%Z 3 false tt
     = (Returns [1; 4; 2; 5; 3; 6]%Z, tt)
  /\ _transpose_first_dim 1 2 [10; 11; 20; 21; 30]%Z 3 true tt
     = (Raises (RuntimeError INVALID_SHAPE), tt).
Proof. repeat split; reflexivity. Qed.

(** ** Which parameters are fixed *)

Lemma endswith_spec (suffix name : string) :
  endswith suffix name = true <-> exists prefix, name = prefix +:+ suffix.
Proof.
  induction name as [|c name IH]; cbn [endswith].
  - rewrite String.eqb_eq. split.
    + intros ->. now exists "".
    + intros [[|] E]; [exact (eq_sym E) | discriminate E].
  - rewrite orb_true_iff, String.eqb_eq, IH. split.
    + intros [-> | [prefix ->]]; [now exists "" | now exists (String c prefix)].
    + intros [[|d prefix] E]; [left; exact (eq_sym E)|].
      right. exists prefix. now injection E.
Qed.

Lemma common_suffix (p q u v : string) :
  p +:+ u = q +:+ v -> (String.length v <= String.length u)%nat ->
  exists r, u = r +:+ v.
Proof.
  revert q. induction p as [|c p IH]; intros q E Hlen.
  - now exists q.
  - destruct q as [|d q].
    + apply (f_equal String.length) in E. cbn in E. rewrite length_app_str in E. lia.
    + injection E as _ E. now apply (IH q).
Qed.

(** A name that ends with two suffixes: the longer ends with the shorter. *)
Lemma endswith_both (u v name : string) :
  endswith u name = true -> endswith v name = true ->
  (String.length v <= String.length u)%nat -> endswith v u = true.
Proof.
  intros [p ->]%endswith_spec [q E]%endswith_spec Hlen.
  apply endswith_spec. now apply (common_suffix p q).
Qed.

Lemma suffix_tests_exclusive (name : string) :
  is_query_key_value name = true -> is_key_value name = false.
Proof.
  unfold is_query_key_value, is_key_value. intros H.
  apply orb_true_iff in H. apply orb_false_iff.
  split; apply not_true_is_false; intros Hkv;
    destruct H as [H | H];
    pose proof (endswith_both _ _ _ H Hkv ltac:(cbn; lia)) as Hboth;
    discriminate Hboth.
Qed.

(** X16.  No parameter is fixed twice: a name that ends with
    [.query_key_value.weight] or [.query_key_value.bias] ends neither with
    [.key_value.weight] nor with [.key_value.bias]. *)
Theorem query_key_value_is_not_key_value (name : string) :
  is_query_key_value name = true -> is_key_value name = false.
Proof. apply suffix_tests_exclusive. Qed.

Lemma query_key_value_is_not_key_value_witness :
  is_key_value "encoder.layers.0.self_attention.query_key_value.weight" = false.
Proof.
  apply (query_key_value_is_not_key_value
           "encoder.layers.0.self_attention.query_key_value.weight").
  reflexivity.
Defined.

Section FixFacts.

Context {A : Type}.
Variables hn np : nat.
Variable dist : option Dist.
Variable float_str : float -> string.

Lemma fix_parameter_rearranges (v : float) (num_splits : nat) (data : list A) (w : World) :
  v = 0%float \/ v = 1%float ->
  length data = (num_splits * np * hn)%nat ->
  exists data',
    fix_parameter hn np dist float_str v num_splits data w = (Returns data', w)
    /\ data' ≡ₚ data.
Proof.
  intros Hv Hlen. unfold fix_parameter.
  destruct Hv as [-> | ->].
  - change (PrimFloat.eqb 0 0) with true. cbv iota.
    destruct (transpose_first_dim_returns hn np data num_splits true w Hlen)
      as (t' & Hrun & _ & Hperm & _).
    eauto.
  - change (PrimFloat.eqb 1 0) with false. change (PrimFloat.eqb 1 1) with true. cbv iota.
    destruct (transpose_first_dim_returns hn np data num_splits false w Hlen)
      as (t' & Hrun & _ & Hperm & _).
    eauto.
Qed.

Lemma fix_named_parameter_rearranges (v : float) (param : string * list A) (w : World) :
  v = 0%float \/ v = 1%float -> fits hn np param ->
  exists param',
    fix_named_parameter hn np dist float_str v param w = (Returns param', w)
    /\ rearranged param param'.
Proof.
  intros Hv [Hqkv Hkv]. destruct param as [name data]. cbn [fst snd] in *.
  unfold fix_named_parameter, rearranged. cbn [fst snd].
  destruct (is_query_key_value name) eqn:Eqkv.
  - rewrite (suffix_tests_exclusive name Eqkv).
    destruct (fix_parameter_rearranges v 3 data w Hv (Hqkv eq_refl)) as (data' & Hrun & Hperm).
    exists (name, data'). unfold Eff.bind. rewrite Hrun. cbn.
    split; [reflexivity|]. split; [reflexivity|]. split; [exact Hperm | discriminate].
  - destruct (is_key_value name) eqn:Ekv.
    + destruct (fix_parameter_rearranges v 2 data w Hv (Hkv eq_refl)) as (data' & Hrun & Hperm).
      exists (name, data'). unfold Eff.bind. cbn [Eff.ret]. rewrite Hrun. cbn.
      split; [reflexivity|]. split; [reflexivity|]. split; [exact Hperm | discriminate].
    + exists (name, data). split; [reflexivity|]. repeat split; reflexivity.
Qed.

Lemma fix_named_parameters_rearranges (v : float) (params : list (string * list A))
    (w : World) :
  v = 0%float \/ v = 1%float -> Forall (fits hn np) params ->
  exists params',
    fix_named_parameters hn np dist float_str v params w = (Returns params', w)
    /\ Forall2 rearranged params params'.
Proof.
  intros Hv. induction 1 as [|param params Hp _ (params' & Hrun & Hall)].
  - exists []. split; [reflexivity | constructor].
  - destruct (fix_named_parameter_rearranges v param w Hv Hp) as (param' & Hrun1 & Hre).
    exists (param' :: params'). cbn [fix_named_parameters]. unfold Eff.bind.
    rewrite Hrun1, Hrun. split; [reflexivity | now constructor].
Qed.

Lemma fix_named_parameter_invalid (v : float) (param : string * list A) (w : World) :
  PrimFloat.eqb v 0 = false -> PrimFloat.eqb v 1 = false ->
  if is_query_key_value (fst param) || is_key_value (fst param)
  then fst (fix_named_parameter hn np dist float_str v param w) = SysExit
  else fix_named_parameter hn np dist float_str v param w = (Returns param, w).
Proof.
  intros H0 H1. destruct param as [name data]. cbn [fst].
  assert (Hexit : forall n (d : list A),
             fst (fix_parameter hn np dist float_str v n d w) = SysExit).
  { intros n d. unfold fix_parameter. rewrite H0, H1. unfold Eff.bind.
    destruct (print_rank_0_files dist
                ("Invalid checkpoint version " +:+ float_str v +:+ ".") w) as (Hr & _).
    destruct (print_rank_0 dist _ w) as [o w1]. cbn [fst] in Hr. now subst o. }
  unfold fix_named_parameter.
  destruct (is_query_key_value name); cbn [orb].
  - unfold Eff.bind at 1. specialize (Hexit 3%nat data).
    destruct (fix_parameter hn np dist float_str v 3 data w) as [o w1].
    cbn [fst] in Hexit. now subst o.
  - destruct (is_key_value name); [|reflexivity].
    unfold Eff.bind, Eff.ret. specialize (Hexit 2%nat data).
    destruct (fix_parameter hn np dist float_str v 2 data w) as [o w1].
    cbn [fst] in Hexit. now subst o.
Qed.

Lemma fix_named_parameters_invalid (v : float) (params : list (string * list A))
    (w : World) :
  PrimFloat.eqb v 0 = false -> PrimFloat.eqb v 1 = false ->
  if existsb (fun p => is_query_key_value (fst p) || is_key_value (fst p)) params
  then fst (fix_named_parameters hn np dist float_str v params w) = SysExit
  else fix_named_parameters hn np dist float_str v params w = (Returns params, w).
Proof.
  intros H0 H1. induction params as [|param params IH]; [reflexivity|].
  cbn [existsb fix_named_parameters]. unfold Eff.bind.
  pose proof (fix_named_parameter_invalid v param w H0 H1) as Hp.
  destruct (is_query_key_value (fst param) || is_key_value (fst param)); cbn [orb].
  - destruct (fix_named_parameter hn np dist float_str v param w) as [o w1].
    cbn [fst] in Hp. now subst o.
  - rewrite Hp.
    destruct (existsb _ params).
    + destruct (fix_named_parameters hn np dist float_str v params w) as [o w1].
      cbn [fst] in IH. now subst o.
    + now rewrite IH.
Qed.

End FixFacts.

(** X17.  For a checkpoint of version 0 or 1.0 and a model whose
    [query_key_value] and [key_value] weights and biases have [3 * np * hn]
    and [2 * np * hn] rows, [fix_query_key_value_ordering] returns having
    printed its one line: the parameters keep their names and their order,
    each has the rows it had, rearranged, and a parameter of another name is
    not changed at all. *)
Theorem fix_query_key_value_ordering_rearranges {A : Type} (hn np : nat)
    (dist : option Dist) (float_str : float -> string) (v : float)
    (params : list (string * list A)) (w : World) :
  v = 0%float \/ v = 1%float ->
  Forall (fits hn np) params ->
  exists params',
    fix_query_key_value_ordering hn np dist float_str (OneModel params) v w
    = (Returns (OneModel params'), snd (print_rank_0 dist (FIXED float_str v) w))
    /\ Forall2 rearranged params params'.
Proof.
  intros Hv Hfits.
  destruct (fix_named_parameters_rearranges hn np dist float_str v params w Hv Hfits)
    as (params' & Hrun & Hall).
  exists params'. split; [|exact Hall].
  unfold fix_query_key_value_ordering.
  assert (PrimFloat.ltb v 2 = true) as -> by (destruct Hv as [-> | ->]; reflexivity).
  unfold Eff.bind at 1. cbn [Eff.ret]. unfold Eff.bind at 1. rewrite Hrun.
  unfold Eff.bind, FIXED.
  match goal with |- context [print_rank_0 dist ?m w] =>
    destruct (print_rank_0_files dist m w) as (Hr & _);
    destruct (print_rank_0 dist m w) as [o w1] end.
  cbn [fst] in Hr. now subst o.
Qed.

Lemma fix_query_key_value_ordering_rearranges_witness :
  exists params',
    fix_query_key_value_ordering 1 2 None no_float_str
      (OneModel [("layers.0.attention.query_key_value.bias", [10; 11; 20; 21; 30; 31]);
                 ("layers.0.mlp.bias", [1; 2; 3])]) 0%float empty_world
    = (Returns (OneModel params'), snd (print_rank_0 None (FIXED no_float_str 0) empty_world))
    /\ Forall2 rearranged
         [("layers.0.attention.query_key_value.bias", [10; 11; 20; 21; 30; 31]);
          ("layers.0.mlp.bias", [1; 2; 3])] params'.
Proof.
  apply (fix_query_key_value_ordering_rearranges 1 2 None no_float_str 0%float
           [("layers.0.attention.query_key_value.bias", [10; 11; 20; 21; 30; 31]);
            ("layers.0.mlp.bias", [1; 2; 3])] empty_world).
  - now left.
  - repeat constructor; cbn [fst snd]; intros E; (reflexivity || discriminate E).
Defined.

(** X18.  For a checkpoint version below 2.0 that is neither 0 nor 1.0,
    [fix_query_key_value_ordering] exits the process when some parameter of
    the model has a [query_key_value] or [key_value] name, and otherwise
    returns without having changed the model. *)
Theorem fix_query_key_value_ordering_invalid_version {A : Type} (hn np : nat)
    (dist : option Dist) (float_str : float -> string) (v : float)
    (params : list (string * list A)) (w : World) :
  PrimFloat.ltb v 2 = true -> PrimFloat.eqb v 0 = false -> PrimFloat.eqb v 1 = false ->
  fst (fix_query_key_value_ordering hn np dist float_str (OneModel params) v w)
  = if existsb (fun p => is_query_key_value (fst p) || is_key_value (fst p)) params
    then SysExit else Returns (OneModel params).
Proof.
  intros Hlt H0 H1. unfold fix_query_key_value_ordering. rewrite Hlt.
  unfold Eff.bind at 1. cbn [Eff.ret]. unfold Eff.bind at 1.
  pose proof (fix_named_parameters_invalid hn np dist float_str v params w H0 H1) as Hrun.
  destruct (existsb _ params).
  - destruct (fix_named_parameters hn np dist float_str v params w) as [o w1].
    cbn [fst] in Hrun. now subst o.
  - rewrite Hrun. unfold Eff.bind.
    match goal with |- context [print_rank_0 dist ?m w] =>
      destruct (print_rank_0_files dist m w) as (Hr & _);
      destruct (print_rank_0 dist m w) as [o w1] end.
    cbn [fst] in Hr. now subst o.
Qed.

Lemma fix_query_key_value_ordering_invalid_version_witness :
  fst (fix_query_key_value_ordering 1 2 None no_float_str
         (OneModel [("layers.0.attention.query_key_value.bias", [10; 11; 20; 21; 30; 31])])
         1.5%float empty_world)
  = SysExit.
Proof.
  apply (fix_query_key_value_ordering_invalid_version 1 2 None no_float_str 1.5%float
           [("layers.0.attention.query_key_value.bias", [10; 11; 20; 21; 30; 31])]
           empty_world); reflexivity.
Defined.
(** ** Removing old non-persistent checkpoints *)

Section SortFacts.

Context {X : Type}.
Implicit Types (l : list (Z * X)) (x : Z * X).

Lemma insert_by_key_perm x l : insert_by_key x l ≡ₚ x :: l.
Proof.
  induction l as [|y r IH]; [reflexivity|]. cbn.
  destruct (fst x <=? fst y); [reflexivity|]. rewrite IH. apply Permutation_swap.
Qed.

Lemma sorted_by_key_perm l : sorted_by_key l ≡ₚ l.
Proof.
  induction l as [|x r IH]; [reflexivity|]. cbn. rewrite insert_by_key_perm. now rewrite IH.
Qed.

Lemma insert_by_key_sorted x l :
  StronglySorted (fun a b => fst a <= fst b) l ->
  StronglySorted (fun a b => fst a <= fst b) (insert_by_key x l).
Proof.
  induction 1 as [|y r Hr IH Hy]; [repeat constructor|]. cbn.
  destruct (fst x <=? fst y) eqn:E.
  - apply Z.leb_le in E. constructor; [now constructor|].
    constructor; [exact E|]. eapply Forall_impl; [exact Hy|]. cbn. intros; lia.
  - apply Z.leb_gt in E. constructor; [exact IH|].
    rewrite insert_by_key_perm. constructor; [lia | exact Hy].
Qed.

Lemma sorted_by_key_sorted l :
  StronglySorted (fun a b => fst a <= fst b) (sorted_by_key l).
Proof.
  induction l as [|x r IH]; [constructor|]. cbn. now apply insert_by_key_sorted.
Qed.

(** The first elements of a sorted list are below the others. *)
Lemma sorted_take_drop l (n : nat) x y :
  StronglySorted (fun a b => fst a <= fst b) l ->
  x ∈ take n l -> y ∈ drop n l -> fst x <= fst y.
Proof.
  intros Hl. revert n. induction Hl as [|z r Hr IH Hz]; intros n Hx Hy.
  - rewrite take_nil in Hx. inversion Hx.
  - destruct n as [|n]; [inversion Hx|]. cbn in Hx, Hy.
    apply elem_of_cons in Hx as [-> | Hx]; [|now apply (IH n)].
    rewrite Forall_forall in Hz. apply Hz.
    eapply subseteq_drop. exact Hy.
Qed.

End SortFacts.

Section CleanupFacts.

Context {FS : Type}.
Variable rglob : string -> string -> FS -> list string.
Variable rmtree : string -> Py.E FS unit.
Variable paths_str : list string -> string.
Variable dist : option Dist.

Lemma with_keys_ok (paths : list string) (s : Cleaner FS) :
  Forall (fun p => is_Some (iteration_of p)) paths ->
  exists keyed,
    with_keys paths s = (Py.Ok keyed, s)
    /\ snd <$> keyed = paths
    /\ Forall (fun kp => iteration_of (snd kp) = Some (fst kp)) keyed.
Proof.
  induction 1 as [|p paths [n Hn] _ (keyed & Hrun & Hsnd & Hkeys)].
  - exists []. repeat split. constructor.
  - exists ((n, p) :: keyed). cbn [with_keys]. rewrite Hn. unfold Py.bind. rewrite Hrun.
    split; [reflexivity|]. split; [cbn; now rewrite Hsnd|]. now constructor.
Qed.

Lemma with_keys_fails (paths : list string) (s : Cleaner FS) :
  Exists (fun p => iteration_of p = None) paths ->
  exists literal, with_keys (FS := FS) paths s = (Py.Error (Py.ValueError literal), s).
Proof.
  induction 1 as [p paths Hp | p paths _ [literal IH]]; cbn [with_keys].
  - rewrite Hp. eauto.
  - destruct (iteration_of p); [|eauto].
    unfold Py.bind. rewrite IH. eauto.
Qed.

Lemma cl_print_rank_0_fs (msg : string) (s : Cleaner FS) :
  exists w, cl_print_rank_0 dist msg s
            = (Py.Ok tt, {| cl_world := w; cl_fs := cl_fs s; cl_threads := cl_threads s |}).
Proof.
  unfold cl_print_rank_0, Py.lift.
  destruct (print_rank_0_files dist msg (cl_world s)) as (Hr & _).
  destruct (print_rank_0 dist msg (cl_world s)) as [o w]. cbn [fst] in Hr. subst o.
  now exists w.
Qed.

End CleanupFacts.

(** X19.  On the process that cleans up, when every path found under the
    directory reads as [iter_<integer>], [cleanup_old_non_persistent_checkpoint]
    with [leave_ckpt_num >= 1] and [do_async=False] prints its two lines and
    then calls [shutil.rmtree] on the paths of a list [rm], in order, where
    the paths found are those of [rm] and of a list [kept]: [kept] has
    [leave_ckpt_num] paths (all of them when there are fewer), and no path
    of [rm] has a larger iteration number than a path of [kept]. *)
Theorem cleanup_keeps_the_latest {FS : Type}
    (rglob : string -> string -> FS -> list string) (rmtree : string -> Py.E FS unit)
    (paths_str : list string -> string) (dist : option Dist)
    (save_dir : string) (leave_ckpt_num : Z) (s : Cleaner FS) :
  cleans_up dist = true ->
  Forall (fun p => is_Some (iteration_of p)) (rglob save_dir "iter_*" (cl_fs s)) ->
  rglob save_dir "iter_*" (cl_fs s) <> [] ->
  1 <= leave_ckpt_num ->
  exists rm kept,
    cleanup_old_non_persistent_checkpoint rglob rmtree paths_str dist save_dir
      leave_ckpt_num false s
    = (cl_print_rank_0 dist ("Non-persistent checkpoints scheduled for removal: "
                             +:+ paths_str rm) ;+
       cl_print_rank_0 dist ("Non-persistent checkpoints to be kept: " +:+ paths_str kept) ;+
       remove_iter_ckpts rmtree rm) s
    /\ (rm ++ kept)%list ≡ₚ rglob save_dir "iter_*" (cl_fs s)
    /\ length kept
       = Nat.min (Z.to_nat leave_ckpt_num) (length (rglob save_dir "iter_*" (cl_fs s)))
    /\ forall r q, r ∈ rm -> q ∈ kept ->
         exists a b, iteration_of r = Some a /\ iteration_of q = Some b /\ a <= b.
Proof.
  intros Hrank Hnames Hfound Hleave.
  set (found := rglob save_dir "iter_*" (cl_fs s)) in *.
  destruct (with_keys_ok found s Hnames) as (keyed & Hrun & Hsnd & Hkeys).
  set (sorted := sorted_by_key keyed).
  assert (Hperm : sorted ≡ₚ keyed) by apply sorted_by_key_perm.
  assert (Hsorted : StronglySorted (fun a b => fst a <= fst b) sorted)
    by apply sorted_by_key_sorted.
  assert (Hlen : length sorted = length found).
  { rewrite Hperm. rewrite <- Hsnd. now rewrite length_fmap. }
  set (m := Z.to_nat (Z.max (Z.of_nat (length sorted) + - leave_ckpt_num) 0)).
  exists (snd <$> take m sorted), (snd <$> drop m sorted).
  assert (Hto : slice_to (- leave_ckpt_num) (snd <$> sorted) = snd <$> take m sorted).
  { unfold slice_to. rewrite length_fmap.
    assert ((- leave_ckpt_num <? 0) = true) as -> by (apply Z.ltb_lt; lia).
    fold m. now rewrite fmap_take. }
  assert (Hfrom : slice_from (- leave_ckpt_num) (snd <$> sorted) = snd <$> drop m sorted).
  { unfold slice_from. rewrite length_fmap.
    assert ((- leave_ckpt_num <? 0) = true) as -> by (apply Z.ltb_lt; lia).
    fold m. now rewrite fmap_drop. }
  split; [|split; [|split]].
  - unfold cleanup_old_non_persistent_checkpoint.
    assert (match dist with Some d => negb (rank d =? 0) | None => false end = false) as ->.
    { unfold cleans_up in Hrank. destruct dist; [now rewrite Hrank | reflexivity]. }
    unfold Py.bind at 1. fold found. unfold Py.bind at 1. rewrite Hrun.
    fold sorted. rewrite bool_decide_eq_false_2.
    + now rewrite Hto, Hfrom.
    + intros E. apply Hfound. apply (f_equal length) in E. rewrite length_fmap in E.
      apply length_zero_iff_nil. rewrite <- Hlen. exact E.
  - rewrite <- fmap_app, take_drop. rewrite Hperm. now rewrite Hsnd.
  - rewrite length_fmap, length_drop. unfold m. lia.
  - intros r q Hr Hq.
    apply list_elem_of_fmap in Hr as (x & -> & Hx).
    apply list_elem_of_fmap in Hq as (y & -> & Hy).
    assert (Hall : Forall (fun kp => iteration_of (snd kp) = Some (fst kp)) sorted)
      by (now rewrite Hperm).
    rewrite Forall_forall in Hall.
    exists (fst x), (fst y).
    split; [apply Hall; eapply subseteq_take; exact Hx|].
    split; [apply Hall; eapply subseteq_drop; exact Hy|].
    now apply (sorted_take_drop sorted m).
Qed.

Lemma cleanup_keeps_the_latest_witness :
  let found := ["/ckpt/iter_0000030"; "/ckpt/iter_0000010"; "/ckpt/iter_0000020"] in
  exists rm kept,
    cleanup_old_non_persistent_checkpoint listed_rglob listed_rmtree no_paths_str None
      "/ckpt" 1 false (cleaner_of found)
    = (cl_print_rank_0 None ("Non-persistent checkpoints scheduled for removal: "
                             +:+ no_paths_str rm) ;+
       cl_print_rank_0 None ("Non-persistent checkpoints to be kept: "
                             +:+ no_paths_str kept) ;+
       remove_iter_ckpts listed_rmtree rm) (cleaner_of found)
    /\ (rm ++ kept)%list ≡ₚ found
    /\ length kept = Nat.min (Z.to_nat 1) (length found)
    /\ forall r q, r ∈ rm -> q ∈ kept ->
         exists a b, iteration_of r = Some a /\ iteration_of q = Some b /\ a <= b.
Proof.
  intros found.
  apply (cleanup_keeps_the_latest listed_rglob listed_rmtree no_paths_str None "/ckpt" 1
           (cleaner_of found)).
  - reflexivity.
  - repeat constructor; vm_compute; eauto.
  - discriminate.
  - lia.
Defined.

Section CleanupEdges.

Context {FS : Type}.
Variable rglob : string -> string -> FS -> list string.
Variable rmtree : string -> Py.E FS unit.
Variable paths_str : list string -> string.
Variable dist : option Dist.

Lemma with_keys_state (paths : list string) (s : Cleaner FS) :
  snd (with_keys paths s) = s.
Proof.
  induction paths as [|p paths IH]; [reflexivity|].
  cbn [with_keys]. destruct (iteration_of p); [|reflexivity].
  unfold Py.bind. destruct (with_keys paths s) as [[keyed| |e] s'] eqn:E;
    cbn [snd] in IH; subst s'; reflexivity.
Qed.

End CleanupEdges.

(** X20.  [cleanup_old_non_persistent_checkpoint] with [leave_ckpt_num=0]
    and [do_async=False] removes nothing: [sorted_iter_ckpts[:-0]] is the
    empty list, so whatever is found under the directory, the file system is
    as before the call and no thread is started. *)
Theorem cleanup_leaving_none_removes_nothing {FS : Type}
    (rglob : string -> string -> FS -> list string) (rmtree : string -> Py.E FS unit)
    (paths_str : list string -> string) (dist : option Dist)
    (save_dir : string) (s : Cleaner FS) :
  let after := snd (cleanup_old_non_persistent_checkpoint rglob rmtree paths_str dist
                      save_dir 0 false s) in
  cl_fs after = cl_fs s /\ cl_threads after = cl_threads s.
Proof.
  intros after.
  enough (exists w, after = {| cl_world := w; cl_fs := cl_fs s; cl_threads := cl_threads s |})
    as [w ->] by now split.
  subst after. unfold cleanup_old_non_persistent_checkpoint.
  destruct (match dist with Some d => negb (rank d =? 0) | None => false end);
    [exists (cl_world s); now destruct s|].
  unfold Py.bind at 1. unfold Py.bind at 1.
  pose proof (with_keys_state (rglob save_dir "iter_*" (cl_fs s)) s) as Hst.
  destruct (with_keys (rglob save_dir "iter_*" (cl_fs s)) s) as [[keyed| |e] s'];
    cbn [snd] in Hst; subst s'; [|exists (cl_world s); now destruct s..].
  destruct (bool_decide _); [exists (cl_world s); now destruct s|].
  assert (slice_to (- 0) (snd <$> sorted_by_key keyed) = []) as ->.
  { unfold slice_to. cbn [Z.opp Z.ltb Z.compare].
    now replace (Z.min 0 _) with 0 by lia. }
  cbn [remove_iter_ckpts]. unfold Py.bind.
  destruct (cl_print_rank_0_fs dist
              ("Non-persistent checkpoints scheduled for removal: " +:+ paths_str []) s)
    as [w1 ->].
  match goal with |- context [cl_print_rank_0 dist ?m ?t] =>
    destruct (cl_print_rank_0_fs dist m t) as [w2 ->] end.
  now exists w2.
Qed.

(** X21.  On the process that cleans up, if some path found under the
    directory has a name that does not read as an integer after its first
    five characters (as [iter_0000010.tmp] does not),
    [cleanup_old_non_persistent_checkpoint] raises [ValueError] before it
    prints or removes anything. *)
Theorem cleanup_rejects_other_names {FS : Type}
    (rglob : string -> string -> FS -> list string) (rmtree : string -> Py.E FS unit)
    (paths_str : list string -> string) (dist : option Dist)
    (save_dir : string) (leave_ckpt_num : Z) (do_async : bool) (s : Cleaner FS) :
  cleans_up dist = true ->
  Exists (fun p => iteration_of p = None) (rglob save_dir "iter_*" (cl_fs s)) ->
  exists literal,
    cleanup_old_non_persistent_checkpoint rglob rmtree paths_str dist save_dir
      leave_ckpt_num do_async s
    = (Py.Error (Py.ValueError literal), s).
Proof.
  intros Hrank Hname.
  destruct (with_keys_fails _ s Hname) as [literal Hrun].
  exists literal. unfold cleanup_old_non_persistent_checkpoint.
  assert (match dist with Some d => negb (rank d =? 0) | None => false end = false) as ->.
  { unfold cleans_up in Hrank. destruct dist; [now rewrite Hrank | reflexivity]. }
  unfold Py.bind at 1. unfold Py.bind at 1. now rewrite Hrun.
Qed.

Lemma cleanup_rejects_other_names_witness :
  exists literal,
    cleanup_old_non_persistent_checkpoint listed_rglob listed_rmtree no_paths_str None
      "/ckpt" 1 false (cleaner_of ["/ckpt/iter_0000010"; "/ckpt/iter_0000010.tmp"])
    = (Py.Error (Py.ValueError literal),
       cleaner_of ["/ckpt/iter_0000010"; "/ckpt/iter_0000010.tmp"]).
Proof.
  apply (cleanup_rejects_other_names listed_rglob listed_rmtree no_paths_str None "/ckpt" 1
           false (cleaner_of ["/ckpt/iter_0000010"; "/ckpt/iter_0000010.tmp"])).
  - reflexivity.
  - apply Exists_cons_tl, Exists_cons_hd. reflexivity.
Defined.

(** ** The dataloader state of each data-parallel rank *)

Section DataloaderFacts.

Lemma has_sep_app (a b : string) :
  PyPath.has_sep (a +:+ b) = PyPath.has_sep a || PyPath.has_sep b.
Proof.
  induction a as [|c a IH]; [reflexivity|].
  change (String c a +:+ b) with (String c (a +:+ b)).
  cbn [PyPath.has_sep]. rewrite IH. now rewrite orb_assoc.
Qed.

Lemma digits_have_no_sep (s : string) :
  PyStr.all_digits s = true -> PyPath.has_sep s = false.
Proof.
  induction s as [|c s IH]; [reflexivity|]. cbn [PyStr.all_digits PyPath.has_sep].
  intros H. apply andb_true_iff in H as [Hc Hs]. rewrite (IH Hs), orb_false_r.
  apply Ascii.eqb_neq. intros ->. discriminate Hc.
Qed.

Lemma format_0d_has_no_sep (width : nat) (n : Z) :
  PyPath.has_sep (PyStr.format_0d width n) = false.
Proof.
  unfold PyStr.format_0d. cbv zeta. rewrite !has_sep_app.
  rewrite (digits_have_no_sep (PyStr.zeros _)) by apply all_digits_zeros.
  rewrite (digits_have_no_sep (PyStr.str _)) by (apply str_nonneg_digits; lia).
  now destruct (n <? 0).
Qed.

Lemma tail_of_app (x b : string) :
  PyPath.has_sep b = false -> PyPath.tail_of (x +:+ String "/" b) = b.
Proof.
  intros Hb.
  assert (Hself : PyPath.tail_of b = b).
  { destruct b as [|c b]; [reflexivity|]. cbn [PyPath.has_sep] in Hb.
    cbn [PyPath.tail_of]. now rewrite Hb. }
  induction x as [|c x IH].
  - change ("" +:+ String "/" b) with (String "/" b). cbn [PyPath.tail_of].
    now rewrite Hself.
  - change (String c x +:+ String "/" b) with (String c (x +:+ String "/" b)).
    cbn [PyPath.tail_of]. rewrite has_sep_app. cbn [PyPath.has_sep].
    rewrite Ascii.eqb_refl. cbn [orb]. rewrite !orb_true_r. exact IH.
Qed.

Lemma append_cancel_r (a b s : string) : a +:+ s = b +:+ s -> a = b.
Proof.
  revert b. induction a as [|c a IH]; intros [|d b] E.
  - reflexivity.
  - apply (f_equal String.length) in E. cbn in E. rewrite length_app_str in E. lia.
  - apply (f_equal String.length) in E. cbn in E. rewrite length_app_str in E. lia.
  - cbn in E. injection E as -> E. f_equal. now apply IH.
Qed.

(** The file of a rank's dataloader state tells the data-parallel rank. *)
Lemma dataloader_state_name_inj (mpu1 mpu2 : Mpu) (path1 path2 : string)
    (iteration1 iteration2 dp1 dp2 : Z) :
  get_checkpoint_name mpu1 path1 iteration1 false None None None None None false
    ("train_dataloader_dprank" +:+ PyStr.format_0d 3 dp1 +:+ ".pt")
  = get_checkpoint_name mpu2 path2 iteration2 false None None None None None false
      ("train_dataloader_dprank" +:+ PyStr.format_0d 3 dp2 +:+ ".pt") ->
  dp1 = dp2.
Proof.
  destruct (rank_directory mpu1 path1 iteration1 false None None None None None)
    as (c1 & Hne1 & Hend1 & _ & ->).
  destruct (rank_directory mpu2 path2 iteration2 false None None None None None)
    as (c2 & Hne2 & Hend2 & _ & ->).
  assert (Hb : forall dp, PyPath.has_sep
            ("train_dataloader_dprank" +:+ PyStr.format_0d 3 dp +:+ ".pt") = false).
  { intros dp. rewrite !has_sep_app, format_0d_has_no_sep. reflexivity. }
  rewrite !join2_plain by auto using has_sep_startswith.
  intros E. apply (f_equal PyPath.tail_of) in E.
  change (?c +:+ "/" +:+ ?b) with (c +:+ String "/" b) in E.
  rewrite !tail_of_app in E by apply Hb.
  apply append_cancel_l, append_cancel_r in E. exact (format_0d_inj _ _ _ E).
Qed.

Lemma maybe_save_dataloader_state_writes (mpu : Mpu) (dp : Z)
    (torch_save_text : list (string * string) -> string)
    (train_iterator : TrainIterator) (state : string) (iteration : Z) (path : string)
    (w : World) :
  tensor_model_parallel_rank mpu = 0 ->
  iterable_save_state train_iterator = Some state ->
  path <> "" ->
  maybe_save_dataloader_state mpu true dp torch_save_text (Some train_iterator) iteration
    (Some path) w
  = (Returns tt,
     {| stdout := stdout w ++ ["saving dataloader checkpoint at iteration "
                               +:+ PyStr.str iteration +:+ " to " +:+ path];
        files := <[get_checkpoint_name mpu path iteration false None None None None None
                     false ("train_dataloader_dprank" +:+ PyStr.format_0d 3 dp +:+ ".pt")
                   := torch_save_text [("dataloader_state_dict", state)]]> (files w);
        async_queue := async_queue w |}).
Proof.
  intros Htp Hstate Hpath. unfold maybe_save_dataloader_state.
  apply String.eqb_neq in Hpath. rewrite Hpath, Hstate, Htp. cbn [andb negb Z.eqb].
  unfold Eff.bind, print, write_file, Eff.when, ensure_directory_exists.
  now destruct (dp =? 0).
Qed.

End DataloaderFacts.

(** X22.  Two data-parallel ranks never write their dataloader state to the
    same file.  On the first pipeline stage with tensor rank 0, for an
    iterator whose iterable has [save_state] and a path that is not empty,
    [maybe_save_dataloader_state] prints one line and writes one file, the
    state under the key [dataloader_state_dict]; for two processes with
    different data-parallel ranks the two files have different names,
    whatever their directories, iterations and expert ranks. *)
Theorem dataloader_states_do_not_collide (mpu1 mpu2 : Mpu) (dp1 dp2 : Z)
    (torch_save_text : list (string * string) -> string)
    (iterator1 iterator2 : TrainIterator) (state1 state2 : string)
    (iteration1 iteration2 : Z) (path1 path2 : string) (w1 w2 : World) :
  tensor_model_parallel_rank mpu1 = 0 -> tensor_model_parallel_rank mpu2 = 0 ->
  iterable_save_state iterator1 = Some state1 ->
  iterable_save_state iterator2 = Some state2 ->
  path1 <> "" -> path2 <> "" ->
  dp1 <> dp2 ->
  exists name1 name2 line1 line2,
    name1 <> name2
    /\ maybe_save_dataloader_state mpu1 true dp1 torch_save_text (Some iterator1)
         iteration1 (Some path1) w1
       = (Returns tt,
          {| stdout := stdout w1 ++ [line1];
             files := <[name1 := torch_save_text [("dataloader_state_dict", state1)]]>
                        (files w1);
             async_queue := async_queue w1 |})
    /\ maybe_save_dataloader_state mpu2 true dp2 torch_save_text (Some iterator2)
         iteration2 (Some path2) w2
       = (Returns tt,
          {| stdout := stdout w2 ++ [line2];
             files := <[name2 := torch_save_text [("dataloader_state_dict", state2)]]>
                        (files w2);
             async_queue := async_queue w2 |}).
Proof.
  intros Htp1 Htp2 Hs1 Hs2 Hp1 Hp2 Hdp.
  do 4 eexists. split; [|split].
  2: apply maybe_save_dataloader_state_writes; eassumption.
  2: apply maybe_save_dataloader_state_writes; eassumption.
  intros E. apply Hdp. exact (dataloader_state_name_inj _ _ _ _ _ _ _ _ E).
Qed.

Lemma dataloader_states_do_not_collide_witness :
  exists name1 name2 line1 line2,
    name1 <> name2
    /\ maybe_save_dataloader_state (first_stage 0) true 0 one_item
         (Some (energon_iterator "state of rank 0")) 10 (Some "/data") empty_world
       = (Returns tt,
          {| stdout := stdout empty_world ++ [line1];
             files := <[name1 := one_item [("dataloader_state_dict", "state of rank 0")]]>
                        (files empty_world);
             async_queue := async_queue empty_world |})
    /\ maybe_save_dataloader_state (first_stage 1) true 1 one_item
         (Some (energon_iterator "state of rank 1")) 10 (Some "/data") empty_world
       = (Returns tt,
          {| stdout := stdout empty_world ++ [line2];
             files := <[name2 := one_item [("dataloader_state_dict", "state of rank 1")]]>
                        (files empty_world);
             async_queue := async_queue empty_world |}).
Proof.
  apply (dataloader_states_do_not_collide (first_stage 0) (first_stage 1) 0 1 one_item
           (energon_iterator "state of rank 0") (energon_iterator "state of rank 1")
           "state of rank 0" "state of rank 1" 10 10 "/data" "/data" empty_world
           empty_world);
    try reflexivity; try discriminate.
Defined.

(** ** Content metadata and the distributed optimizer *)

Section MetadataFacts.

Lemma build_sharded_state_dict_metadata_returns {S} (ckpt_args : Args) (fully : bool)
    (s : S) :
  ckpt_fully_parallel_save ckpt_args = Some fully ->
  exists metadata,
    _build_sharded_state_dict_metadata ckpt_args s = (Returns metadata, s)
    /\ metadata !! "chained_optim_avoid_prefix" = Some (VBool true)
    /\ metadata !! "distrib_optim_sharding_type"
       = if use_distributed_optimizer ckpt_args
         then Some (VStr (if fully then FULLY_SHARDED else DP_ZERO))
         else None.
Proof.
  intros Hfully. unfold _build_sharded_state_dict_metadata. rewrite Hfully.
  destruct (use_distributed_optimizer ckpt_args), fully; eexists;
    (split; [reflexivity|]); split; reflexivity.
Qed.

End MetadataFacts.

(** X23.  Whether a run with the distributed optimizer can load the
    optimizer state of a [torch_dist] checkpoint under another (TP, PP)
    depends on the metadata that [_build_sharded_state_dict_metadata] built
    when the checkpoint was saved: saved with the distributed optimizer and
    [ckpt_fully_parallel_save], the load goes on with the sharding type
    [fully_sharded_model_space]; saved with the distributed optimizer
    without that flag, it raises [RuntimeError]; saved without the
    distributed optimizer, the metadata has no sharding type and the load
    raises [KeyError]. *)
Theorem resharding_depends_on_the_saved_metadata {S : Type}
    (dist : option Dist) (has_nvidia_modelopt : bool)
    (validate_rerun_state : StateDict -> bool) (ckpt_type : CheckpointType)
    (args ckpt_args : Args) (fully rerun_state release : bool) (metadata_str : string)
    (s : S) (w : World) :
  ckpt_fully_parallel_save ckpt_args = Some fully ->
  use_distributed_optimizer args = true ->
  optimizer_wanted args ckpt_args release = true ->
  same_tp_pp args ckpt_args = false ->
  exists metadata,
    _build_sharded_state_dict_metadata ckpt_args s = (Returns metadata, s)
    /\ let run := plan_torch_dist_load dist has_nvidia_modelopt validate_rerun_state args
                    (checkpoint_with ckpt_args metadata metadata_str rerun_state)
                    release ckpt_type w in
       if use_distributed_optimizer ckpt_args then
         if fully
         then exists plan, fst run = Returns plan
                           /\ gen_sd_optim plan = true
                           /\ sharded_sd_metadata plan = Some (Some FULLY_SHARDED)
         else exists msg, fst run = Raises (RuntimeError msg)
       else fst run = Raises (KeyError "distrib_optim_sharding_type").
Proof.
  intros Hfully Hdist_opt Hwanted Htp_pp.
  destruct (build_sharded_state_dict_metadata_returns (S := S) ckpt_args fully s Hfully)
    as (metadata & Hbuild & _ & Htype).
  exists metadata. split; [exact Hbuild|]. cbv zeta.
  assert (Hprint : forall b msg (k : unit -> M World LoadPlan) x,
            exists x', (when b (print_rank_0 dist msg) ;; k tt) x = k tt x').
  { intros b msg k x. unfold Eff.bind, Eff.when, print_rank_0, print.
    destruct b; [|now exists x].
    destruct dist as [d|]; [destruct (rank d =? 0)|]; eexists; reflexivity. }
  unfold optimizer_wanted in Hwanted. unfold same_tp_pp in Htp_pp.
  unfold plan_torch_dist_load, checkpoint_with.
  cbn [sd_args sd_content_metadata sd_content_metadata_str sd_has_rerun_state_machine].
  change (Eff.bind (ret ckpt_args) ?k w) with (k ckpt_args w). cbv beta.
  rewrite Htype, Hdist_opt, Hwanted, Htp_pp. cbn [andb negb].
  match goal with |- context [Eff.bind (when ?b (print_rank_0 dist ?m)) ?k w] =>
    destruct (Hprint b m k w) as [w1 Hw1] end.
  rewrite Hw1. clear Hw1.
  match goal with |- context [Eff.bind (print_rank_0 dist ?m) ?k w1] =>
    destruct (Hprint true m k w1) as [w2 Hw2] end.
  cbn [Eff.when] in Hw2. rewrite Hw2. clear Hw2.
  destruct (use_distributed_optimizer ckpt_args); [destruct fully|].
  - change (String.eqb FULLY_SHARDED FULLY_SHARDED) with true. cbn [negb].
    change (Eff.bind (ret ?a) ?k w2) with (k a w2). cbv beta.
    match goal with |- context [Eff.bind (when ?b (print_rank_0 dist ?m)) ?k w2] =>
      destruct (Hprint b m k w2) as [w3 Hw3] end.
    rewrite Hw3. clear Hw3.
    match goal with |- context [Eff.bind (when ?b (print_rank_0 dist ?m)) ?k w3] =>
      destruct (Hprint b m k w3) as [w4 Hw4] end.
    rewrite Hw4. eexists. repeat split.
  - change (String.eqb DP_ZERO FULLY_SHARDED) with false. cbn [negb].
    eexists. reflexivity.
  - reflexivity.
Qed.

Lemma resharding_depends_on_the_saved_metadata_witness :
  exists metadata,
    _build_sharded_state_dict_metadata (run_args None None false false false 2 1 1) tt
    = (Returns metadata, tt)
    /\ fst (plan_torch_dist_load None false (fun _ => true)
              (run_args None None false false true 1 1 1)
              (checkpoint_with (run_args None None false false false 2 1 1) metadata
                 "{'chained_optim_avoid_prefix': True}" true)
              false GLOBAL empty_world)
       = Raises (KeyError "distrib_optim_sharding_type").
Proof.
  apply (resharding_depends_on_the_saved_metadata None false (fun _ => true) GLOBAL
           (run_args None None false false true 1 1 1)
           (run_args None None false false false 2 1 1) false true false
           "{'chained_optim_avoid_prefix': True}" tt empty_world);
    reflexivity.
Defined.

(** ** Loading a biencoder checkpoint *)

(** X24.  [load_biencoder_checkpoint] never returns a model: its call of
    [get_checkpoint_name] gives [release] twice, as third positional
    argument and by keyword.  Every call ends in an exception before
    anything is printed or loaded: [TypeError] of [os.path.join] without a
    load directory, [FileNotFoundError] without a tracker file,
    [ValueError] when the tracker's text is no integer, and otherwise the
    [TypeError] of the call. *)
Theorem load_biencoder_checkpoint_never_returns {Module_ Tensors : Type}
    (mpu : Mpu) (unwrap_model : list Module_ -> list Module_)
    (data_parallel_rank global_rank : Z)
    (torch_load : string -> M World (gmap string (gmap string Tensors)))
    (load_state_dict : Module_ -> gmap string Tensors -> M World Module_)
    (args : Args) (model : list Module_) (only_query_model only_context_model : bool)
    (custom_load_path : option string) (w : World) :
  load_biencoder_checkpoint mpu unwrap_model data_parallel_rank global_rank torch_load
    load_state_dict args model only_query_model only_context_model custom_load_path w
  = (Py.Error
       (biencoder_error
          (match custom_load_path with Some p => Some p | None => load args end) w),
     w).
Proof.
  unfold load_biencoder_checkpoint, biencoder_error.
  destruct (match custom_load_path with Some p => Some p | None => load args end)
    as [d|]; [|reflexivity].
  unfold Py.bind at 1. cbn [in_py Py.lift tracker_of ret].
  unfold Py.bind at 1. unfold in_py at 1, Py.lift, read_file.
  destruct (files w !! get_checkpoint_tracker_filename d) as [text|]; [|reflexivity].
  unfold Py.bind at 1. unfold Py.int_of.
  destruct (PyStr.int (PyStr.strip text)) as [iteration|]; [|reflexivity].
  reflexivity.
Qed.

(** ** Saving while a save is outstanding *)

Section QueueBlind.

Variable dist : option Dist.

Lemma queue_blind_ret {A} (a : A) : queue_blind (ret a).
Proof. intros q warn base idle busy H. split; [reflexivity | exact H]. Qed.

Lemma queue_blind_raise {A} (e : exn) : queue_blind (@raise World A e).
Proof. intros q warn base idle busy H. split; [reflexivity | exact H]. Qed.

Lemma queue_blind_bind {A B} (m : M World A) (k : A -> M World B) :
  queue_blind m -> (forall a, queue_blind (k a)) -> queue_blind (Eff.bind m k).
Proof.
  intros Hm Hk q warn base idle busy H.
  destruct (Hm q warn base idle busy H) as [Ho Hw]. unfold Eff.bind.
  destruct (m idle) as [oi wi], (m busy) as [ob wb]. cbn in Ho, Hw. subst ob.
  destruct oi as [a| |e]; [apply Hk, Hw | split; [reflexivity | exact Hw] ..].
Qed.

Lemma queue_blind_print (msg : string) : queue_blind (print msg).
Proof.
  intros q warn base idle busy (Hf & Hq & out & Hi & Hb).
  split; [reflexivity|]. cbn. split; [exact Hf|]. split; [exact Hq|].
  exists (out ++ [msg])%list. rewrite Hi, Hb. now rewrite <- !app_assoc.
Qed.

Lemma queue_blind_print_rank_0 (msg : string) : queue_blind (print_rank_0 dist msg).
Proof.
  unfold print_rank_0. destruct dist as [d|]; [destruct (rank d =? 0)|];
    first [apply queue_blind_print | apply queue_blind_ret].
Qed.

Lemma queue_blind_write_file (path text : string) : queue_blind (write_file path text).
Proof.
  intros q warn base idle busy (Hf & Hq & Hout).
  split; [reflexivity|]. cbn. split; [now rewrite Hf|]. split; [exact Hq | exact Hout].
Qed.

Lemma queue_blind_schedule (r : AsyncRequest) : queue_blind (schedule_async_save r).
Proof.
  intros q warn base idle busy (Hf & Hq & Hout).
  split; [reflexivity|]. cbn. split; [exact Hf|]. split; [|exact Hout].
  rewrite Hq. now rewrite <- app_assoc.
Qed.

Lemma queue_blind_manager (ctx : option CheckpointingContext) :
  queue_blind (the_local_manager ctx).
Proof.
  unfold the_local_manager. destruct ctx as [c|]; [destruct (local_checkpoint_manager c)|];
    first [apply queue_blind_ret | apply queue_blind_raise].
Qed.

Lemma queue_blind_ensure_directory_exists (filename : string) (check_parent : bool) :
  queue_blind (ensure_directory_exists filename check_parent).
Proof. apply queue_blind_ret. Qed.

End QueueBlind.

Ltac queue_blind_step :=
  first
    [ apply queue_blind_bind; [|intros ?]
    | apply queue_blind_ret | apply queue_blind_raise
    | apply queue_blind_print_rank_0 | apply queue_blind_print
    | apply queue_blind_write_file | apply queue_blind_schedule
    | apply queue_blind_manager | apply queue_blind_ensure_directory_exists
    | match goal with
      | |- queue_blind (if ?b then _ else _) => destruct b
      | |- queue_blind (match ?x with _ => _ end) => destruct x
      | |- queue_blind (Eff.assert _ _) => unfold Eff.assert
      | |- queue_blind (Eff.when _ _) => unfold Eff.when
      end ].

Lemma queue_blind_dataloader_state (mpu : Mpu) (is_pipeline_first_stage : bool)
    (data_parallel_rank : Z) (torch_save_text : list (string * string) -> string)
    (train_iterator : option TrainIterator) (iteration : Z)
    (dataloader_save_path : option string) :
  queue_blind (maybe_save_dataloader_state mpu is_pipeline_first_stage data_parallel_rank
                 torch_save_text train_iterator iteration dataloader_save_path).
Proof. unfold maybe_save_dataloader_state. repeat queue_blind_step. Qed.

Lemma queue_blind_metadata (args : Args) :
  queue_blind (_build_sharded_state_dict_metadata args).
Proof.
  unfold _build_sharded_state_dict_metadata, no_attribute. repeat queue_blind_step.
Qed.

(** [maybe_save_dataloader_state] returns when there is a state to save or
    nothing to do, and leaves the outstanding saves as they are. *)
Lemma maybe_save_dataloader_state_returns (mpu : Mpu) (is_pipeline_first_stage : bool)
    (data_parallel_rank : Z) (torch_save_text : list (string * string) -> string)
    (train_iterator : option TrainIterator) (iteration : Z)
    (dataloader_save_path : option string) (w : World) :
  dataloader_state_can_be_saved train_iterator dataloader_save_path = true ->
  fst (maybe_save_dataloader_state mpu is_pipeline_first_stage data_parallel_rank
         torch_save_text train_iterator iteration dataloader_save_path w) = Returns tt.
Proof.
  unfold dataloader_state_can_be_saved, maybe_save_dataloader_state.
  destruct train_iterator as [it|], dataloader_save_path as [p|]; try reflexivity.
  destruct (String.eqb p ""); [reflexivity|]. cbn [orb].
  intros H. apply bool_decide_eq_true_1 in H as [st Hst]. rewrite Hst.
  destruct (negb _); [reflexivity|].
  unfold Eff.bind, Eff.when, print, write_file, ensure_directory_exists, Eff.ret.
  now destruct (data_parallel_rank =? 0).
Qed.

Lemma maybe_save_dataloader_state_queue (mpu : Mpu) (is_pipeline_first_stage : bool)
    (data_parallel_rank : Z) (torch_save_text : list (string * string) -> string)
    (train_iterator : option TrainIterator) (iteration : Z)
    (dataloader_save_path : option string) (w : World) :
  async_queue (snd (maybe_save_dataloader_state mpu is_pipeline_first_stage
                      data_parallel_rank torch_save_text train_iterator iteration
                      dataloader_save_path w)) = async_queue w.
Proof.
  unfold maybe_save_dataloader_state.
  destruct train_iterator as [it|], dataloader_save_path as [p|]; try reflexivity.
  destruct (String.eqb p ""); [reflexivity|].
  destruct (iterable_save_state it); [|reflexivity].
  destruct (negb _); [reflexivity|].
  unfold Eff.bind, Eff.when, print, write_file, ensure_directory_exists, Eff.ret.
  now destruct (data_parallel_rank =? 0).
Qed.

Section SavingBlind.

Context {FS : Type}.

Lemma cleaner_blind_ret {A} (a : A) : cleaner_blind (FS := FS) (Py.ret a).
Proof. intros q warn base idle busy H. split; [reflexivity | exact H]. Qed.

Lemma cleaner_blind_raise {A} (e : Py.error) : cleaner_blind (FS := FS) (@Py.raise _ A e).
Proof. intros q warn base idle busy H. split; [reflexivity | exact H]. Qed.

Lemma cleaner_blind_bind {A B} (m : Py.E (Cleaner FS) A) (k : A -> Py.E (Cleaner FS) B) :
  cleaner_blind m -> (forall a, cleaner_blind (k a)) -> cleaner_blind (Py.bind m k).
Proof.
  intros Hm Hk q warn base idle busy H.
  destruct (Hm q warn base idle busy H) as [Ho Hw]. unfold Py.bind.
  destruct (m idle) as [oi wi], (m busy) as [ob wb]. cbn in Ho, Hw. subst ob.
  destruct oi as [a| |e]; [apply Hk, Hw | split; [reflexivity | exact Hw] ..].
Qed.

Lemma cleaner_blind_print_rank_0 (dist : option Dist) (msg : string) :
  cleaner_blind (FS := FS) (cl_print_rank_0 dist msg).
Proof.
  intros q warn base idle busy (Hw & Hfs & Hth).
  destruct (queue_blind_print_rank_0 dist msg _ _ _ _ _ Hw) as [Ho Hw'].
  unfold cl_print_rank_0, Py.lift.
  destruct (print_rank_0 dist msg (cl_world idle)) as [oi wi],
           (print_rank_0 dist msg (cl_world busy)) as [ob wb].
  cbn [fst snd] in Ho, Hw'. subst ob.
  destruct oi; (split; [reflexivity|]); (split; [exact Hw' | split; assumption]).
Qed.

Lemma cleaner_blind_rmtree (rmtree : string -> Py.E FS unit) (ckpt : string) :
  cleaner_blind (cl_rmtree rmtree ckpt).
Proof.
  intros q warn base idle busy (Hw & Hfs & Hth).
  unfold cl_rmtree. rewrite Hfs. destruct (rmtree ckpt (cl_fs idle)) as [r fs].
  split; [reflexivity|]. split; [exact Hw | split; [reflexivity | exact Hth]].
Qed.

Lemma cleaner_blind_remove_iter_ckpts (rmtree : string -> Py.E FS unit) (l : list string) :
  cleaner_blind (remove_iter_ckpts rmtree l).
Proof.
  induction l as [|ckpt l IH]; cbn [remove_iter_ckpts]; [apply cleaner_blind_ret|].
  apply cleaner_blind_bind; [apply cleaner_blind_rmtree | intros _; exact IH].
Qed.

Lemma cleaner_blind_start (l : list string) :
  cleaner_blind (FS := FS) (start_remove_iter_ckpts l).
Proof.
  intros q warn base idle busy (Hw & Hfs & Hth).
  split; [reflexivity|]. cbn. split; [exact Hw | split; [exact Hfs | now rewrite Hth]].
Qed.

Lemma cleaner_blind_with_keys (paths : list string) :
  cleaner_blind (FS := FS) (with_keys paths).
Proof.
  induction paths as [|p paths IH]; cbn [with_keys]; [apply cleaner_blind_ret|].
  destruct (iteration_of p); [|apply cleaner_blind_raise].
  apply cleaner_blind_bind; [exact IH | intros ?; apply cleaner_blind_ret].
Qed.

Lemma cleaner_blind_cleanup (rglob : string -> string -> FS -> list string)
    (rmtree : string -> Py.E FS unit) (paths_str : list string -> string)
    (dist : option Dist) (save_dir : string) (leave_ckpt_num : Z) (do_async : bool) :
  cleaner_blind (cleanup_old_non_persistent_checkpoint rglob rmtree paths_str dist save_dir
                   leave_ckpt_num do_async).
Proof.
  unfold cleanup_old_non_persistent_checkpoint.
  destruct (match dist with Some d => negb (rank d =? 0) | None => false end);
    [apply cleaner_blind_ret|].
  apply cleaner_blind_bind.
  { intros q warn base idle busy H. cbn [fst snd].
    destruct H as (Hw & Hfs & Hth). rewrite Hfs. split; [reflexivity|].
    split; [exact Hw | split; [exact Hfs | exact Hth]]. }
  intros iter_ckpts. apply cleaner_blind_bind; [apply cleaner_blind_with_keys|].
  intros keyed. destruct (bool_decide _); [apply cleaner_blind_ret|].
  apply cleaner_blind_bind; [apply cleaner_blind_print_rank_0|]. intros _.
  apply cleaner_blind_bind; [apply cleaner_blind_print_rank_0|]. intros _.
  destruct do_async; [apply cleaner_blind_start | apply cleaner_blind_remove_iter_ckpts].
Qed.

Lemma saving_blind_ret {A} (a : A) : saving_blind (FS := FS) (Py.ret a).
Proof. intros q warn base idle busy H. split; [reflexivity | exact H]. Qed.

Lemma saving_blind_raise {A} (e : Py.error) : saving_blind (FS := FS) (@Py.raise _ A e).
Proof. intros q warn base idle busy H. split; [reflexivity | exact H]. Qed.

Lemma saving_blind_bind {A B} (m : Py.E (Saving FS) A) (k : A -> Py.E (Saving FS) B) :
  saving_blind m -> (forall a, saving_blind (k a)) -> saving_blind (Py.bind m k).
Proof.
  intros Hm Hk q warn base idle busy H.
  destruct (Hm q warn base idle busy H) as [Ho Hw]. unfold Py.bind.
  destruct (m idle) as [oi wi], (m busy) as [ob wb]. cbn in Ho, Hw. subst ob.
  destruct oi as [a| |e]; [apply Hk, Hw | split; [reflexivity | exact Hw] ..].
Qed.

Lemma saving_blind_when (b : bool) (m : Py.E (Saving FS) unit) :
  saving_blind m -> saving_blind (Py.when b m).
Proof. destruct b; [trivial | intros _; apply saving_blind_ret]. Qed.

Lemma saving_blind_in_world {A} (m : M World A) :
  queue_blind m -> saving_blind (FS := FS) (sg_in_world m).
Proof.
  intros Hm q warn base idle busy ((Hw & Hfs & Hth) & Hdel).
  destruct (Hm _ _ _ _ _ Hw) as [Ho Hw'].
  unfold sg_in_world, Py.lift, sg_world.
  destruct (m (cl_world (sg_cleaner idle))) as [oi wi],
           (m (cl_world (sg_cleaner busy))) as [ob wb].
  cbn [fst snd] in Ho, Hw'. subst ob.
  destruct oi; (split; [reflexivity|]); repeat split; cbn; try assumption; apply Hw'.
Qed.

Lemma saving_blind_in_cleaner {A} (m : Py.E (Cleaner FS) A) :
  cleaner_blind m -> saving_blind (sg_in_cleaner m).
Proof.
  intros Hm q warn base idle busy (Hc & Hdel).
  destruct (Hm _ _ _ _ _ Hc) as [Ho Hc'].
  unfold sg_in_cleaner, Py.zoom.
  destruct (m (sg_cleaner idle)) as [oi ci], (m (sg_cleaner busy)) as [ob cb].
  cbn [fst snd] in Ho, Hc' |- *. split; [exact Ho|]. split; [exact Hc' | exact Hdel].
Qed.

Lemma saving_blind_add_finalize_fn (f : FinalizeFn) (r : option AsyncRequest) :
  saving_blind (FS := FS) (add_finalize_fn f r).
Proof. destruct r; [apply saving_blind_ret | apply saving_blind_raise]. Qed.

End SavingBlind.

Ltac saving_blind_step :=
  first
    [ apply saving_blind_bind; [|intros ?]
    | apply saving_blind_ret | apply saving_blind_raise
    | apply saving_blind_when
    | apply saving_blind_add_finalize_fn
    | apply saving_blind_in_cleaner; apply cleaner_blind_cleanup
    | apply saving_blind_in_world;
      first [ apply queue_blind_dataloader_state | apply queue_blind_metadata
            | repeat queue_blind_step ]
    | match goal with
      | |- saving_blind (if true then _ else _) => cbv iota
      | |- saving_blind (if false then _ else _) => cbv iota
      | |- saving_blind (if ?b then _ else _) => destruct b
      | |- saving_blind (match ?x with _ => _ end) => destruct x
      end ].

(** With asynchronous saving on, everything [save_checkpoint] does after
    its first check is blind to the outstanding saves. *)
Lemma save_checkpoint_body_blind {FS} (env : SaveEnv FS)
    (args : Args) (iteration : Z) (ctx : option CheckpointingContext)
    (pipeline_rank expert_rank tensor_rank : option Z)
    (pipeline_parallel expert_parallel : option bool) (non_persistent_ckpt : bool)
    (train_data_iterator : option TrainIterator) :
  async_save args = true ->
  saving_blind (save_checkpoint_body env args iteration ctx pipeline_rank expert_rank
                  tensor_rank pipeline_parallel expert_parallel non_persistent_ckpt
                  train_data_iterator).
Proof.
  intros Hasync. unfold save_checkpoint_body. cbv zeta.
  rewrite !Hasync. rewrite ?andb_false_r, ?andb_true_r. cbn [negb].
  rewrite ?andb_false_r.
  repeat saving_blind_step.
Qed.

Lemma sg_in_world_returns {FS A} (m : M World A) (a : A) (w' : World) (s : Saving FS) :
  m (sg_world s) = (Returns a, w') ->
  sg_in_world m s = (Py.Ok a, sg_with_world w' s).
Proof. intros H. unfold sg_in_world, Py.lift. now rewrite H. Qed.

Lemma sg_with_world_twice {FS} (w w' : World) (s : Saving FS) :
  sg_with_world w' (sg_with_world w s) = sg_with_world w' s.
Proof. reflexivity. Qed.

Lemma sg_world_with_world {FS} (w : World) (s : Saving FS) :
  sg_world (sg_with_world w s) = w.
Proof. reflexivity. Qed.



(** The request of that call: the directory of the iteration, and the
    callbacks that write the tracker file and report to the one-logger and
    to wandb. *)
Example scheduled_request_of_one_process :
  let r := scheduled_request one_process (run_args None None false true false 1 1 1) 7
             None None None None None in
  req_checkpoint_name r = "/ckpt/iter_0000007"
  /\ req_iteration r = 7
  /\ req_finalize_fns r
     = [IterFinalize "/ckpt/latest_checkpointed_iteration.txt" 7;
        OneLoggerFinalize; WandbFinalize].
Proof. repeat split; reflexivity. Qed.

Example save_while_outstanding_prints :
  stdout (sg_world (snd (save_checkpoint one_process
                           (run_args None None false true true 1 1 1) 7 None None None
                           None None None false None (saving_in saving_world))))
  = [ASYNC_WARNING;
     "saving checkpoint at iteration       7 to /ckpt in torch_dist format";
     "Storing distributed optimizer sharded state of type dp_zero_gather_scatter";
     "  scheduled an async checkpoint save at iteration       7 to /ckpt"].
Proof. reflexivity. Qed.
